(** * SCRAPY core: normalizer, validator, deduplicator, change detector

    A shallow embedding of [backend/scraper_core]: [normalizer.py],
    [schemas.py], [validator.py], [deduplicator.py] and [changes.py],
    followed by the properties of the specification that concern them.

    Python values are modelled as follows.
    - A [str] is the list of its code points ([pystr]); the regular
      expression classes the code uses ([\d], [\w], whitespace) are
      predicates on code points.
    - A [dict] is an association list in insertion order whose keys are
      pairwise distinct; a [set] of identities is a [gset].
    - An exception is a value of [exn]; code that may raise returns an
      [outcome], and [try]/[except] is [try_except].
    - A [float] read from text is the decimal number that was read (a
      reduced fraction); CPython rounds it to the nearest double. *)

From Stdlib Require Import NArith ZArith QArith Ascii String DecimalString List Bool Lia.
From stdpp Require Import base option list gmap sorting.
Import ListNotations.

Local Open Scope N_scope.

(** ** Python strings *)

Abbreviation pystr := (list N).

(** An ASCII literal as a Python string. *)
Definition py (s : string) : pystr := List.map N_of_ascii (list_ascii_of_string s).

Definition ch_plus : N := 43.
Definition ch_comma : N := 44.
Definition ch_dot : N := 46.
Definition ch_dollar : N := 36.
Definition ch_amp : N := 38.
Definition ch_hash : N := 35.
Definition ch_semi : N := 59.
Definition ch_underscore : N := 95.
Definition ch_pound : N := 0xA3.
Definition ch_yen : N := 0xA5.
Definition ch_euro : N := 0x20AC.
Definition ch_rupee : N := 0x20B9.

(** First code points of the ten-digit runs of Unicode category Nd
    (Unicode 14, the database of CPython 3.11): [\d] of [re] and the digits
    [float] accepts. *)
Definition nd_block_starts : list N :=
  [0x30; 0x660; 0x6f0; 0x7c0; 0x966; 0x9e6; 0xa66; 0xae6; 0xb66; 0xbe6; 0xc66;
   0xce6; 0xd66; 0xde6; 0xe50; 0xed0; 0xf20; 0x1040; 0x1090; 0x17e0; 0x1810;
   0x1946; 0x19d0; 0x1a80; 0x1a90; 0x1b50; 0x1bb0; 0x1c40; 0x1c50; 0xa620;
   0xa8d0; 0xa900; 0xa9d0; 0xa9f0; 0xaa50; 0xabf0; 0xff10; 0x104a0; 0x10d30;
   0x11066; 0x110f0; 0x11136; 0x111d0; 0x112f0; 0x11450; 0x114d0; 0x11650;
   0x116c0; 0x11730; 0x118e0; 0x11950; 0x11c50; 0x11d50; 0x11da0; 0x16a60;
   0x16ac0; 0x16b50; 0x1d7ce; 0x1d7d8; 0x1d7e2; 0x1d7ec; 0x1d7f6; 0x1e140;
   0x1e2f0; 0x1e950; 0x1fbf0].

Fixpoint digit_in (starts : list N) (c : N) : option N :=
  match starts with
  | [] => None
  | s :: rest => if (s <=? c) && (c <? s + 10) then Some (c - s) else digit_in rest c
  end.

(** The decimal value of a digit character, [None] for any other. *)
Definition decimal_value (c : N) : option N := digit_in nd_block_starts c.

(** [\d] *)
Definition is_digit (c : N) : bool :=
  match decimal_value c with Some _ => true | None => false end.

(** [str.isspace], the separators of [str.split()] and [str.strip()]. *)
Definition is_space (c : N) : bool :=
  ((0x09 <=? c) && (c <=? 0x0D)) || ((0x1C <=? c) && (c <=? 0x20))
  || (c =? 0x85) || (c =? 0xA0) || (c =? 0x1680)
  || ((0x2000 <=? c) && (c <=? 0x200A))
  || (c =? 0x2028) || (c =? 0x2029) || (c =? 0x202F) || (c =? 0x205F)
  || (c =? 0x3000).

Definition is_ascii_alnum (c : N) : bool :=
  ((0x30 <=? c) && (c <=? 0x39)) || ((0x41 <=? c) && (c <=? 0x5A))
  || ((0x61 <=? c) && (c <=? 0x7A)).

(** The part of the Unicode character database the model does not spell
    out: which code points above ASCII are alphanumeric ([str.isalnum]). *)
Class UnicodeDB := { isalnum_above_ascii : N -> bool }.

(** [\w]: alphanumeric or underscore. *)
Definition is_word `{UnicodeDB} (c : N) : bool :=
  if c <? 128 then is_ascii_alnum c || (c =? ch_underscore)
  else is_digit c || isalnum_above_ascii c.

(** [c in s] for a one-character [c]. *)
Definition contains (c : N) (s : pystr) : bool := existsb (N.eqb c) s.

(** [s.startswith(p)] *)
Fixpoint startswith (p s : pystr) : bool :=
  match p, s with
  | [], _ => true
  | _ :: _, [] => false
  | a :: p', b :: s' => (a =? b) && startswith p' s'
  end.

(** [re.sub('[^...]', '', s)]: the characters of the class are kept. *)
Definition re_sub_outside (keep : N -> bool) (s : pystr) : pystr := List.filter keep s.

(** [s.lstrip(c)] for a one-character [c]. *)
Fixpoint lstrip (c : N) (s : pystr) : pystr :=
  match s with
  | x :: t => if x =? c then lstrip c t else s
  | [] => []
  end.

(** The loop of [s.replace(old, new)] for a non-empty [old]: [skip] counts
    the characters of a match that are still to be consumed. *)
Fixpoint replace_from (old new : pystr) (skip : nat) (s : pystr) : pystr :=
  match s with
  | [] => []
  | c :: t =>
      match skip with
      | S k => replace_from old new k t
      | O =>
          if startswith old s
          then new ++ replace_from old new (Nat.pred (length old)) t
          else c :: replace_from old new 0 t
      end
  end.

(** [s.replace(old, new)]; an empty [old] matches before every character and
    at the end. *)
Definition replace (old new : pystr) (s : pystr) : pystr :=
  match old with
  | [] => new ++ List.flat_map (fun c => c :: new) s
  | _ :: _ => replace_from old new 0 s
  end.

(** [s.split(c)] for a one-character separator: never empty, one more part
    than there are separators. *)
Fixpoint split (c : N) (s : pystr) : list pystr :=
  match s with
  | [] => [[]]
  | x :: t =>
      if x =? c then [] :: split c t
      else match split c t with
           | p :: ps => (x :: p) :: ps
           | [] => [[x]]
           end
  end.

(** ** Exceptions *)

Inductive exn : Type :=
| ValueError (msg : pystr)
| TypeError (msg : pystr)
| IndexError (msg : pystr)
| ValidationError (msg : pystr).  (* pydantic's, a subclass of ValueError *)

Inductive outcome (A : Type) : Type :=
| Ok (a : A)
| Raise (e : exn).
Arguments Ok {A} a.
Arguments Raise {A} e.

Definition bind {A B} (r : outcome A) (k : A -> outcome B) : outcome B :=
  match r with
  | Ok a => k a
  | Raise e => Raise e
  end.

Notation "'let*' x ':=' r 'in' k" := (bind r (fun x => k))
  (at level 10, x name, r at level 100, k at level 200).

(** [try: body  except (ValueError, TypeError): handler] *)
Definition try_except {A} (body : outcome A) (handler : outcome A) : outcome A :=
  match body with
  | Ok a => Ok a
  | Raise (ValueError _) => handler
  | Raise (TypeError _) => handler
  | Raise (ValidationError _) => handler
  | Raise e => Raise e
  end.

(** [s.rindex(c)]: the highest index of [c], [ValueError] when there is none. *)
Fixpoint rfind (c : N) (s : pystr) : option nat :=
  match s with
  | [] => None
  | x :: t =>
      match rfind c t with
      | Some i => Some (S i)
      | None => if x =? c then Some O else None
      end
  end.

Definition rindex (c : N) (s : pystr) : outcome nat :=
  match rfind c s with
  | Some i => Ok i
  | None => Raise (ValueError (py "substring not found"))
  end.

(** [l[i]] *)
Definition getitem {A} (l : list A) (i : nat) : outcome A :=
  match nth_error l i with
  | Some a => Ok a
  | None => Raise (IndexError (py "list index out of range"))
  end.

(** ** Floats read from text *)

Fixpoint digits_value (acc : N) (s : pystr) : option N :=
  match s with
  | [] => Some acc
  | c :: t =>
      match decimal_value c with
      | Some d => digits_value (10 * acc + d) t
      | None => None
      end
  end.

(** [float(s)] on the texts the normalizer hands it, which hold nothing but
    digits and dots: digits with at most one dot and at least one digit are
    read as a decimal number, anything else is a [ValueError]. *)
Definition py_float (s : pystr) : outcome Q :=
  let bad := Raise (ValueError (py "could not convert string to float")) in
  match split ch_dot s with
  | [ip] =>
      match ip, digits_value 0 ip with
      | _ :: _, Some n => Ok (Qred (Z.of_N n # 1))
      | _, _ => bad
      end
  | [ip; fp] =>
      match ip ++ fp, digits_value 0 (ip ++ fp) with
      | _ :: _, Some n => Ok (Qred (Z.of_N n # Pos.of_nat (10 ^ length fp)))
      | _, _ => bad
      end
  | _ => bad
  end.

(** ** normalizer.py *)

Record price_info : Type := {
  value : Q;
  currency : pystr;
  original : pystr;
}.

Definition is_currency_symbol (c : N) : bool :=
  (c =? ch_pound) || (c =? ch_dollar) || (c =? ch_euro) || (c =? ch_yen) || (c =? ch_rupee).

(** [currency_map.get(currency, currency)] *)
Definition currency_map_get (cur : pystr) : pystr :=
  if decide (cur = [ch_dollar]) then py "USD"
  else if decide (cur = [ch_euro]) then py "EUR"
  else if decide (cur = [ch_pound]) then py "GBP"
  else if decide (cur = [ch_yen]) then py "JPY"
  else if decide (cur = [ch_rupee]) then py "INR"
  else cur.

(** [re.search('[£$€¥₹]', s)] *)
Definition currency_match (s : pystr) : option N := List.find is_currency_symbol s.

Definition price_keep (c : N) : bool := is_digit c || (c =? ch_dot) || (c =? ch_comma).

(** [Normalizer.normalize_price] up to the [try]: the text handed to [float]. *)
Definition price_text (price_str : pystr) : outcome pystr :=
  let cleaned := re_sub_outside price_keep price_str in
  if contains ch_comma cleaned && contains ch_dot cleaned then
    let* ic := rindex ch_comma cleaned in
    let* id := rindex ch_dot cleaned in
    if (id <? ic)%nat
    then Ok (replace [ch_comma] [ch_dot] (replace [ch_dot] [] cleaned))
    else Ok (replace [ch_comma] [] cleaned)
  else if contains ch_comma cleaned then
    let parts := split ch_comma cleaned in
    let* decimal := (if (length parts =? 2)%nat
                     then let* p1 := getitem parts 1 in Ok (length p1 <=? 2)%nat
                     else Ok false) in
    if (decimal : bool)
    then Ok (replace [ch_comma] [ch_dot] cleaned)
    else Ok (replace [ch_comma] [] cleaned)
  else Ok cleaned.

Definition normalize_price (price_str : pystr) : outcome (option price_info) :=
  match price_str with
  | [] => Ok None
  | _ :: _ =>
      let* cleaned := price_text price_str in
      try_except
        (let* v := py_float cleaned in
         let cur := match currency_match price_str with
                    | Some c => [c]
                    | None => py "USD"
                    end in
         Ok (Some {| value := v; currency := currency_map_get cur;
                     original := price_str |}))
        (Ok None)
  end.

(** [Normalizer.normalize_phone] *)
Definition normalize_phone (phone : pystr) : outcome (option pystr) :=
  match phone with
  | [] => Ok None
  | _ :: _ =>
      let digits := re_sub_outside (fun c => is_digit c || (c =? ch_plus)) phone in
      let has_plus := startswith [ch_plus] digits in
      let digits_only := lstrip ch_plus digits in
      if (length digits_only <? 10)%nat then Ok None
      else
        let digits_only :=
          if (length digits_only =? 10)%nat && negb has_plus
          then py "1" ++ digits_only else digits_only in
        Ok (Some (if negb has_plus then ch_plus :: digits_only else digits))
  end.

(** The longest prefix whose characters all satisfy [f], and the rest. *)
Fixpoint take_while (f : N -> bool) (s : pystr) : pystr :=
  match s with
  | c :: t => if f c then c :: take_while f t else []
  | [] => []
  end.

Fixpoint drop_while (f : N -> bool) (s : pystr) : pystr :=
  match s with
  | c :: t => if f c then drop_while f t else s
  | [] => []
  end.

(** A match of [&#\d+;] or [&\w+;] at the head of [s]: the prefix, the
    longest run of characters of the class (at least one), then [;].  The
    class never holds [;], so no shorter run can match.  Returns the length
    of the match. *)
Definition entity_match (prefix : pystr) (cls : N -> bool) (s : pystr) : option nat :=
  if startswith prefix s then
    let rest := skipn (length prefix) s in
    let run := take_while cls rest in
    match run, skipn (length run) rest with
    | _ :: _, c :: _ =>
        if c =? ch_semi then Some (length prefix + length run + 1)%nat else None
    | _, _ => None
    end
  else None.

(** [re.sub(pattern, '', s)] for those two patterns: leftmost matches are
    removed, scanning resumes after each match. *)
Fixpoint re_sub_entity (prefix : pystr) (cls : N -> bool) (skip : nat) (s : pystr) : pystr :=
  match s with
  | [] => []
  | c :: t =>
      match skip with
      | S k => re_sub_entity prefix cls k t
      | O =>
          match entity_match prefix cls s with
          | Some n => re_sub_entity prefix cls (Nat.pred n) t
          | None => c :: re_sub_entity prefix cls 0 t
          end
      end
  end.

(** [s.split()]: the maximal runs of non-whitespace; [cur] is the run being
    read, reversed. *)
Fixpoint split_whitespace (cur : pystr) (s : pystr) : list pystr :=
  match s with
  | [] => match cur with [] => [] | _ :: _ => [rev cur] end
  | c :: t =>
      if is_space c
      then match cur with
           | [] => split_whitespace [] t
           | _ :: _ => rev cur :: split_whitespace [] t
           end
      else split_whitespace (c :: cur) t
  end.

(** [sep.join(parts)] *)
Fixpoint join (sep : pystr) (parts : list pystr) : pystr :=
  match parts with
  | [] => []
  | [p] => p
  | p :: ps => p ++ sep ++ join sep ps
  end.

(** [s.strip()] *)
Definition strip (s : pystr) : pystr :=
  rev (drop_while is_space (rev (drop_while is_space s))).

(** The [entities] table of [clean_text], in its insertion order. *)
Definition entities : list (pystr * pystr) :=
  [ (py "&nbsp;", py " "); (py "&amp;", py "&"); (py "&lt;", py "<");
    (py "&gt;", py ">"); (py "&quot;", [34]); (py "&apos;", py "'");
    (py "&#39;", py "'"); (py "&hellip;", py "..."); (py "&mdash;", [0x2014]);
    (py "&ndash;", [0x2013]) ].

(** [Normalizer.clean_text] *)
Definition clean_text `{UnicodeDB} (text : pystr) : outcome pystr :=
  match text with
  | [] => Ok []
  | _ :: _ =>
      let text := fold_left (fun text '(entity, replacement) =>
                               replace entity replacement text) entities text in
      let text := re_sub_entity [ch_amp; ch_hash] is_digit 0 text in
      let text := re_sub_entity [ch_amp] is_word 0 text in
      let text := join (py " ") (split_whitespace [] text) in
      Ok (strip text)
  end.

(** ** Python values and [json.dumps] *)

#[warnings="-register-all"]
Inductive pyvalue : Type :=
| VNone
| VBool (b : bool)
| VInt (z : Z)
| VFloat (q : Q)
| VStr (s : pystr)
| VList (l : list pyvalue)
| VDict (d : list (pystr * pyvalue)).

Abbreviation pydict := (list (pystr * pyvalue)).

(** [k in d] and [d.get(k)]: [None] when the key is absent. *)
Fixpoint dict_get {V} (d : list (pystr * V)) (k : pystr) : option V :=
  match d with
  | [] => None
  | (k', v) :: rest => if decide (k' = k) then Some v else dict_get rest k
  end.

(** [d[k] = v]: an existing key keeps its place, a new key goes last. *)
Fixpoint dict_set {V} (d : list (pystr * V)) (k : pystr) (v : V) : list (pystr * V) :=
  match d with
  | [] => [(k, v)]
  | (k', v') :: rest =>
      if decide (k' = k) then (k, v) :: rest else (k', v') :: dict_set rest k v
  end.

(** The invariant of a Python dict: no key twice. *)
Definition is_dict {V} (d : list (pystr * V)) : Prop := NoDup (d.*1).

(** Order of [str] values: by code point, a proper prefix first. *)
Fixpoint str_le (a b : pystr) : bool :=
  match a, b with
  | [], _ => true
  | _ :: _, [] => false
  | x :: a', y :: b' => (x <? y) || ((x =? y) && str_le a' b')
  end.

Definition key_le {V} (x y : pystr * V) : Prop := str_le x.1 y.1 = true.

#[global] Instance key_le_dec {V} (x y : pystr * V) : Decision (key_le x y).
Proof. unfold key_le. apply _. Defined.

(** [sorted(d.items())], the order [sort_keys=True] emits the items in. *)
Definition sorted_items {V} (d : list (pystr * V)) : list (pystr * V) :=
  merge_sort key_le d.

Definition hex_digit (n : N) : N := if n <? 10 then 48 + n else 87 + n.

(** ['\\u{0:04x}'.format(n)] *)
Definition u_escape (n : N) : pystr :=
  py "\u" ++ [hex_digit (n / 4096 mod 16); hex_digit (n / 256 mod 16);
              hex_digit (n / 16 mod 16); hex_digit (n mod 16)].

(** One character under [ensure_ascii=True]. *)
Definition json_escape_char (c : N) : pystr :=
  if c =? 92 then [92; 92]
  else if c =? 34 then [92; 34]
  else if c =? 8 then py "\b"
  else if c =? 12 then py "\f"
  else if c =? 10 then py "\n"
  else if c =? 13 then py "\r"
  else if c =? 9 then py "\t"
  else if (32 <=? c) && (c <=? 126) then [c]
  else if c <? 0x10000 then u_escape c
  else let n := c - 0x10000 in
       u_escape (N.lor 0xd800 (N.land (N.shiftr n 10) 0x3ff))
       ++ u_escape (N.lor 0xdc00 (N.land n 0x3ff)).

Definition json_string (s : pystr) : pystr :=
  [34] ++ List.flat_map json_escape_char s ++ [34].

(** [repr] of a float, CPython's shortest text that reads back as the same
    double; not spelt out. *)
Class FloatRepr := { float_repr : Q -> pystr }.

Definition int_repr (z : Z) : pystr := py (NilZero.string_of_int (Z.to_int z)).

Definition json_item (kv : pystr * pystr) : pystr := json_string kv.1 ++ py ": " ++ kv.2.

(** [json.dumps(v, sort_keys=True)] *)
Fixpoint json_dumps `{FloatRepr} (v : pyvalue) : pystr :=
  match v with
  | VNone => py "null"
  | VBool true => py "true"
  | VBool false => py "false"
  | VInt z => int_repr z
  | VFloat q => float_repr q
  | VStr s => json_string s
  | VList l => py "[" ++ join (py ", ") (List.map json_dumps l) ++ py "]"
  | VDict d =>
      py "{"
      ++ join (py ", ")
           (List.map json_item
              (sorted_items (List.map (fun kv => (fst kv, json_dumps (snd kv))) d)))
      ++ py "}"
  end.

(** [s.encode()]: UTF-8. *)
Definition utf8_char (c : N) : list N :=
  if c <? 0x80 then [c]
  else if c <? 0x800 then [0xC0 + c / 64; 0x80 + c mod 64]
  else if c <? 0x10000 then [0xE0 + c / 4096; 0x80 + c / 64 mod 64; 0x80 + c mod 64]
  else [0xF0 + c / 262144; 0x80 + c / 4096 mod 64; 0x80 + c / 64 mod 64; 0x80 + c mod 64].

Definition encode (s : pystr) : list N := List.flat_map utf8_char s.

(** ** deduplicator.py *)

(** [hashlib.md5(data).hexdigest()] *)
Class Hashlib := { md5_hexdigest : list N -> pystr }.

Section Deduplicator.
Context `{Hashlib} `{FloatRepr}.

(** [{k: record.get(k) for k in key_fields if k in record}] *)
Definition key_data (record : pydict) (key_fields : list pystr) : pydict :=
  fold_left (fun acc k =>
               match dict_get record k with
               | Some v => dict_set acc k v
               | None => acc
               end) key_fields [].

(** [Deduplicator.generate_id] *)
Definition generate_id (record : pydict) (key_fields : list pystr) : pystr :=
  let key_str := json_dumps (VDict (key_data record key_fields)) in
  md5_hexdigest (encode key_str).

(** [Deduplicator.generate_fingerprint] *)
Definition generate_fingerprint (record : pydict) : pystr :=
  let record_str := json_dumps (VDict record) in
  md5_hexdigest (encode record_str).

(** The identities of a list of records. *)
Definition ids (key_fields : list pystr) (records : list pydict) : list pystr :=
  List.map (fun r => generate_id r key_fields) records.

(** One turn of the loop of [deduplicate]. *)
Definition dedup_step (key_fields : list pystr)
    (st : gset pystr * list pydict) (record : pydict) : gset pystr * list pydict :=
  let '(seen_ids, unique_records) := st in
  let record_id := generate_id record key_fields in
  if decide (record_id ∈ seen_ids) then (seen_ids, unique_records)
  else ({[record_id]} ∪ seen_ids, unique_records ++ [record]).

(** [Deduplicator.deduplicate] *)
Definition deduplicate (records : list pydict) (key_fields : list pystr) : list pydict :=
  (fold_left (dedup_step key_fields) records (∅, [])).2.
End Deduplicator.

(** ** schemas.py *)

(** The validators pydantic runs for a declared field type before the
    validators of the schema: what they accept besides values that already
    have the type, and what they turn it into, depends on the pydantic
    release and is not spelt out.  Nor is the order in which the keys the
    schema does not declare are walked: pydantic collects them in a [set],
    whose iteration order depends on the hashes of the keys. *)
Class Pydantic := {
  str_validator : pyvalue -> option pystr;
  int_validator : pyvalue -> option Z;
  extra_order : list pystr -> list pystr;
  extra_order_perm : forall keys, extra_order keys ≡ₚ keys;
}.

Inductive field_type : Type := TStr | TInt | TListStr.

Record field : Type := {
  fname : pystr;
  ftype : field_type;
  allow_none : bool;                       (* declared [Optional[...]] *)
  default_value : option pyvalue;          (* [None]: the field is required *)
  validators : list (pyvalue -> outcome pyvalue);   (* [@validator]s, in order *)
}.

Inductive extra_policy : Type := ExtraIgnore | ExtraAllow.

Record schema : Type := {
  fields : list field;
  extra : extra_policy;   (* [Config.extra]; pydantic's default is to ignore *)
}.

Definition truthy_str (v : pystr) : bool := match v with [] => false | _ :: _ => true end.

(** [ProductSchema.title_must_exist] *)
Definition title_must_exist (v : pyvalue) : outcome pyvalue :=
  match v with
  | VStr v =>
      if negb (truthy_str v) || (length (strip v) =? 0)%nat
      then Raise (ValueError (py "Title is required"))
      else if (500 <? length v)%nat
      then Raise (ValueError (py "Title too long (max 500 characters)"))
      else Ok (VStr (strip v))
  | _ => Raise (TypeError (py "title is not a str"))
  end.

(** [ProductSchema.validate_price] *)
Definition validate_price (v : pyvalue) : outcome pyvalue :=
  match v with
  | VStr s =>
      if truthy_str s && negb (existsb is_digit s)
      then Raise (ValueError (py "Price must contain numbers"))
      else Ok v
  | _ => Ok v
  end.

(** [ImageSchema.url_must_be_valid], [AssetSchema.url_must_be_valid] *)
Definition url_must_be_valid (v : pyvalue) : outcome pyvalue :=
  match v with
  | VStr s =>
      if negb (truthy_str s) || negb (startswith (py "http") s)
      then Raise (ValueError (py "URL must be a valid HTTP/HTTPS URL"))
      else Ok v
  | _ => Raise (TypeError (py "url is not a str"))
  end.

Definition email_char (c : N) : bool := negb (is_space c) && negb (c =? 64).

(** A dot of [s] with a character of the class before and after it: what
    [[^\s@]+\.[^\s@]+] needs of a text made of characters of the class. *)
Fixpoint inner_dot (first : bool) (s : pystr) : bool :=
  match s with
  | c :: ((_ :: _) as t) => (negb first && (c =? ch_dot)) || inner_dot false t
  | _ => false
  end.

(** [re.match('^[^\s@]+@[^\s@]+\.[^\s@]+$', v)]; [$] also matches before a
    final newline. *)
Definition email_shape (v : pystr) : bool :=
  let v := match rev v with 10 :: r => rev r | _ => v end in
  match split 64 v with
  | [loc; dom] =>
      truthy_str loc && forallb email_char loc && forallb email_char dom
      && inner_dot true dom
  | _ => false
  end.

(** [ContactSchema.validate_email], run on each item of [emails]. *)
Definition validate_email (v : pyvalue) : outcome pyvalue :=
  match v with
  | VStr s => if email_shape s then Ok v
              else Raise (ValueError (py "Invalid email format: " ++ s))
  | _ => Raise (TypeError (py "email is not a str"))
  end.

(** A validator declared with [each_item=True]. *)
Fixpoint each_item_list (f : pyvalue -> outcome pyvalue) (l : list pyvalue)
    : outcome (list pyvalue) :=
  match l with
  | [] => Ok []
  | x :: t =>
      let* x' := f x in
      let* t' := each_item_list f t in
      Ok (x' :: t')
  end.

Definition each_item (f : pyvalue -> outcome pyvalue) (v : pyvalue) : outcome pyvalue :=
  match v with
  | VList l => let* l' := each_item_list f l in Ok (VList l')
  | _ => Ok v
  end.

(** [TextSchema.limit_items]: [v[:100]] *)
Definition limit_items (v : pyvalue) : outcome pyvalue :=
  match v with
  | VList l => Ok (VList (firstn 100 l))
  | _ => Raise (TypeError (py "not a list"))
  end.

Definition required (name : string) (t : field_type)
    (vs : list (pyvalue -> outcome pyvalue)) : field :=
  {| fname := py name; ftype := t; allow_none := false; default_value := None;
     validators := vs |}.

Definition optional (name : string) (t : field_type)
    (vs : list (pyvalue -> outcome pyvalue)) : field :=
  {| fname := py name; ftype := t; allow_none := true; default_value := Some VNone;
     validators := vs |}.

Definition defaulted (name : string) (t : field_type) (d : pyvalue)
    (vs : list (pyvalue -> outcome pyvalue)) : field :=
  {| fname := py name; ftype := t; allow_none := false; default_value := Some d;
     validators := vs |}.

Definition ProductSchema : schema :=
  {| fields := [ required "title" TStr [title_must_exist];
                 optional "price" TStr [validate_price];
                 optional "image" TStr [];
                 optional "link" TStr [];
                 optional "description" TStr [] ];
     extra := ExtraAllow |}.

Definition ImageSchema : schema :=
  {| fields := [ required "url" TStr [url_must_be_valid];
                 optional "alt" TStr [];
                 optional "width" TInt [];
                 optional "height" TInt [] ];
     extra := ExtraIgnore |}.

Definition ContactSchema : schema :=
  {| fields := [ defaulted "emails" TListStr (VList []) [each_item validate_email];
                 defaulted "phones" TListStr (VList []) [];
                 defaulted "socials" TListStr (VList []) [] ];
     extra := ExtraIgnore |}.

Definition TextSchema : schema :=
  {| fields := [ defaulted "title" TStr (VStr []) [];
                 defaulted "meta" TStr (VStr []) [];
                 defaulted "headings" TListStr (VList []) [limit_items];
                 defaulted "paragraphs" TListStr (VList []) [limit_items] ];
     extra := ExtraIgnore |}.

Definition AssetSchema : schema :=
  {| fields := [ required "filename" TStr [];
                 required "url" TStr [url_must_be_valid];
                 required "type" TStr [];
                 optional "size" TStr [] ];
     extra := ExtraIgnore |}.

Section Pydantic.
Context `{Pydantic}.

Definition type_error (name : pystr) (what : string) : exn :=
  ValidationError (name ++ py ": " ++ py what).

Fixpoint str_items (name : pystr) (l : list pyvalue) : outcome (list pyvalue) :=
  match l with
  | [] => Ok []
  | x :: t =>
      match str_validator x with
      | Some s => let* t' := str_items name t in Ok (VStr s :: t')
      | None => Raise (type_error name "str type expected")
      end
  end.

(** Validation against the declared type. *)
Definition validate_type (name : pystr) (t : field_type) (v : pyvalue) : outcome pyvalue :=
  match t with
  | TStr =>
      match str_validator v with
      | Some s => Ok (VStr s)
      | None => Raise (type_error name "str type expected")
      end
  | TInt =>
      match int_validator v with
      | Some z => Ok (VInt z)
      | None => Raise (type_error name "value is not a valid integer")
      end
  | TListStr =>
      match v with
      | VList l => let* l' := str_items name l in Ok (VList l')
      | _ => Raise (type_error name "value is not a valid list")
      end
  end.

(** An exception of a [@validator] becomes a validation error. *)
Fixpoint run_validators (name : pystr) (vs : list (pyvalue -> outcome pyvalue))
    (v : pyvalue) : outcome pyvalue :=
  match vs with
  | [] => Ok v
  | f :: rest =>
      match f v with
      | Ok v' => run_validators name rest v'
      | Raise (ValueError m) | Raise (TypeError m) => Raise (ValidationError (name ++ py ": " ++ m))
      | Raise e => Raise e
      end
  end.

(** One declared field: a missing field takes its default unvalidated, a
    [None] is accepted as it is where the field is [Optional]. *)
Definition validate_field (f : field) (input : pydict) : outcome pyvalue :=
  match dict_get input (fname f) with
  | None =>
      match default_value f with
      | Some d => Ok d
      | None => Raise (type_error (fname f) "field required")
      end
  | Some VNone =>
      if allow_none f then Ok VNone
      else Raise (type_error (fname f) "none is not an allowed value")
  | Some v =>
      let* v' := validate_type (fname f) (ftype f) v in
      run_validators (fname f) (validators f) v'
  end.

(** Every field is validated; the exception raised reports the first
    failure (pydantic's text lists them all). *)
Fixpoint validate_fields (fs : list field) (input : pydict) : outcome pydict :=
  match fs with
  | [] => Ok []
  | f :: rest =>
      let* v := validate_field f input in
      let* values := validate_fields rest input in
      Ok ((fname f, v) :: values)
  end.

Definition is_declared (sch : schema) (k : pystr) : bool :=
  existsb (fun f => bool_decide (fname f = k)) (fields sch).

(** [extra = input_data.keys() - fields_set] and
    [for f in extra: values[f] = input_data[f]]: the keys the schema does
    not declare, in the order the set yields them, with their values. *)
Definition extra_items (sch : schema) (input : pydict) : pydict :=
  omap (fun k => (fun v => (k, v)) <$> dict_get input k)
    (extra_order (List.filter (fun k => negb (is_declared sch k)) (input.*1))).

(** [Schema( **input).dict()]: the declared fields, then, where the schema
    allows them, the other keys of the input with their values. *)
Definition model_dict (sch : schema) (input : pydict) : outcome pydict :=
  let* values := validate_fields (fields sch) input in
  match extra sch with
  | ExtraAllow => Ok (values ++ extra_items sch input)
  | ExtraIgnore => Ok values
  end.
End Pydantic.

(** ** validator.py *)

(** A scrape result: a dict with at most the keys below.  [products],
    [images] and [assets] hold lists of records, [contacts] and [text] one
    record each, [crawl] a list of URLs. *)
Record scrape_result : Type := {
  products : option (list pydict);
  images : option (list pydict);
  contacts : option pydict;
  text : option pydict;
  assets : option (list pydict);
  crawl : option (list pystr);
}.

Definition empty_result : scrape_result :=
  {| products := None; images := None; contacts := None; text := None;
     assets := None; crawl := None |}.

Definition set_products (v : list pydict) (r : scrape_result) : scrape_result :=
  {| products := Some v; images := images r; contacts := contacts r;
     text := text r; assets := assets r; crawl := crawl r |}.
Definition set_images (v : list pydict) (r : scrape_result) : scrape_result :=
  {| products := products r; images := Some v; contacts := contacts r;
     text := text r; assets := assets r; crawl := crawl r |}.
Definition set_contacts (v : pydict) (r : scrape_result) : scrape_result :=
  {| products := products r; images := images r; contacts := Some v;
     text := text r; assets := assets r; crawl := crawl r |}.
Definition set_text (v : pydict) (r : scrape_result) : scrape_result :=
  {| products := products r; images := images r; contacts := contacts r;
     text := Some v; assets := assets r; crawl := crawl r |}.
Definition set_assets (v : list pydict) (r : scrape_result) : scrape_result :=
  {| products := products r; images := images r; contacts := contacts r;
     text := text r; assets := Some v; crawl := crawl r |}.
Definition set_crawl (v : list pystr) (r : scrape_result) : scrape_result :=
  {| products := products r; images := images r; contacts := contacts r;
     text := text r; assets := assets r; crawl := Some v |}.

(** An entry of [Validator.errors]. *)
Record error_entry : Type := {
  err_type : pystr;
  err_index : option nat;
  err_error : pystr;
  err_data : pydict;
}.

(** The state of a [Validator] object. *)
Record Validator : Type := {
  error_threshold : Q;
  errors : list error_entry;
}.

(** [Validator(error_threshold)] *)
Definition new_validator (error_threshold : Q) : Validator :=
  {| error_threshold := error_threshold; errors := [] |}.

Definition default_threshold : Q := 1 # 2.

(** [self.errors.append(entry)] *)
Definition errors_append (self : Validator) (entry : error_entry) : Validator :=
  {| error_threshold := error_threshold self; errors := errors self ++ [entry] |}.

(** [self] has the threshold of [self0] and its errors, then some more. *)
Definition extends (self0 self : Validator) : Prop :=
  error_threshold self = error_threshold self0
  /\ exists es, errors self = errors self0 ++ es.

(** [str(e)] *)
Definition exn_str (e : exn) : pystr :=
  match e with
  | ValueError m | TypeError m | IndexError m | ValidationError m => m
  end.

(** [enumerate(l)] *)
Definition enumerate {A} (l : list A) : list (nat * A) := combine (seq 0 (length l)) l.

(** A non-empty list or dict is true. *)
Definition truthy {A} (l : list A) : bool := match l with [] => false | _ :: _ => true end.

(** *** The error ratio as text

    [invalid_records / total_records] is the double nearest to the
    fraction, and [f"{x:.2%}"] multiplies the double by 100, which rounds
    again, and prints the product with two decimals, rounded from its
    exact value; every rounding sends a tie to the even neighbour. *)

(** The integer nearest to [n / d], for [0 <= n] and [0 < d]. *)
Definition round_half_even (n d : Z) : Z :=
  let q := (n / d)%Z in
  let r := (n mod d)%Z in
  if (2 * r <? d)%Z then q
  else if (d <? 2 * r)%Z then (q + 1)%Z
  else if Z.even q then q else (q + 1)%Z.

(** [m * 2 ^ e] as a fraction. *)
Definition scaled (m e : Z) : Z * Z :=
  if (0 <=? e)%Z then (m * 2 ^ e, 1)%Z else (m, 2 ^ (- e))%Z.

(** The double nearest to [n / d], as [(m, e)] for [m * 2 ^ e] with a
    significand [m] of 53 bits.  The exponent is not bounded: the counts of
    records do not reach the ends of its range. *)
Definition nearest_double (n d : Z) : Z * Z :=
  if (n <=? 0)%Z then (0, 0)%Z
  else
    let e1 := (Z.log2 n - Z.log2 d - 52)%Z in
    let significand e :=
      if (0 <=? e)%Z then (n, d * 2 ^ e)%Z else (n * 2 ^ (- e), d)%Z in
    let e := if ((significand e1).1 / (significand e1).2 <? 2 ^ 52)%Z
             then (e1 - 1)%Z else e1 in
    (round_half_even (significand e).1 (significand e).2, e).

(** [f"{invalid_records / total_records:.2%}"] *)
Definition format_percent (invalid_records total_records : nat) : pystr :=
  let error_ratio := nearest_double (Z.of_nat invalid_records) (Z.of_nat total_records) in
  let hundredfold := scaled (100 * error_ratio.1) error_ratio.2 in
  let percent := nearest_double hundredfold.1 hundredfold.2 in
  let exact := scaled percent.1 percent.2 in
  let hundredths := round_half_even (100 * exact.1) exact.2 in
  let decimals := (hundredths mod 100)%Z in
  int_repr (hundredths / 100) ++ py "." ++ (if (decimals <? 10)%Z then py "0" else [])
  ++ int_repr decimals ++ py "%".

Section Validator.
Context `{Pydantic}.

(** The loop of [validate_products], [validate_images] and
    [validate_assets], which differ in the schema and the [type] logged. *)
Definition validate_each (sch : schema) (type : string)
    (self : Validator) (records : list pydict) : Validator * list pydict :=
  fold_left
    (fun '(self, validated) '(idx, record) =>
       match model_dict sch record with
       | Ok d => (self, validated ++ [d])
       | Raise e =>
           (errors_append self {| err_type := py type; err_index := Some idx;
                                  err_error := exn_str e; err_data := record |},
            validated)
       end)
    (enumerate records) (self, []).

(** The validated record of a record that passes. *)
Definition accepted (sch : schema) (record : pydict) : option pydict :=
  match model_dict sch record with
  | Ok d => Some d
  | Raise _ => None
  end.

Definition validate_products := validate_each ProductSchema "product".
Definition validate_images := validate_each ImageSchema "image".
Definition validate_assets := validate_each AssetSchema "asset".

(** The body of [validate_contacts] and [validate_text]. *)
Definition validate_one (sch : schema) (type : string)
    (self : Validator) (record : pydict) : Validator * option pydict :=
  match model_dict sch record with
  | Ok d => (self, Some d)
  | Raise e =>
      (errors_append self {| err_type := py type; err_index := None;
                             err_error := exn_str e; err_data := record |},
       None)
  end.

Definition validate_contacts := validate_one ContactSchema "contact".
Definition validate_text := validate_one TextSchema "text".

(** The state of [validate_result] between two of its [if] blocks. *)
Record run_state : Type := {
  self_ : Validator;
  validated_ : scrape_result;
  total_records_ : nat;
}.

(** [if key in result and result[key]:] for a category that holds a list:
    validate it, store the validated list, count all its records. *)
Definition list_block (validate : Validator -> list pydict -> Validator * list pydict)
    (store : list pydict -> scrape_result -> scrape_result)
    (field_ : option (list pydict)) (st : run_state) : run_state :=
  match field_ with
  | Some ((_ :: _) as records) =>
      let '(self, v) := validate (self_ st) records in
      {| self_ := self; validated_ := store v (validated_ st);
         total_records_ := total_records_ st + length records |}
  | _ => st
  end.

(** The same for [contacts] and [text]: the record is stored and counted
    only when it validated. *)
Definition single_block (validate : Validator -> pydict -> Validator * option pydict)
    (store : pydict -> scrape_result -> scrape_result)
    (field_ : option pydict) (st : run_state) : run_state :=
  match field_ with
  | Some ((_ :: _) as record) =>
      match validate (self_ st) record with
      | (self, Some ((_ :: _) as v)) =>
          {| self_ := self; validated_ := store v (validated_ st);
             total_records_ := total_records_ st + 1 |}
      | (self, _) =>
          {| self_ := self; validated_ := validated_ st;
             total_records_ := total_records_ st |}
      end
  | _ => st
  end.

(** [validate_result] up to the threshold check. *)
Definition validate_categories (self : Validator) (result : scrape_result) : run_state :=
  let st := {| self_ := self; validated_ := empty_result; total_records_ := 0 |} in
  let st := list_block validate_products set_products (products result) st in
  let st := list_block validate_images set_images (images result) st in
  let st := single_block validate_contacts set_contacts (contacts result) st in
  let st := single_block validate_text set_text (text result) st in
  let st := list_block validate_assets set_assets (assets result) st in
  match crawl result with
  | Some urls => {| self_ := self_ st; validated_ := set_crawl urls (validated_ st);
                    total_records_ := total_records_ st |}
  | None => st
  end.

(** [invalid_records / total_records > self.error_threshold], on exact
    fractions. *)
Definition ratio_exceeds (invalid_records total_records : nat) (threshold : Q) : bool :=
  negb (Qle_bool (Z.of_nat invalid_records # Pos.of_nat total_records) threshold).

(** The text of the [ValueError]:
    [f"Error threshold exceeded: {error_ratio:.2%} errors ({invalid_records}/{total_records})"]. *)
Definition threshold_message (invalid_records total_records : nat) : pystr :=
  py "Error threshold exceeded: " ++ format_percent invalid_records total_records
  ++ py " errors (" ++ int_repr (Z.of_nat invalid_records) ++ py "/"
  ++ int_repr (Z.of_nat total_records) ++ py ")".

(** [Validator.validate_result]: the validator after the call, and what
    the call returned or raised.  As in the source, [invalid_records] is
    read before any record is validated. *)
Definition validate_result (self : Validator) (result : scrape_result)
    : Validator * outcome scrape_result :=
  let invalid_records := length (errors self) in
  let st := validate_categories self result in
  let total_records := total_records_ st in
  if (0 <? total_records)%nat && ratio_exceeds invalid_records total_records
                                   (error_threshold (self_ st))
  then (self_ st, Raise (ValueError (threshold_message invalid_records total_records)))
  else (self_ st, Ok (validated_ st)).


(** [Validator.clear_errors] *)
Definition clear_errors (self : Validator) : Validator :=
  {| error_threshold := error_threshold self; errors := [] |}.
End Validator.

(** *** The entries a run adds to the log *)

Section RunErrors.
Context `{Pydantic}.





End RunErrors.

(** ** changes.py *)

(** A snapshot as [json.load] returns it: a dict with at most these keys. *)
Record snapshot : Type := {
  snap_timestamp : option Z;
  snap_job_id : option pystr;
  snap_data : option scrape_result;
  snap_record_ids : option (list (pystr * list pystr));
}.

(** The dict is not empty. *)
Definition snapshot_truthy (s : snapshot) : bool :=
  bool_decide (is_Some (snap_timestamp s)) || bool_decide (is_Some (snap_job_id s))
  || bool_decide (is_Some (snap_data s)) || bool_decide (is_Some (snap_record_ids s)).

Record updated_entry : Type := {
  upd_id : pystr;
  upd_previous : pydict;
  upd_current : pydict;
}.

(** The dict [detect_changes] returns.  [new] is a scrape result because
    without a previous snapshot it is the current result itself. *)
Record changes : Type := {
  new : scrape_result;
  updated : list (pystr * list updated_entry);
  removed : list (pystr * list pystr);
}.

Definition default_key_fields : list (pystr * list pystr) :=
  [ (py "products", [py "title"; py "url"]);
    (py "images", [py "url"]);
    (py "assets", [py "url"]) ].

(** [result[data_type]] for the three list categories, [None] when the key
    is missing. *)
Definition get_category (r : scrape_result) (data_type : pystr) : option (list pydict) :=
  if decide (data_type = py "products") then products r
  else if decide (data_type = py "images") then images r
  else if decide (data_type = py "assets") then assets r
  else None.

Definition set_category (data_type : pystr) (v : list pydict) (r : scrape_result)
    : scrape_result :=
  if decide (data_type = py "products") then set_products v r
  else if decide (data_type = py "images") then set_images v r
  else if decide (data_type = py "assets") then set_assets v r
  else r.

(** A file of the snapshot directory. *)
Record snapshot_file : Type := {
  file_name : pystr;
  st_mtime : Z;
  file_content : snapshot;
}.

Fixpoint endswith_from (p s : pystr) (n : nat) : bool :=
  match n with
  | O => startswith p s && (length s =? length p)%nat
  | S k => match s with
           | [] => false
           | _ :: t => endswith_from p t k
           end
  end.

(** [s.endswith(p)] *)
Definition endswith (p s : pystr) : bool :=
  (length p <=? length s)%nat && endswith_from p s (length s - length p).

(** A job identifier made of ASCII letters, digits, [-], [.] and [_] only.
    It has none of the characters [Path.glob] reads as part of a pattern
    ([*], [?] and an opening bracket), no path separator, and nothing a
    file name cannot hold. *)
Definition plain_char (c : N) : bool :=
  ((48 <=? c) && (c <=? 57)) || ((65 <=? c) && (c <=? 90)) || ((97 <=? c) && (c <=? 122))
  || (c =? 45) || (c =? 46) || (c =? 95).

Definition plain_id (job_id : pystr) : bool := forallb plain_char job_id.

(** A name matched by the pattern [<job_id>_*.json].  The test is what the
    pattern means when the job identifier is taken literally, as it is for
    a [plain_id]; for an identifier with pattern characters [Path.glob]
    matches other names, which this does not follow. *)
Definition glob_matches (job_id : pystr) (name : pystr) : bool :=
  startswith (job_id ++ py "_") name
  && endswith (py ".json") (skipn (length job_id + 1) name).

(** [max(files, key=lambda p: p.stat().st_mtime)]: the first of the latest. *)
Fixpoint latest (best : snapshot_file) (files : list snapshot_file) : snapshot_file :=
  match files with
  | [] => best
  | f :: rest => latest (if (st_mtime best <? st_mtime f)%Z then f else best) rest
  end.

(** [ChangeDetector.load_latest_snapshot] over the files of the directory. *)
Definition load_latest_snapshot (dir : list snapshot_file) (job_id : pystr) : option snapshot :=
  match List.filter (fun f => glob_matches job_id (file_name f)) dir with
  | [] => None
  | f :: rest => Some (file_content (latest f rest))
  end.

Section ChangeDetector.
Context `{Hashlib} `{FloatRepr}.

(** [{generate_id(r, fields): r for r in current_records}]: a later record
    replaces an earlier one of the same identity. *)
Definition index_by_id (fields : list pystr) (records : list pydict) : gmap pystr pydict :=
  fold_left (fun m r => <[generate_id r fields := r]> m) records ∅.

(** The identities of the previous run: the list the snapshot stores, or,
    when that is missing or empty, those of its records. *)
Definition previous_id_set (previous_ids : list (pystr * list pystr))
    (previous_records : list pydict) (data_type : pystr) (fields : list pystr)
    : gset pystr :=
  let prev_ids_set : gset pystr :=
    list_to_set (default [] (dict_get previous_ids data_type)) in
  if decide (prev_ids_set = ∅)
  then list_to_set (List.map (fun r => generate_id r fields) previous_records)
  else prev_ids_set.

(** The body of the loop over [common_ids]. *)
Definition updated_of (fields : list pystr) (current_ids : gmap pystr pydict)
    (previous_records : list pydict) (record_id : pystr) : list updated_entry :=
  match current_ids !! record_id with
  | None => []
  | Some current_record =>
      match List.find (fun r => bool_decide (generate_id r fields = record_id))
              previous_records with
      | Some ((_ :: _) as prev_record) =>
          let current_fp := generate_fingerprint current_record in
          let prev_fp := generate_fingerprint prev_record in
          if decide (current_fp <> prev_fp)
          then [ {| upd_id := record_id; upd_previous := prev_record;
                    upd_current := current_record |} ]
          else []
      | _ => []
      end
  end.

(** One turn of the loop over the data types.  A set is walked in the
    order [elements] lists it; Python fixes no order. *)
Definition diff_data_type (current : scrape_result) (previous_data : scrape_result)
    (previous_ids key_fields : list (pystr * list pystr))
    (ch : changes) (data_type : pystr) : changes :=
  match get_category current data_type with
  | None => ch
  | Some current_records =>
      let previous_records := default [] (get_category previous_data data_type) in
      match dict_get key_fields data_type with
      | None => ch
      | Some fields =>
          let current_ids := index_by_id fields current_records in
          let prev_ids_set :=
            previous_id_set previous_ids previous_records data_type fields in
          let current_ids_set : gset pystr := dom current_ids in
          let new_ids := current_ids_set ∖ prev_ids_set in
          let removed_ids := prev_ids_set ∖ current_ids_set in
          let common_ids := current_ids_set ∩ prev_ids_set in
          {| new := set_category data_type
                      (omap (fun id => current_ids !! id) (elements new_ids)) (new ch);
             updated := dict_set (updated ch) data_type
                          (List.flat_map
                             (updated_of fields current_ids previous_records)
                             (elements common_ids));
             removed := dict_set (removed ch) data_type (elements removed_ids) |}
      end
  end.

(** The three lists [ch] holds for a data type, and where they stand in
    the identity sets [cur] and [prv] of the two runs. *)
Definition diffed (ch : changes) (data_type : pystr) (fields : list pystr)
    (cur prv : gset pystr) : Prop :=
  exists news upds rems,
    get_category (new ch) data_type = Some news
    /\ dict_get (updated ch) data_type = Some upds
    /\ dict_get (removed ch) data_type = Some rems
    /\ (forall r, r ∈ news -> generate_id r fields ∈ cur /\ generate_id r fields ∉ prv)
    /\ (forall e, e ∈ upds -> upd_id e ∈ cur /\ upd_id e ∈ prv)
    /\ (forall i, i ∈ rems -> i ∈ prv /\ i ∉ cur).

(** [if not key_fields: key_fields = {...}] *)
Definition key_fields_or_default (key_fields : option (list (pystr * list pystr)))
    : list (pystr * list pystr) :=
  match key_fields with
  | Some ((_ :: _) as kf) => kf
  | _ => default_key_fields
  end.

(** [ChangeDetector.detect_changes] *)
Definition detect_changes (current : scrape_result) (previous : option snapshot)
    (key_fields : option (list (pystr * list pystr))) : changes :=
  match previous with
  | Some prev =>
      if snapshot_truthy prev then
        let key_fields := key_fields_or_default key_fields in
        let previous_data := default empty_result (snap_data prev) in
        let previous_ids := default [] (snap_record_ids prev) in
        fold_left (diff_data_type current previous_data previous_ids key_fields)
          [py "products"; py "images"; py "assets"]
          {| new := empty_result; updated := []; removed := [] |}
      else {| new := current; updated := []; removed := [] |}
  | None => {| new := current; updated := []; removed := [] |}
  end.
End ChangeDetector.

(** ** The libraries, for running the model

    The theorems hold for every hash function, float printer, Unicode
    database and pydantic release; the examples run with these. *)

(** MD5 (RFC 1321) on bytes. *)
Module MD5.
Definition w32 (x : N) : N := x mod 2 ^ 32.

Definition not32 (x : N) : N := N.lxor x 0xFFFFFFFF.

Definition rotl32 (x s : N) : N :=
  w32 (N.lor (N.shiftl x s) (N.shiftr x (32 - s))).

Definition shifts : list N :=
  [7; 12; 17; 22; 7; 12; 17; 22; 7; 12; 17; 22; 7; 12; 17; 22;
   5; 9; 14; 20; 5; 9; 14; 20; 5; 9; 14; 20; 5; 9; 14; 20;
   4; 11; 16; 23; 4; 11; 16; 23; 4; 11; 16; 23; 4; 11; 16; 23;
   6; 10; 15; 21; 6; 10; 15; 21; 6; 10; 15; 21; 6; 10; 15; 21].

(** [floor (2^32 * abs (sin (i + 1)))] *)
Definition sines : list N :=
  [0xd76aa478; 0xe8c7b756; 0x242070db; 0xc1bdceee; 0xf57c0faf; 0x4787c62a;
   0xa8304613; 0xfd469501; 0x698098d8; 0x8b44f7af; 0xffff5bb1; 0x895cd7be;
   0x6b901122; 0xfd987193; 0xa679438e; 0x49b40821; 0xf61e2562; 0xc040b340;
   0x265e5a51; 0xe9b6c7aa; 0xd62f105d; 0x02441453; 0xd8a1e681; 0xe7d3fbc8;
   0x21e1cde6; 0xc33707d6; 0xf4d50d87; 0x455a14ed; 0xa9e3e905; 0xfcefa3f8;
   0x676f02d9; 0x8d2a4c8a; 0xfffa3942; 0x8771f681; 0x6d9d6122; 0xfde5380c;
   0xa4beea44; 0x4bdecfa9; 0xf6bb4b60; 0xbebfbc70; 0x289b7ec6; 0xeaa127fa;
   0xd4ef3085; 0x04881d05; 0xd9d4d039; 0xe6db99e5; 0x1fa27cf8; 0xc4ac5665;
   0xf4292244; 0x432aff97; 0xab9423a7; 0xfc93a039; 0x655b59c3; 0x8f0ccc92;
   0xffeff47d; 0x85845dd1; 0x6fa87e4f; 0xfe2ce6e0; 0xa3014314; 0x4e0811a1;
   0xf7537e82; 0xbd3af235; 0x2ad7d2bb; 0xeb86d391].

Definition state : Type := N * N * N * N.

Definition step (M : list N) (st : state) (i : nat) : state :=
  let '(a, b, c, d) := st in
  let '(f, g) :=
    if (i <? 16)%nat then (N.lor (N.land b c) (N.land (not32 b) d), i)
    else if (i <? 32)%nat
    then (N.lor (N.land d b) (N.land (not32 d) c), ((5 * i + 1) mod 16)%nat)
    else if (i <? 48)%nat then (N.lxor (N.lxor b c) d, ((3 * i + 5) mod 16)%nat)
    else (N.lxor c (N.lor b (not32 d)), ((7 * i) mod 16)%nat) in
  let f := w32 (f + a + nth i sines 0 + nth g M 0) in
  (d, w32 (b + rotl32 f (nth i shifts 0)), b, c).

Definition block (st : state) (M : list N) : state :=
  let '(a0, b0, c0, d0) := st in
  let '(a, b, c, d) := fold_left (step M) (seq 0 64) st in
  (w32 (a0 + a), w32 (b0 + b), w32 (c0 + c), w32 (d0 + d)).

(** The first [n] bytes of an integer, least significant first. *)
Fixpoint le_bytes (n : nat) (x : N) : list N :=
  match n with
  | O => []
  | S k => x mod 256 :: le_bytes k (x / 256)
  end.

Fixpoint le_word (bs : list N) : N :=
  match bs with
  | [] => 0
  | b :: t => b + 256 * le_word t
  end.

(** [l] cut into runs of [n]; [fuel] bounds the number of runs. *)
Fixpoint chunks {A} (fuel n : nat) (l : list A) : list (list A) :=
  match fuel, l with
  | O, _ | _, [] => []
  | S k, _ :: _ => firstn n l :: chunks k n (skipn n l)
  end.

Definition pad (msg : list N) : list N :=
  let len := length msg in
  msg ++ [0x80] ++ repeat 0 ((64 - (len + 9) mod 64) mod 64)%nat
      ++ le_bytes 8 (8 * N.of_nat len).

Definition digest (msg : list N) : list N :=
  let bytes := pad msg in
  let words := List.map le_word (chunks (length bytes) 4 bytes) in
  let '(a, b, c, d) :=
    fold_left block (chunks (length words) 16 words)
      (0x67452301, 0xefcdab89, 0x98badcfe, 0x10325476) in
  le_bytes 4 a ++ le_bytes 4 b ++ le_bytes 4 c ++ le_bytes 4 d.

Definition hexdigest (msg : list N) : pystr :=
  List.flat_map (fun b => [hex_digit (b / 16); hex_digit (b mod 16)]) (digest msg).
End MD5.

Definition hashlib_md5 : Hashlib := {| md5_hexdigest := MD5.hexdigest |}.

(** pydantic accepting a value only when it already has the declared type;
    the undeclared keys are walked from the last to the first. *)
Definition exact_types : Pydantic :=
  {| str_validator := fun v => match v with VStr s => Some s | _ => None end;
     int_validator := fun v => match v with VInt z => Some z | _ => None end;
     extra_order := reverse;
     extra_order_perm := reverse_Permutation |}.

(** A float printer for records that hold no float. *)
Definition no_floats : FloatRepr := {| float_repr := fun _ => py "nan" |}.

(** ** The price rules as the specification words them *)

(** [m] with [places] decimals. *)
Definition decimal (m : Z) (places : nat) : Q := Qred (m # Pos.of_nat (10 ^ places)).

Definition is_separator (c : N) : bool := (c =? ch_dot) || (c =? ch_comma).

(** The separator that occurs last. *)
Definition last_separator (cleaned : pystr) : option N :=
  last (List.filter is_separator cleaned).

(** [c] stripped as a thousands separator. *)
Definition strip_separator (c : N) (s : pystr) : pystr :=
  List.filter (fun x => negb (x =? c)) s.

(** The commas become the decimal point. *)
Definition comma_as_decimal (s : pystr) : pystr :=
  List.map (fun x => if x =? ch_comma then ch_dot else x) s.

Definition occurrences (c : N) (s : pystr) : nat := length (List.filter (N.eqb c) s).

(** What follows the first [c]. *)
Definition after (c : N) (s : pystr) : pystr :=
  skipn 1 (drop_while (fun x => negb (x =? c)) s).

(** "It is followed by exactly two digits." *)
Definition comma_then_exactly_two (cleaned : pystr) : bool :=
  (occurrences ch_comma cleaned =? 1)%nat && (length (after ch_comma cleaned) =? 2)%nat.

(** What the code tests: one comma, at most two characters after it. *)
Definition comma_then_at_most_two (cleaned : pystr) : bool :=
  (occurrences ch_comma cleaned =? 1)%nat && (length (after ch_comma cleaned) <=? 2)%nat.

(** The text to parse, by the rules of the specification; [comma_rule]
    decides a lone kind of separator [,]. *)
Definition spec_price_text (comma_rule : pystr -> bool) (cleaned : pystr) : pystr :=
  if contains ch_dot cleaned && contains ch_comma cleaned then
    match last_separator cleaned with
    | Some c =>
        if c =? ch_comma then comma_as_decimal (strip_separator ch_dot cleaned)
        else strip_separator ch_comma cleaned
    | None => cleaned
    end
  else if contains ch_comma cleaned then
    if comma_rule cleaned then comma_as_decimal cleaned
    else strip_separator ch_comma cleaned
  else cleaned.

Definition currency_code (c : N) : pystr :=
  if c =? ch_dollar then py "USD"
  else if c =? ch_euro then py "EUR"
  else if c =? ch_pound then py "GBP"
  else if c =? ch_yen then py "JPY"
  else py "INR".

(** The currency code of the first symbol of the original text, [USD]
    without one. *)
Definition spec_currency (price_str : pystr) : pystr :=
  match List.find is_currency_symbol price_str with
  | Some c => currency_code c
  | None => py "USD"
  end.

Definition spec_normalize_price (comma_rule : pystr -> bool) (price_str : pystr)
    : option price_info :=
  match py_float (spec_price_text comma_rule (List.filter price_keep price_str)) with
  | Ok v => Some {| value := v; currency := spec_currency price_str;
                    original := price_str |}
  | Raise _ => None
  end.


(** ** Sample records *)

Definition untitled : pydict := [(py "price", VStr (py "9.99"))].

Definition lamp : pydict :=
  [(py "title", VStr (py "Lamp")); (py "url", VStr (py "http://shop/lamp"));
   (py "description", VStr (py "A brass lamp"))].

(** [lamp] with its fields in another order. *)
Definition lamp_reordered : pydict :=
  [(py "description", VStr (py "A brass lamp")); (py "url", VStr (py "http://shop/lamp"));
   (py "title", VStr (py "Lamp"))].

(** The same title and url as [lamp], another description. *)
Definition lamp_again : pydict :=
  [(py "title", VStr (py "Lamp")); (py "url", VStr (py "http://shop/lamp"));
   (py "description", VStr (py "Brass, 40 cm"))].

Definition desk : pydict :=
  [(py "title", VStr (py "Desk")); (py "url", VStr (py "http://shop/desk"))].

Definition captioned_image : pydict :=
  [(py "url", VStr (py "http://shop/lamp.png")); (py "caption", VStr (py "front"))].

(** A validator that has been through one run, which logged one error. *)
Definition used_validator : Validator :=
  (@validate_result exact_types (new_validator default_threshold)
     (set_products [untitled] empty_result)).1.


(** A record with the title of [lamp] and nothing else. *)
Definition lamp_title : pydict := [(py "title", VStr (py "Lamp"))].

Definition chair : pydict :=
  [(py "title", VStr (py "Chair")); (py "url", VStr (py "http://shop/chair"))].

(** The snapshot of a run that found [lamp] and [desk]. *)
Definition shop_snapshot : snapshot :=
  {| snap_timestamp := Some 1700000000%Z;
     snap_job_id := Some (py "shop");
     snap_data := Some (set_products [lamp; desk] empty_result);
     snap_record_ids :=
       Some [(py "products",
              @ids hashlib_md5 no_floats [py "title"; py "url"] [lamp; desk])] |}.

(** The next run: the lamp with a new description, and a chair. *)
Definition shop_current : scrape_result := set_products [lamp_again; chair] empty_result.

(** ** normalizer.py: product records *)

(** [str(v)] and [f"{x:.2f}"], which the model does not spell out beyond
    [str] of a [str]. *)
Class Builtins := {
  str_of : pyvalue -> pystr;
  str_of_str : forall s, str_of (VStr s) = s;
  format_2f : Q -> pystr;
}.

(** [bool(v)] *)
Definition truthy_value (v : pyvalue) : bool :=
  match v with
  | VNone => false
  | VBool b => b
  | VInt z => negb (z =? 0)%Z
  | VFloat q => negb (Qeq_bool q 0)
  | VStr s => truthy s
  | VList l => truthy l
  | VDict d => truthy d
  end.

Section NormalizeProduct.
Context `{UnicodeDB} `{Builtins}.

(** [if key in normalized: normalized[key] = clean_text(str(normalized[key]))] *)
Definition clean_field (key : string) (normalized : pydict) : outcome pydict :=
  match dict_get normalized (py key) with
  | Some v =>
      let* cleaned := clean_text (str_of v) in
      Ok (dict_set normalized (py key) (VStr cleaned))
  | None => Ok normalized
  end.

(** [Normalizer.normalize_product] *)
Definition normalize_product (product : pydict) : outcome pydict :=
  let normalized := product in
  let* normalized := clean_field "title" normalized in
  let* normalized := clean_field "description" normalized in
  match dict_get normalized (py "price") with
  | Some price =>
      if truthy_value price then
        let* price_info := normalize_price (str_of price) in
        match price_info with
        | Some info =>
            let normalized :=
              dict_set normalized (py "price_value") (VFloat (value info)) in
            let normalized :=
              dict_set normalized (py "price_currency") (VStr (currency info)) in
            Ok (dict_set normalized (py "price")
                  (VStr (currency info ++ format_2f (value info))))
        | None => Ok normalized
        end
      else Ok normalized
  | None => Ok normalized
  end.
End NormalizeProduct.

(** ** cli.py and scraper_api/main.py: the validation step *)

(** [try: validated = Validator().validate_result(result); result = validated]
    [except ValueError: (logged)]: what is written out, in [execute_job] and
    in the [/scrape] handler alike. *)
Definition validate_or_keep `{Pydantic} (result : scrape_result) : outcome scrape_result :=
  let validator := new_validator default_threshold in
  try_except (validate_result validator result).2 (Ok result).

(** ** changes.py: snapshots on disk *)

(** [needle in haystack] for two strings. *)
Fixpoint is_substring (needle haystack : pystr) : bool :=
  startswith needle haystack
  || match haystack with
     | [] => false
     | _ :: t => is_substring needle t
     end.

(** [path.write_text]: a file of that name is replaced, else added. *)
Fixpoint write_file (dir : list snapshot_file) (f : snapshot_file) : list snapshot_file :=
  match dir with
  | [] => [f]
  | g :: rest =>
      if decide (file_name g = file_name f) then f :: rest
      else g :: write_file rest f
  end.

(** [f"{job_id}_{timestamp}.json"] *)
Definition snapshot_name (job_id : pystr) (timestamp : Z) : pystr :=
  job_id ++ py "_" ++ int_repr timestamp ++ py ".json".

Definition AttributeError : exn := TypeError (py "'str' object has no attribute 'get'").

Section SaveSnapshot.
Context `{Hashlib} `{FloatRepr}.

(** [generate_id(record, fields)] where [record] is a URL of [crawl], a
    [str]: a field that occurs in the text passes [k in record], and
    [record.get] fails. *)
Definition generate_id_of_str (record : pystr) (fields : list pystr) : outcome pystr :=
  if existsb (fun k => is_substring k record) fields then Raise AttributeError
  else Ok (generate_id [] fields).

Fixpoint ids_of_strs (records : list pystr) (fields : list pystr) : outcome (list pystr) :=
  match records with
  | [] => Ok []
  | r :: rest =>
      let* record_id := generate_id_of_str r fields in
      let* rest_ids := ids_of_strs rest fields in
      Ok (record_id :: rest_ids)
  end.

(** The identities of [data[data_type]], when it is there and a list. *)
Definition record_ids_of (data : scrape_result) (data_type : pystr) (fields : list pystr)
    : outcome (option (list pystr)) :=
  match get_category data data_type with
  | Some records => Ok (Some (ids fields records))
  | None =>
      if decide (data_type = py "crawl") then
        match crawl data with
        | Some urls => let* url_ids := ids_of_strs urls fields in Ok (Some url_ids)
        | None => Ok None
        end
      else Ok None
  end.

(** The loop over [key_fields.items()]. *)
Fixpoint snapshot_record_ids (data : scrape_result) (key_fields : list (pystr * list pystr))
    (record_ids : list (pystr * list pystr)) : outcome (list (pystr * list pystr)) :=
  match key_fields with
  | [] => Ok record_ids
  | (data_type, fields) :: rest =>
      let* found := record_ids_of data data_type fields in
      snapshot_record_ids data rest
        match found with
        | Some found_ids => dict_set record_ids data_type found_ids
        | None => record_ids
        end
  end.

(** [ChangeDetector.save_snapshot]: the directory after the call and the
    path returned.  [timestamp] is [int(time.time())], [mtime] the time
    the file system stamps the file with; the file holds what [json.load]
    reads back from it. *)
Definition save_snapshot (dir : list snapshot_file) (timestamp mtime : Z)
    (job_id : pystr) (data : scrape_result)
    (key_fields : option (list (pystr * list pystr)))
    : outcome (list snapshot_file * pystr) :=
  let snapshot_path := snapshot_name job_id timestamp in
  let* record_ids :=
    match key_fields with
    | Some ((_ :: _) as kf) => snapshot_record_ids data kf []
    | _ => Ok []
    end in
  let snapshot_data :=
    {| snap_timestamp := Some timestamp; snap_job_id := Some job_id;
       snap_data := Some data; snap_record_ids := Some record_ids |} in
  Ok (write_file dir {| file_name := snapshot_path; st_mtime := mtime;
                        file_content := snapshot_data |},
      snapshot_path).
End SaveSnapshot.

(** [str] as far as the examples need it, and two decimals by rounding the
    decimal number half to even. *)
Definition two_decimals (q : Q) : pystr :=
  let num := (200 * Qnum q + Zpos (Qden q))%Z in
  let den := (2 * Zpos (Qden q))%Z in
  let cents := (num / den)%Z in
  let cents := if (num mod den =? 0)%Z && Z.odd cents then (cents - 1)%Z else cents in
  let frac := (cents mod 100)%Z in
  int_repr (cents / 100) ++ py "." ++ (if (frac <? 10)%Z then py "0" else [])
  ++ int_repr frac.

Definition atom_str (v : pyvalue) : pystr :=
  match v with
  | VNone => py "None"
  | VBool true => py "True"
  | VBool false => py "False"
  | VInt z => int_repr z
  | VStr s => s
  | _ => py "?"
  end.

Definition sample_builtins : Builtins :=
  {| str_of := atom_str; str_of_str := fun s => eq_refl; format_2f := two_decimals |}.

Definition ascii_database : UnicodeDB := {| isalnum_above_ascii := fun _ => false |}.

(** A product as the extractor hands it over. *)
Definition raw_lamp : pydict :=
  [(py "title", VStr (py "  Brass &amp; Glass Lamp ")); (py "price", VStr (ch_euro :: py "15,50"));
   (py "link", VStr (py "http://shop/lamp"))].

(** What a change set holds for a data type: its new records, its updated
    entries, its removed identities. *)
Definition change_entries (ch : changes) (data_type : pystr)
    : option (list pydict) * option (list updated_entry) * option (list pystr) :=
  (get_category (new ch) data_type, dict_get (updated ch) data_type,
   dict_get (removed ch) data_type).

(** The records a snapshot holds for a data type. *)
Definition snapshot_records (prev : snapshot) (data_type : pystr) : list pydict :=
  default [] (get_category (default empty_result (snap_data prev)) data_type).

(** ** More sample data *)

Definition page_text : pydict :=
  [(py "title", VStr (py "Lamps"));
   (py "headings", VList [VStr (py "Brass"); VStr (py "Glass")]);
   (py "paragraphs", VList [VStr (py "Hand made.")])].

(** 150 headings, all different. *)
Definition many_headings : list pyvalue :=
  List.map (fun n => VStr (py "Heading " ++ int_repr (Z.of_nat n))) (seq 1 150).

Definition long_text : pydict :=
  [(py "title", VStr (py "Lamps")); (py "headings", VList many_headings)].

(** A chair with two fields the product schema does not name. *)
Definition tagged_chair : pydict :=
  [(py "title", VStr (py "Chair")); (py "url", VStr (py "http://shop/chair"));
   (py "sku", VStr (py "C-1"))].

Definition page_contacts : pydict :=
  [(py "emails", VList [VStr (py "info@shop.example"); VStr (py "sales@shop.example")]);
   (py "phones", VList [VStr (py "+15551234567")])].

(** The snapshot directory after the first run of the [shop] job and a run
    of another job. *)
Definition snapshot_dir : list snapshot_file :=
  [ {| file_name := py "shop_1700000000.json"; st_mtime := 1700000000;
       file_content := shop_snapshot |};
    {| file_name := py "blog_1700000500.json"; st_mtime := 1700000500;
       file_content :=
         {| snap_timestamp := Some 1700000500%Z; snap_job_id := Some (py "blog");
            snap_data := Some empty_result; snap_record_ids := Some [] |} |} ].

(** What [save_snapshot] stores for [shop_current] with the default key
    fields. *)
Definition shop_saved : snapshot :=
  {| snap_timestamp := Some 1700003600%Z;
     snap_job_id := Some (py "shop");
     snap_data := Some shop_current;
     snap_record_ids :=
       Some [(py "products",
              @ids hashlib_md5 no_floats [py "title"; py "url"] [lamp_again; chair])] |}.

(** ** Notions the properties are stated with *)

Definition no_space (c : N) : bool := negb (is_space c).

(** A text that neither starts nor ends with whitespace. *)
Definition trimmed (t : pystr) : Prop :=
  t = [] \/ ((exists c r, t = c :: r /\ is_space c = false)
             /\ exists c r, rev t = c :: r /\ is_space c = false).

(** The words of a text: none empty, none with whitespace. *)
Definition is_word_list (words : list pystr) : Prop :=
  Forall (fun w => w <> [] /\ forallb no_space w = true) words.

Section Accepted.
Context `{Pydantic}.

(** The validated records of a list category that has records. *)
Definition accepted_list (sch : schema) (field_ : option (list pydict))
    : option (list pydict) :=
  match field_ with
  | Some ((_ :: _) as records) => Some (omap (accepted sch) records)
  | _ => None
  end.

(** The validated record of a single-record category that has one. *)
Definition accepted_one (sch : schema) (field_ : option pydict) : option pydict :=
  match field_ with
  | Some ((_ :: _) as record) => accepted sch record
  | _ => None
  end.
End Accepted.

(** * Properties *)


(** ** Strings *)

Lemma replace_strip (c : N) (s : pystr) : replace [c] [] s = strip_separator c s.
Proof.
  unfold replace, strip_separator.
  induction s as [|x t IH]; [reflexivity|].
  simpl. rewrite (N.eqb_sym x c), andb_true_r.
  destruct (c =? x); simpl; congruence.
Qed.

Lemma replace_char (c d : N) (s : pystr) :
  replace [c] [d] s = List.map (fun x => if x =? c then d else x) s.
Proof.
  unfold replace.
  induction s as [|x t IH]; [reflexivity|].
  cbn [replace_from startswith List.map length Nat.pred app].
  rewrite (N.eqb_sym x c), andb_true_r.
  destruct (c =? x); cbn [app]; congruence.
Qed.

Lemma replace_comma_dot (s : pystr) : replace [ch_comma] [ch_dot] s = comma_as_decimal s.
Proof. apply replace_char. Qed.

Lemma rfind_contains (c : N) (s : pystr) :
  contains c s = true -> exists i, rfind c s = Some i.
Proof.
  unfold contains. induction s as [|x t IH]; simpl; [discriminate|].
  intros Hc. destruct (rfind c t) as [i|]; [eauto|].
  rewrite (N.eqb_sym x c). destruct (c =? x); [eauto|].
  simpl in Hc. destruct (IH Hc) as [i Hi]. discriminate.
Qed.

Lemma rfind_none (c : N) (s : pystr) : rfind c s = None -> contains c s = false.
Proof.
  intros Hr. destruct (contains c s) eqn:Hc; [|reflexivity].
  destruct (rfind_contains c s Hc) as [i Hi]. congruence.
Qed.

(** The separator that occurs last, read off the two [rindex] results. *)
Lemma last_separator_rfind (s : pystr) :
  last_separator s =
    match rfind ch_comma s, rfind ch_dot s with
    | Some ic, Some id => if (id <? ic)%nat then Some ch_comma else Some ch_dot
    | Some _, None => Some ch_comma
    | None, Some _ => Some ch_dot
    | None, None => None
    end.
Proof.
  unfold last_separator. induction s as [|x t IH]; [reflexivity|].
  cbn [List.filter rfind].
  assert (Hlast : forall (y : N) l, last (y :: l) = match last l with Some z => Some z | None => Some y end).
  { intros y l. destruct l as [|z l]; [reflexivity|]. 
    change (last (y :: z :: l)) with (last (z :: l)). destruct (last (z :: l)) eqn:E; [reflexivity|].
    exfalso. revert z E. induction l as [|w l IHl]; intros z E; [discriminate|].
    apply (IHl w). exact E. }
  unfold is_separator at 1.
  destruct (x =? ch_dot) eqn:Hd; [apply N.eqb_eq in Hd; subst x|];
    [|destruct (x =? ch_comma) eqn:Hc; [apply N.eqb_eq in Hc; subst x|]];
    cbn [orb]; try rewrite Hlast; rewrite IH;
    destruct (rfind ch_comma t) as [ic|], (rfind ch_dot t) as [id|]; cbn;
    try reflexivity.
  all: destruct ic as [|m]; [reflexivity|]; destruct (id <=? m)%nat; reflexivity.
Qed.

Lemma split_no_sep (c : N) (s : pystr) : contains c s = false -> split c s = [s].
Proof.
  unfold contains. induction s as [|x t IH]; [reflexivity|].
  cbn [existsb split]. rewrite (N.eqb_sym x c).
  destruct (c =? x); [discriminate|]. cbn [orb]. intros Hc. now rewrite (IH Hc).
Qed.

Lemma split_length (c : N) (s : pystr) : length (split c s) = S (occurrences c s).
Proof.
  unfold occurrences. induction s as [|x t IH]; [reflexivity|].
  cbn [split List.filter]. rewrite (N.eqb_sym x c).
  destruct (c =? x); cbn [length]; [now rewrite IH|].
  destruct (split c t) as [|p ps]; [discriminate|]. exact IH.
Qed.

Lemma occurrences_contains (c : N) (s : pystr) :
  contains c s = negb (occurrences c s =? 0)%nat.
Proof.
  unfold contains, occurrences. induction s as [|x t IH]; [reflexivity|].
  cbn [existsb List.filter]. destruct (c =? x); [reflexivity|]. exact IH.
Qed.

(** With one separator, the second part is what follows it. *)
Lemma split_second (c : N) (s : pystr) :
  occurrences c s = 1%nat -> nth_error (split c s) 1 = Some (after c s).
Proof.
  unfold occurrences, after. induction s as [|x t IH]; [discriminate|].
  cbn [split List.filter drop_while]. rewrite (N.eqb_sym x c).
  destruct (c =? x) eqn:E; cbn [negb length].
  - intros Hn. rewrite split_no_sep; [reflexivity|].
    rewrite occurrences_contains. unfold occurrences.
    injection Hn as ->. reflexivity.
  - intros Hn. specialize (IH Hn).
    destruct (split c t) as [|p ps]; [discriminate|]. exact IH.
Qed.

Lemma py_float_raises (s : pystr) (e : exn) :
  py_float s = Raise e -> exists msg, e = ValueError msg.
Proof.
  unfold py_float.
  repeat match goal with
         | |- context [match ?x with _ => _ end] => destruct x
         end; intros [= <-] || discriminate; eauto.
Qed.

(** ** The normalizer *)

(** The text handed to [float] follows the rules of the specification, with
    the test the code makes for a lone comma. *)
Lemma price_text_rules (price_str : pystr) :
  price_text price_str
  = Ok (spec_price_text comma_then_at_most_two (List.filter price_keep price_str)).
Proof.
  unfold price_text, spec_price_text, re_sub_outside.
  set (cleaned := List.filter price_keep price_str).
  rewrite !replace_strip, !replace_comma_dot.
  rewrite (andb_comm (contains ch_dot cleaned)).
  destruct (contains ch_comma cleaned) eqn:Hc; cbn [andb]; [|reflexivity].
  destruct (contains ch_dot cleaned) eqn:Hd.
  - destruct (rfind_contains _ _ Hc) as [ic Hic], (rfind_contains _ _ Hd) as [id Hid].
    unfold rindex. rewrite Hic, Hid. cbn [bind].
    rewrite last_separator_rfind, Hic, Hid.
    destruct (id <? ic)%nat; reflexivity.
  - unfold comma_then_at_most_two. rewrite split_length.
    destruct (occurrences ch_comma cleaned =? 1)%nat eqn:Ho.
    + apply Nat.eqb_eq in Ho. rewrite Ho. cbn [Nat.eqb andb].
      unfold getitem. rewrite (split_second _ _ Ho). cbn [bind].
      destruct (length (after ch_comma cleaned) <=? 2)%nat; reflexivity.
    + replace (S (occurrences ch_comma cleaned) =? 2)%nat with false
        by (symmetry; apply Nat.eqb_neq; apply Nat.eqb_neq in Ho; lia).
      reflexivity.
Qed.

Lemma currency_map_get_symbol (c : N) :
  is_currency_symbol c = true -> currency_map_get [c] = currency_code c.
Proof.
  unfold is_currency_symbol. rewrite !orb_true_iff, !N.eqb_eq.
  intros [[[[-> | ->] | ->] | ->] | ->]; reflexivity.
Qed.

Lemma normalize_price_currency (price_str : pystr) :
  currency_map_get match currency_match price_str with
                   | Some c => [c]
                   | None => py "USD"
                   end
  = spec_currency price_str.
Proof.
  unfold currency_match, spec_currency.
  destruct (List.find is_currency_symbol price_str) as [c|] eqn:Hf; [|reflexivity].
  apply find_some in Hf as [_ Hc]. now apply currency_map_get_symbol.
Qed.

Lemma normalize_price_spec (price_str : pystr) :
  normalize_price price_str = Ok (spec_normalize_price comma_then_at_most_two price_str).
Proof.
  destruct price_str as [|c t]; [reflexivity|].
  unfold normalize_price, spec_normalize_price.
  rewrite price_text_rules. cbn [bind].
  destruct (py_float _) as [v|e] eqn:Hf; cbn [bind try_except].
  - now rewrite normalize_price_currency.
  - destruct (py_float_raises _ _ Hf) as [msg ->]. reflexivity.
Qed.

(** C2, as stated, fails: in ["1,5"] the only separator is a comma that is
    not followed by exactly two digits, so by the claim it is stripped and
    the value is 15; the code reads 1.5. *)
Lemma normalize_price_one_digit_after_comma :
  normalize_price (py "1,5")
    = Ok (Some {| value := decimal 15 1; currency := py "USD"; original := py "1,5" |})
  /\ spec_normalize_price comma_then_exactly_two (py "1,5")
    = Some {| value := decimal 15 0; currency := py "USD"; original := py "1,5" |}
  /\ normalize_price (py "1,5")
     <> Ok (spec_normalize_price comma_then_exactly_two (py "1,5")).
Proof. repeat split; try (vm_compute; reflexivity). vm_compute. discriminate. Qed.

(** C2 (amended): price parsing keeps the digits, [.] and [,]; with both
    separators the later one is the decimal separator and the other is
    stripped; a lone kind [,] is the decimal separator when there is exactly
    one comma and at most two characters follow it, otherwise it is
    stripped; the result is the number read and the currency code of the
    first of the symbols in the original text (USD without one), or absent
    when the text does not parse.  The four examples of the claim hold. *)
Theorem normalize_price_rules :
  (forall price_str,
     normalize_price price_str
     = Ok (spec_normalize_price comma_then_at_most_two price_str))
  /\ normalize_price (py "$19.99")
     = Ok (Some {| value := decimal 1999 2; currency := py "USD";
                   original := py "$19.99" |})
  /\ normalize_price (ch_euro :: py "15,50")
     = Ok (Some {| value := decimal 1550 2; currency := py "EUR";
                   original := ch_euro :: py "15,50" |})
  /\ normalize_price (ch_pound :: py "1.234,56")
     = Ok (Some {| value := decimal 123456 2; currency := py "GBP";
                   original := ch_pound :: py "1.234,56" |})
  /\ normalize_price (py "TBD") = Ok None.
Proof.
  split; [exact normalize_price_spec|].
  repeat split; vm_compute; reflexivity.
Qed.

(** C3, at an input that breaks it: ten digits and no leading [+], yet no
    country code is added and the result is not [+] followed by digits. *)
Theorem normalize_phone_trailing_plus :
  normalize_phone (py "555-123-4567+") = Ok (Some (py "+5551234567+")).
Proof. vm_compute. reflexivity. Qed.

(** The examples of C3. *)
Example normalize_phone_examples :
  normalize_phone (py "555-123-4567") = Ok (Some (py "+15551234567"))
  /\ normalize_phone (py "+44 20 7946 0958") = Ok (Some (py "+442079460958"))
  /\ normalize_phone (py "12345") = Ok None.
Proof. repeat split; vm_compute; reflexivity. Qed.

Lemma lstrip_digits (phone : pystr) :
  lstrip ch_plus (List.filter is_digit phone) = List.filter is_digit phone.
Proof.
  destruct (List.filter is_digit phone) as [|d ds] eqn:Hf; [reflexivity|].
  assert (is_digit d = true) as Hd.
  { assert (In d (List.filter is_digit phone)) as Hin by (rewrite Hf; now left).
    now apply filter_In in Hin. }
  cbn [lstrip]. destruct (d =? ch_plus) eqn:E; [|reflexivity].
  apply N.eqb_eq in E. subst d. vm_compute in Hd. discriminate.
Qed.

(** Where C3 holds: when the only [+] kept is a single leading one, or none
    is kept, the result is as the claim says. *)
Lemma normalize_phone_without_stray_plus (phone : pystr) :
  phone <> [] ->
  let kept := List.filter (fun c => is_digit c || (c =? ch_plus)) phone in
  let digits := List.filter is_digit phone in
  (kept = digits ->
   normalize_phone phone
   = Ok (if (length digits <? 10)%nat then None
         else if (length digits =? 10)%nat then Some (ch_plus :: py "1" ++ digits)
         else Some (ch_plus :: digits)))
  /\ (kept = ch_plus :: digits ->
      normalize_phone phone
      = Ok (if (length digits <? 10)%nat then None else Some (ch_plus :: digits))).
Proof.
  intros Hne kept digits. unfold normalize_phone, re_sub_outside.
  destruct phone as [|c t]; [contradiction|]. fold kept.
  assert (startswith [ch_plus] digits = false) as Hsw.
  { subst digits. destruct (List.filter is_digit (c :: t)) as [|d ds] eqn:Hf; [reflexivity|].
    assert (In d (List.filter is_digit (c :: t))) as Hin by (rewrite Hf; now left).
    apply filter_In in Hin as [_ Hd]. cbn [startswith].
    destruct (ch_plus =? d) eqn:E; [|reflexivity].
    apply N.eqb_eq in E. subst d. vm_compute in Hd. discriminate. }
  split; intros ->.
  - rewrite Hsw. subst digits. rewrite lstrip_digits.
    destruct (_ <? 10)%nat; [reflexivity|].
    destruct (_ =? 10)%nat; reflexivity.
  - cbn [startswith lstrip]. rewrite !N.eqb_refl. cbn [andb negb].
    subst digits. rewrite lstrip_digits.
    destruct (_ <? 10)%nat; [reflexivity|]. rewrite ?andb_false_r. reflexivity.
Qed.

(** The example of the specification for [clean_text]. *)
Example clean_text_example `{UnicodeDB} :
  clean_text (py "Tom &amp; Jerry&nbsp;Show") = Ok (py "Tom & Jerry Show").
Proof. vm_compute. reflexivity. Qed.

(** C9: none of the three normalization functions raises. *)
Theorem normalization_total `{UnicodeDB} (s : pystr) :
  (exists r, normalize_price s = Ok r)
  /\ (exists r, normalize_phone s = Ok r)
  /\ (exists t, clean_text s = Ok t).
Proof.
  split; [|split].
  - rewrite normalize_price_spec. eauto.
  - unfold normalize_phone. destruct s; [eauto|].
    destruct (_ <? 10)%nat; eauto.
  - unfold clean_text. destruct s; eauto.
Qed.

(** ** Dicts *)

Lemma dict_get_elem {V} (d : list (pystr * V)) (k : pystr) (v : V) :
  is_dict d -> dict_get d k = Some v <-> (k, v) ∈ d.
Proof.
  unfold is_dict. induction d as [|[k' v'] d IH]; intros Hd.
  - split; [discriminate|]. intros Hin. inversion Hin.
  - cbn [dict_get]. apply NoDup_cons in Hd as [Hk' Hd]. fold (fmap (M:=list) fst d) in *.
    destruct (decide (k' = k)) as [->|Hne].
    + split.
      * intros [= ->]. left.
      * intros Hin. apply elem_of_cons in Hin as [[= ->]|Hin]; [reflexivity|].
        exfalso. apply Hk'. apply list_elem_of_fmap. exists (k, v). auto.
    + rewrite (IH Hd). split.
      * intros Hin. now right.
      * intros Hin. apply elem_of_cons in Hin as [[= -> ->]|Hin]; [congruence|exact Hin].
Qed.

(** Lookup does not depend on the order of the fields. *)
Lemma dict_get_permutation {V} (d d' : list (pystr * V)) (k : pystr) :
  is_dict d -> d ≡ₚ d' -> dict_get d' k = dict_get d k.
Proof.
  intros Hd Hp.
  assert (Hd' : is_dict d') by (unfold is_dict in *; now rewrite <- Hp).
  apply option_eq. intros v.
  rewrite (dict_get_elem d' k v Hd'), (dict_get_elem d k v Hd).
  now rewrite Hp.
Qed.

Lemma dict_get_set {V} (d : list (pystr * V)) (k k' : pystr) (v : V) :
  dict_get (dict_set d k v) k' = if decide (k = k') then Some v else dict_get d k'.
Proof.
  induction d as [|[k0 v0] d IH]; cbn [dict_set dict_get].
  - reflexivity.
  - destruct (decide (k0 = k)) as [->|Hne]; cbn [dict_get].
    + destruct (decide (k = k')); reflexivity.
    + rewrite IH. destruct (decide (k0 = k')) as [->|]; [|reflexivity].
      destruct (decide (k = k')); [congruence|reflexivity].
Qed.

(** ** The deduplicator *)

Section DeduplicatorProperties.
Context `{Hashlib} `{FloatRepr}.

Lemma key_data_ext (r1 r2 : pydict) (K : list pystr) :
  (forall k, k ∈ K -> dict_get r1 k = dict_get r2 k) ->
  key_data r1 K = key_data r2 K.
Proof.
  unfold key_data. generalize (@nil (pystr * pyvalue)).
  induction K as [|k K IH]; intros acc Hk; [reflexivity|].
  cbn [fold_left]. rewrite (Hk k) by left.
  apply IH. intros k' Hk'. apply Hk. now right.
Qed.

(** The identity is a function of the key fields the record has, and of
    their values. *)
Lemma generate_id_ext (r1 r2 : pydict) (K : list pystr) :
  (forall k, k ∈ K -> dict_get r1 k = dict_get r2 k) ->
  generate_id r1 K = generate_id r2 K.
Proof. intros Hk. unfold generate_id. now rewrite (key_data_ext r1 r2 K Hk). Qed.

(** C4 (amended): the identity does not change when the fields of the
    record are permuted, when a field that is not a key field is added or
    set, or between two records that have the same key fields with the
    same values: each key field is in both records with one value, or in
    neither. *)
Theorem identity_invariant (r r' r2 : pydict) (K : list pystr)
    (name : pystr) (v : pyvalue) :
  is_dict r -> r ≡ₚ r' -> name ∉ K ->
  (forall k, k ∈ K -> dict_get r2 k = dict_get r k) ->
  generate_id r' K = generate_id r K
  /\ generate_id (dict_set r name v) K = generate_id r K
  /\ generate_id r2 K = generate_id r K.
Proof.
  intros Hd Hp Hname H2. repeat split; apply generate_id_ext.
  - intros k _. now apply dict_get_permutation.
  - intros k Hk. rewrite dict_get_set.
    destruct (decide (name = k)) as [->|]; [contradiction|reflexivity].
  - exact H2.
Qed.

Lemma dedup_seen (K : list pystr) (l : list pydict) :
  (fold_left (dedup_step K) l (∅, [])).1 = list_to_set (ids K l).
Proof.
  induction l as [|r l IH] using rev_ind; [reflexivity|].
  rewrite fold_left_app. cbn [fold_left].
  destruct (fold_left (dedup_step K) l (∅, [])) as [seen uniq].
  cbn [fst] in IH. subst seen. unfold ids. rewrite map_app, list_to_set_app_L.
  cbn [dedup_step List.map list_to_set].
  destruct (decide _) as [Hin|Hin]; cbn [fst]; apply set_eq; intros i;
    rewrite ?elem_of_union, ?elem_of_singleton, ?elem_of_empty in *;
    [split; [tauto|intros [?|[->|[]]]; assumption] | tauto].
Qed.

(** What one more record does to the output. *)
Lemma deduplicate_snoc (K : list pystr) (l : list pydict) (r : pydict) :
  deduplicate (l ++ [r]) K
  = deduplicate l K ++ (if decide (generate_id r K ∈ ids K l) then [] else [r]).
Proof.
  unfold deduplicate. rewrite fold_left_app. cbn [fold_left].
  pose proof (dedup_seen K l) as Hs.
  destruct (fold_left (dedup_step K) l (∅, [])) as [seen uniq].
  cbn [fst snd] in *. subst seen. cbn [dedup_step].
  destruct (decide (_ ∈ list_to_set _)) as [Hin|Hin];
    destruct (decide (_ ∈ ids K l)) as [Hin'|Hin']; cbn [snd].
  - now rewrite app_nil_r.
  - exfalso. apply Hin'. now apply elem_of_list_to_set in Hin.
  - exfalso. apply Hin. now apply elem_of_list_to_set.
  - reflexivity.
Qed.

Lemma deduplicate_sublist (K : list pystr) (l : list pydict) :
  sublist (deduplicate l K) l.
Proof.
  induction l as [|r l IH] using rev_ind; [constructor|].
  rewrite deduplicate_snoc. apply sublist_app; [exact IH|].
  destruct (decide _); [apply sublist_nil_l|reflexivity].
Qed.

Lemma deduplicate_ids (K : list pystr) (l : list pydict) (i : pystr) :
  i ∈ ids K (deduplicate l K) <-> i ∈ ids K l.
Proof.
  induction l as [|r l IH] using rev_ind; [reflexivity|].
  rewrite deduplicate_snoc. unfold ids in *. rewrite !map_app, !elem_of_app, IH.
  destruct (decide _) as [Hin|Hin]; cbn [List.map]; [|reflexivity].
  split; (intros [Hi|Hi]; [now left|]).
  - inversion Hi.
  - apply list_elem_of_singleton in Hi as ->. now left.
Qed.

Lemma deduplicate_NoDup (K : list pystr) (l : list pydict) :
  NoDup (ids K (deduplicate l K)).
Proof.
  induction l as [|r l IH] using rev_ind; [constructor|].
  rewrite deduplicate_snoc. unfold ids in *. rewrite map_app.
  destruct (decide _) as [Hin|Hin]; cbn [List.map]; [now rewrite app_nil_r|].
  apply NoDup_app. split; [exact IH|]. split; [|apply NoDup_singleton].
  intros i Hi Hi'. apply list_elem_of_singleton in Hi' as ->.
  apply Hin. now apply (deduplicate_ids K l).
Qed.

Lemma deduplicate_first (K : list pystr) (l : list pydict) (r : pydict) :
  r ∈ deduplicate l K ->
  exists l1 l2, l = l1 ++ r :: l2 /\ generate_id r K ∉ ids K l1.
Proof.
  induction l as [|x l IH] using rev_ind; [intros Hin; inversion Hin|].
  rewrite deduplicate_snoc, elem_of_app. intros [Hin|Hin].
  - destruct (IH Hin) as (l1 & l2 & -> & Hl1).
    exists l1, (l2 ++ [x]). split; [now rewrite <- app_assoc|exact Hl1].
  - destruct (decide _) as [Hx|Hx]; [inversion Hin|].
    apply list_elem_of_singleton in Hin as ->.
    exists l, []. split; [reflexivity|exact Hx].
Qed.

(** C5: [deduplicate] returns, in the order of the input, the first record
    of each identity: the output is a subsequence of the input, no two of
    its records share an identity, every identity of the input is kept,
    each kept record is the first of its identity, and of two records
    that agree on the key fields only the first is kept. *)
Theorem deduplicate_keeps_first (records : list pydict) (K : list pystr) :
  sublist (deduplicate records K) records
  /\ NoDup (ids K (deduplicate records K))
  /\ (forall r, r ∈ records -> generate_id r K ∈ ids K (deduplicate records K))
  /\ (forall r, r ∈ deduplicate records K ->
        exists l1 l2, records = l1 ++ r :: l2 /\ generate_id r K ∉ ids K l1)
  /\ (forall r, deduplicate (records ++ [r]) K
        = deduplicate records K
          ++ (if decide (generate_id r K ∈ ids K records) then [] else [r]))
  /\ (forall r1 r2, (forall k, k ∈ K -> dict_get r1 k = dict_get r2 k) ->
        deduplicate [r1; r2] K = [r1]).
Proof.
  split; [apply deduplicate_sublist|].
  split; [apply deduplicate_NoDup|].
  split.
  { intros r Hr. apply deduplicate_ids. unfold ids.
    apply list_elem_of_fmap. exists r. auto. }
  split; [apply deduplicate_first|].
  split; [intros r; apply deduplicate_snoc|].
  intros r1 r2 Hk.
  change [r1; r2] with ([r1] ++ [r2]). rewrite deduplicate_snoc.
  change [r1] with ([] ++ [r1]) at 1. rewrite deduplicate_snoc.
  cbn [ids List.map app]. rewrite (generate_id_ext r2 r1 K) by (intros; symmetry; auto).
  rewrite decide_False by (intros Hin; inversion Hin).
  rewrite decide_True by left. reflexivity.
Qed.
End DeduplicatorProperties.

(** ** The order of keys *)


Lemma str_le_refl (a : pystr) : str_le a a = true.
Proof.
  induction a as [|x a IH]; [reflexivity|].
  cbn [str_le]. rewrite N.eqb_refl, IH. apply orb_true_r.
Qed.

Lemma str_le_total (a b : pystr) : str_le a b = true \/ str_le b a = true.
Proof.
  revert b. induction a as [|x a IH]; intros [|y b]; cbn [str_le]; auto.
  destruct (N.lt_trichotomy x y) as [Hlt|[->|Hgt]].
  - left. apply N.ltb_lt in Hlt. now rewrite Hlt.
  - rewrite N.eqb_refl, N.ltb_irrefl. cbn. apply IH.
  - right. apply N.ltb_lt in Hgt. now rewrite Hgt.
Qed.

Lemma str_le_antisym (a b : pystr) : str_le a b = true -> str_le b a = true -> a = b.
Proof.
  revert b. induction a as [|x a IH]; intros [|y b]; cbn [str_le]; try discriminate; auto.
  rewrite !orb_true_iff, !andb_true_iff, !N.ltb_lt, !N.eqb_eq.
  intros [Hxy|[-> Hab]] [Hyx|[Heq Hba]]; try lia.
  f_equal. now apply IH.
Qed.

Lemma str_le_trans (a b c : pystr) : str_le a b = true -> str_le b c = true -> str_le a c = true.
Proof.
  revert b c. induction a as [|x a IH]; intros [|y b] [|z c]; cbn [str_le]; try discriminate; auto.
  rewrite !orb_true_iff, !andb_true_iff, !N.ltb_lt, !N.eqb_eq.
  intros [Hxy|[-> Hab]] [Hyz|[-> Hbc]]; try (left; lia).
  right. split; [reflexivity|]. now apply (IH b).
Qed.

#[local] Instance key_le_total {V} : Total (@key_le V).
Proof. intros x y. apply str_le_total. Qed.

#[local] Instance key_le_trans {V} : Transitive (@key_le V).
Proof. intros x y z. apply str_le_trans. Qed.

(** The order [sort_keys] emits the items in does not depend on the order
    they were inserted in. *)
Lemma sorted_items_permutation {V} (d d' : list (pystr * V)) :
  is_dict d -> d ≡ₚ d' -> sorted_items d' = sorted_items d.
Proof.
  intros Hd Hp. unfold sorted_items.
  apply StronglySorted_unique_strong with (R := key_le).
  - intros [k1 v1] [k2 v2] H1 H2 H12 H21.
    rewrite merge_sort_Permutation in H1, H2. rewrite <- Hp in H1.
    assert (k1 = k2) as -> by now apply str_le_antisym.
    f_equal. apply (dict_get_elem d k2 _ Hd) in H1, H2. congruence.
  - apply StronglySorted_merge_sort; apply _.
  - apply StronglySorted_merge_sort; apply _.
  - now rewrite !merge_sort_Permutation.
Qed.

Section Fingerprint.
Context `{Hashlib} `{FloatRepr}.

(** The fingerprint does not depend on the order of the fields. *)
Lemma generate_fingerprint_permutation (r r' : pydict) :
  is_dict r -> r ≡ₚ r' -> generate_fingerprint r' = generate_fingerprint r.
Proof.
  intros Hd Hp. unfold generate_fingerprint. cbn [json_dumps].
  rewrite (sorted_items_permutation
             (List.map (fun kv => (kv.1, json_dumps kv.2)) r)
             (List.map (fun kv => (kv.1, json_dumps kv.2)) r')); [reflexivity| |].
  - unfold is_dict in *. 
    replace ((List.map (fun kv => (kv.1, json_dumps kv.2)) r).*1) with (r.*1); [exact Hd|].
    clear. induction r as [|[k v] r IH]; [reflexivity|]. cbn. now f_equal.
  - now apply Permutation_map.
Qed.
End Fingerprint.

Lemma dict_set_is_dict {V} (d : list (pystr * V)) (k : pystr) (v : V) :
  is_dict d -> is_dict (dict_set d k v).
Proof.
  unfold is_dict. induction d as [|[k' v'] d IH]; intros Hd.
  - cbn. apply NoDup_singleton.
  - cbn [dict_set]. cbn [fmap list_fmap fst] in Hd. apply NoDup_cons in Hd as [Hk' Hd].
    destruct (decide (k' = k)) as [->|Hne]; cbn [fmap list_fmap fst].
    + apply NoDup_cons. split; assumption.
    + apply NoDup_cons. split; [|now apply IH].
      intros Hin. apply list_elem_of_fmap in Hin as ([k2 v2] & Hk2 & Hin). cbn in Hk2. subst k2.
      assert (is_dict (dict_set d k v)) as Hd' by now apply IH.
      apply (dict_get_elem _ _ _ Hd') in Hin. rewrite dict_get_set, decide_False in Hin by congruence.
      apply Hk'. apply list_elem_of_fmap. exists (k', v2). split; [reflexivity|].
      now apply (dict_get_elem d k' v2 Hd).
Qed.

(** Dicts with the same lookups hold the same items. *)
Lemma dict_ext_permutation {V} (d d' : list (pystr * V)) :
  is_dict d -> is_dict d' -> (forall k, dict_get d k = dict_get d' k) -> d ≡ₚ d'.
Proof.
  intros Hd Hd' Hk. apply NoDup_Permutation.
  - eapply NoDup_fmap_1. exact Hd.
  - eapply NoDup_fmap_1. exact Hd'.
  - intros [k v]. rewrite <- (dict_get_elem d k v Hd), <- (dict_get_elem d' k v Hd').
    now rewrite Hk.
Qed.

Section KeyOrder.
Context `{Hashlib} `{FloatRepr}.

Lemma key_data_fold (record : pydict) (K : list pystr) :
  forall acc : pydict,
    let d := fold_left (fun acc k =>
                          match dict_get record k with
                          | Some v => dict_set acc k v
                          | None => acc
                          end) K acc in
    (is_dict acc -> is_dict d)
    /\ forall k, dict_get d k
                 = if decide (k ∈ K)
                   then match dict_get record k with
                        | Some v => Some v
                        | None => dict_get acc k
                        end
                   else dict_get acc k.
Proof.
  induction K as [|k0 K IH]; intros acc; cbn [fold_left].
  - split; [auto|]. intros k. rewrite decide_False; [reflexivity|]. intros Hin; inversion Hin.
  - destruct (IH (match dict_get record k0 with
                  | Some v => dict_set acc k0 v
                  | None => acc
                  end)) as [Hd Hg].
    split.
    + intros Hacc. apply Hd. destruct (dict_get record k0); [now apply dict_set_is_dict|exact Hacc].
    + intros k. cbv zeta in Hg. rewrite Hg.
      destruct (decide (k ∈ K)) as [Hin|Hnin].
      * rewrite decide_True by now right.
        destruct (dict_get record k) eqn:Hrk; [reflexivity|].
        destruct (dict_get record k0) eqn:Hr0; [|reflexivity].
        rewrite dict_get_set, decide_False; [reflexivity|congruence].
      * destruct (decide (k = k0)) as [->|Hne].
        -- rewrite decide_True by left.
           destruct (dict_get record k0); [|reflexivity].
           rewrite dict_get_set, decide_True; reflexivity.
        -- rewrite decide_False by (intros Hin; apply elem_of_cons in Hin as [?|?]; contradiction).
           destruct (dict_get record k0); [|reflexivity].
           rewrite dict_get_set, decide_False; [reflexivity|congruence].
Qed.

(** The projection onto the key fields: the key fields the record has,
    with their values. *)
Lemma key_data_get (record : pydict) (K : list pystr) (k : pystr) :
  dict_get (key_data record K) k = if decide (k ∈ K) then dict_get record k else None.
Proof.
  unfold key_data. rewrite (proj2 (key_data_fold record K [])).
  destruct (decide _); [|reflexivity]. destruct (dict_get record k); reflexivity.
Qed.

Lemma key_data_is_dict (record : pydict) (K : list pystr) : is_dict (key_data record K).
Proof. apply (proj1 (key_data_fold record K [])). apply NoDup_nil_2. Qed.

(** The identity does not depend on the order the key fields are listed
    in: [sort_keys] puts them in one order. *)
Lemma generate_id_key_order (record : pydict) (K K' : list pystr) :
  K ≡ₚ K' -> generate_id record K' = generate_id record K.
Proof.
  intros Hp. unfold generate_id. cbn [json_dumps].
  rewrite (sorted_items_permutation
             (List.map (fun kv => (kv.1, json_dumps kv.2)) (key_data record K))
             (List.map (fun kv => (kv.1, json_dumps kv.2)) (key_data record K')));
    [reflexivity| |].
  - unfold is_dict.
    replace ((List.map (fun kv => (kv.1, json_dumps kv.2)) (key_data record K)).*1)
      with ((key_data record K).*1); [apply key_data_is_dict|].
    generalize (key_data record K). clear.
    intros d. induction d as [|[k v] d IH]; [reflexivity|]. cbn. now f_equal.
  - apply Permutation_map, dict_ext_permutation; try apply key_data_is_dict.
    intros k. rewrite !key_data_get.
    destruct (decide (k ∈ K)) as [Hin|Hnin].
    + rewrite decide_True; [reflexivity|]. now rewrite <- Hp.
    + rewrite decide_False; [reflexivity|]. now rewrite <- Hp.
Qed.
End KeyOrder.

Lemma dict_get_app {V} (a b : list (pystr * V)) (k : pystr) :
  dict_get (a ++ b) k = match dict_get a k with
                        | Some v => Some v
                        | None => dict_get b k
                        end.
Proof.
  induction a as [|[k' v'] a IH]; [reflexivity|].
  cbn [app dict_get]. destruct (decide (k' = k)); [reflexivity|exact IH].
Qed.

(** ** Schemas *)

Section SchemaProperties.
Context `{Pydantic}.

Lemma validate_fields_undeclared (fs : list field) (input values : pydict) (k : pystr) :
  validate_fields fs input = Ok values ->
  existsb (fun f => bool_decide (fname f = k)) fs = false ->
  dict_get values k = None.
Proof.
  revert values. induction fs as [|f fs IH]; intros values.
  - intros [= <-] _. reflexivity.
  - cbn [validate_fields existsb].
    destruct (validate_field f input) as [v|e]; [|discriminate].
    cbn [bind]. destruct (validate_fields fs input) as [vs|e]; [|discriminate].
    cbn [bind]. intros [= <-] Hk. apply orb_false_iff in Hk as [Hf Hk].
    cbn [dict_get]. apply bool_decide_eq_false in Hf.
    rewrite decide_False by exact Hf. now apply IH.
Qed.

Lemma dict_get_absent {V} (d : list (pystr * V)) (k : pystr) :
  k ∉ d.*1 -> dict_get d k = None.
Proof.
  induction d as [|[k' v'] d IH]; [reflexivity|].
  cbn [fmap list_fmap fst dict_get]. intros Hk. apply not_elem_of_cons in Hk as [Hne Hk].
  rewrite decide_False by congruence. now apply IH.
Qed.

(** Looking the keys of a list up in a dict. *)
Lemma dict_get_lookups (input : pydict) (keys : list pystr) (k : pystr) :
  dict_get (omap (fun k' => (fun v => (k', v)) <$> dict_get input k') keys) k
  = if decide (k ∈ keys) then dict_get input k else None.
Proof.
  induction keys as [|k' keys IH]; [reflexivity|].
  change (omap (fun k' => (fun v => (k', v)) <$> dict_get input k') (k' :: keys))
    with (match (fun v => (k', v)) <$> dict_get input k' with
          | Some y => y :: omap (fun k' => (fun v => (k', v)) <$> dict_get input k') keys
          | None => omap (fun k' => (fun v => (k', v)) <$> dict_get input k') keys
          end).
  destruct (decide (k' = k)) as [->|Hne].
  - rewrite decide_True by left.
    destruct (dict_get input k) as [v|] eqn:Hv; cbn [fmap option_fmap option_map dict_get].
    + now rewrite decide_True.
    + rewrite IH. now destruct (decide _).
  - assert ((if decide (k ∈ k' :: keys) then dict_get input k else None)
            = if decide (k ∈ keys) then dict_get input k else None) as ->.
    { destruct (decide (k ∈ keys)) as [Hin|Hnot].
      - rewrite decide_True; [reflexivity|now right].
      - rewrite decide_False; [reflexivity|].
        intros Hin. apply elem_of_cons in Hin as [?|?]; congruence. }
    destruct (dict_get input k') as [v|]; cbn [fmap option_fmap option_map dict_get];
      [|exact IH].
    rewrite decide_False by exact Hne. exact IH.
Qed.

Lemma extra_keys_elem (sch : schema) (input : pydict) (k : pystr) :
  k ∈ extra_order (List.filter (fun k => negb (is_declared sch k)) (input.*1))
  <-> k ∈ input.*1 /\ is_declared sch k = false.
Proof.
  rewrite (extra_order_perm _), !list_elem_of_In, filter_In, negb_true_iff. reflexivity.
Qed.

Lemma dict_get_extra_items (sch : schema) (input : pydict) (k : pystr) :
  is_declared sch k = false ->
  dict_get (extra_items sch input) k = dict_get input k.
Proof.
  intros Hk. unfold extra_items. rewrite dict_get_lookups.
  destruct (decide _) as [Hin|Hnot]; [reflexivity|].
  symmetry. apply dict_get_absent. intros Hin. apply Hnot, extra_keys_elem. auto.
Qed.

(** What becomes of a key the schema does not declare. *)
Lemma model_dict_extra (sch : schema) (record out : pydict) (k : pystr) :
  model_dict sch record = Ok out ->
  is_declared sch k = false ->
  dict_get out k = match extra sch with
                   | ExtraAllow => dict_get record k
                   | ExtraIgnore => None
                   end.
Proof.
  unfold model_dict. intros Hm Hk.
  destruct (validate_fields (fields sch) record) as [values|e] eqn:Hv; [|discriminate].
  cbn [bind] in Hm.
  pose proof (validate_fields_undeclared _ _ _ k Hv Hk) as Hnone.
  destruct (extra sch); injection Hm as <-; [exact Hnone|].
  rewrite dict_get_app, Hnone. now apply dict_get_extra_items.
Qed.

Lemma validate_fields_ext (fs : list field) (i1 i2 : pydict) :
  (forall f, f ∈ fs -> dict_get i1 (fname f) = dict_get i2 (fname f)) ->
  validate_fields fs i1 = validate_fields fs i2.
Proof.
  induction fs as [|f fs IH]; intros Hf; [reflexivity|].
  cbn [validate_fields]. unfold validate_field. rewrite (Hf f) by left.
  rewrite IH; [reflexivity|]. intros g Hg. apply Hf. now right.
Qed.

(** A key the schema does not declare has no part in the verdict. *)
Lemma model_dict_extra_accepted (sch : schema) (record : pydict) (k : pystr) (v : pyvalue) :
  is_declared sch k = false ->
  validate_fields (fields sch) (dict_set record k v)
  = validate_fields (fields sch) record.
Proof.
  intros Hk. apply validate_fields_ext. intros f Hf.
  rewrite dict_get_set. destruct (decide (k = fname f)) as [->|]; [|reflexivity].
  exfalso. unfold is_declared in Hk.
  assert (existsb (fun g => bool_decide (fname g = fname f)) (fields sch) = true) as Ht.
  { apply existsb_exists. exists f. split; [now apply list_elem_of_In|].
    now apply bool_decide_eq_true. }
  congruence.
Qed.
End SchemaProperties.

(** ** The validator *)

Section ValidatorProperties.
Context `{Pydantic}.

Lemma extends_refl (self : Validator) : extends self self.
Proof. split; [reflexivity|]. exists []. now rewrite app_nil_r. Qed.

Lemma extends_trans (a b c : Validator) : extends a b -> extends b c -> extends a c.
Proof.
  intros [Hab [es1 H1]] [Hbc [es2 H2]]. split; [congruence|].
  exists (es1 ++ es2). now rewrite H2, H1, app_assoc.
Qed.

Lemma extends_append (self : Validator) (entry : error_entry) :
  extends self (errors_append self entry).
Proof. split; [reflexivity|]. now exists [entry]. Qed.

Lemma validate_each_fold (sch : schema) (type : string) (records : list pydict) :
  forall (n : nat) (self : Validator) (validated : list pydict),
    let st := fold_left
      (fun '(self, validated) '(idx, record) =>
         match model_dict sch record with
         | Ok d => (self, validated ++ [d])
         | Raise e =>
             (errors_append self {| err_type := py type; err_index := Some idx;
                                    err_error := exn_str e; err_data := record |},
              validated)
         end)
      (combine (seq n (length records)) records) (self, validated) in
    st.2 = validated ++ omap (accepted sch) records /\ extends self st.1.
Proof.
  induction records as [|r rs IH]; intros n self validated.
  - cbn. split; [now rewrite app_nil_r|apply extends_refl].
  - assert (omap (accepted sch) (r :: rs)
            = match accepted sch r with
              | Some d => d :: omap (accepted sch) rs
              | None => omap (accepted sch) rs
              end) as -> by reflexivity.
    cbn [length seq combine fold_left]. unfold accepted at 1.
    destruct (model_dict sch r) as [d|e].
    + destruct (IH (S n) self (validated ++ [d])) as [Hv He].
      split; [|exact He]. cbn zeta in Hv. rewrite Hv, <- app_assoc. reflexivity.
    + destruct (IH (S n) (errors_append self
          {| err_type := py type; err_index := Some n;
             err_error := exn_str e; err_data := r |}) validated) as [Hv He].
      split; [exact Hv|]. eapply extends_trans; [apply extends_append|exact He].
Qed.

(** The list a category validates to: the validated records of those that
    pass, in their order. *)
Lemma validate_each_output (sch : schema) (type : string) (self : Validator)
    (records : list pydict) :
  (validate_each sch type self records).2 = omap (accepted sch) records.
Proof. apply (validate_each_fold sch type records 0 self []). Qed.

Lemma validate_each_extends (sch : schema) (type : string) (self : Validator)
    (records : list pydict) :
  extends self (validate_each sch type self records).1.
Proof. apply (validate_each_fold sch type records 0 self []). Qed.

Lemma validate_one_extends (sch : schema) (type : string) (self : Validator)
    (record : pydict) :
  extends self (validate_one sch type self record).1.
Proof.
  unfold validate_one. destruct (model_dict sch record);
    [apply extends_refl|apply extends_append].
Qed.

Lemma list_block_extends validate store field_ (st : run_state) :
  (forall self records, extends self (validate self records).1) ->
  extends (self_ st) (self_ (list_block validate store field_ st)).
Proof.
  intros Hv. unfold list_block. destruct field_ as [[|r rs]|]; try apply extends_refl.
  specialize (Hv (self_ st) (r :: rs)).
  destruct (validate (self_ st) (r :: rs)) as [self v]. exact Hv.
Qed.

Lemma single_block_extends validate store field_ (st : run_state) :
  (forall self record, extends self (validate self record).1) ->
  extends (self_ st) (self_ (single_block validate store field_ st)).
Proof.
  intros Hv. unfold single_block. destruct field_ as [[|kv r]|]; try apply extends_refl.
  specialize (Hv (self_ st) (kv :: r)).
  destruct (validate (self_ st) (kv :: r)) as [self [[|? ?]|]]; exact Hv.
Qed.

(** A run only appends to the error log. *)
Lemma validate_categories_extends (self : Validator) (result : scrape_result) :
  extends self (self_ (validate_categories self result)).
Proof.
  unfold validate_categories.
  set (st0 := {| self_ := self; validated_ := empty_result; total_records_ := 0 |}).
  set (st1 := list_block validate_products set_products (products result) st0).
  set (st2 := list_block validate_images set_images (images result) st1).
  set (st3 := single_block validate_contacts set_contacts (contacts result) st2).
  set (st4 := single_block validate_text set_text (text result) st3).
  set (st5 := list_block validate_assets set_assets (assets result) st4).
  assert (extends self (self_ st5)) as H5.
  { change self with (self_ st0).
    eapply extends_trans; [|apply list_block_extends, validate_each_extends].
    eapply extends_trans; [|apply single_block_extends, validate_one_extends].
    eapply extends_trans; [|apply single_block_extends, validate_one_extends].
    eapply extends_trans; [|apply list_block_extends, validate_each_extends].
    apply list_block_extends, validate_each_extends. }
  destruct (crawl result); exact H5.
Qed.

(** What [validate_result] tests: the errors logged before the call,
    against the records of the call. *)
Lemma validate_result_raises (self : Validator) (result : scrape_result) (e : exn) :
  (validate_result self result).2 = Raise e <->
  e = ValueError (threshold_message (length (errors self))
                    (total_records_ (validate_categories self result)))
  /\ (0 < total_records_ (validate_categories self result))%nat
  /\ ratio_exceeds (length (errors self))
       (total_records_ (validate_categories self result))
       (error_threshold self) = true.
Proof.
  unfold validate_result.
  destruct (validate_categories_extends self result) as [Ht _]. rewrite Ht.
  destruct (0 <? _)%nat eqn:Hpos; cbn [andb].
  - apply Nat.ltb_lt in Hpos. destruct (ratio_exceeds _ _ _); cbn [snd].
    + split; [intros [= <-]; auto|]. now intros [-> _].
    + split; [discriminate|]. now intros (_ & _ & ?).
  - apply Nat.ltb_ge in Hpos. cbn [snd]. split; [discriminate|]. intros (_ & ? & _). lia.
Qed.






(** A validator that has logged nothing yet does not raise, whatever the
    records. *)
Lemma fresh_validator_never_raises (threshold : Q) (result : scrape_result) :
  (0 <= threshold)%Q ->
  exists validated, (validate_result (new_validator threshold) result).2 = Ok validated.
Proof.
  intros Hth.
  destruct ((validate_result (new_validator threshold) result).2) as [v|e] eqn:Hr; [eauto|].
  apply validate_result_raises in Hr as (_ & _ & Hex). exfalso.
  unfold ratio_exceeds in Hex. cbn [new_validator errors length error_threshold] in Hex.
  apply negb_true_iff in Hex.
  assert (Qle_bool (Z.of_nat 0 # Pos.of_nat (total_records_
            (validate_categories (new_validator threshold) result))) threshold = true) as Hle.
  { apply Qle_bool_iff. unfold Qle in *. cbn in *. lia. }
  congruence.
Qed.
End ValidatorProperties.

Section ValidatorRuns.
#[local] Existing Instance exact_types.

(** C1, at an input that breaks it: of ten products six are invalid, a
    ratio of 0.6 against the default threshold 0.5, and the call returns
    the four valid ones without raising. *)
Theorem six_invalid_of_ten_not_signalled :
  let result := set_products (repeat untitled 6 ++ repeat lamp 4) empty_result in
  let run := validate_result (new_validator default_threshold) result in
  length (errors run.1) = 6%nat
  /\ total_records_ (validate_categories (new_validator default_threshold) result) = 10%nat
  /\ exists validated,
       run.2 = Ok validated /\ length <$> products validated = Some 4%nat.
Proof. vm_compute. repeat split. eexists. split; reflexivity. Qed.

(** The other example of C1: four invalid of ten, no signal. *)
Example four_invalid_of_ten_not_signalled :
  exists validated,
    (validate_result (new_validator default_threshold)
       (set_products (repeat untitled 4 ++ repeat lamp 6) empty_result)).2
    = Ok validated.
Proof. vm_compute. eexists. reflexivity. Qed.


(** C8, as stated, fails: an image with a field its schema does not name
    passes, and the field is missing from the validated record. *)
Lemma image_extra_field_dropped :
  exists out,
    (validate_images (new_validator default_threshold) [captioned_image]).2 = [out]
    /\ dict_get captioned_image (py "caption") = Some (VStr (py "front"))
    /\ dict_get out (py "caption") = None.
Proof. vm_compute. eexists. repeat split. Qed.
End ValidatorRuns.



(** C8 (amended): only the product schema allows extra fields.  A validated
    record comes from a record of the input that passed; a field its schema
    does not name is in it unchanged for a product, and is left out of it,
    without the record being rejected for it, in the other categories:
    images and assets, validated in lists, and contacts and text,
    validated one record at a time. *)
Theorem extra_fields_by_schema `{Pydantic} :
  (extra ProductSchema = ExtraAllow /\ extra ImageSchema = ExtraIgnore
   /\ extra ContactSchema = ExtraIgnore /\ extra TextSchema = ExtraIgnore
   /\ extra AssetSchema = ExtraIgnore)
  /\ (forall sch type self records out,
        out ∈ (validate_each sch type self records).2 ->
        exists record,
          record ∈ records /\ model_dict sch record = Ok out
          /\ forall k, is_declared sch k = false ->
               dict_get out k = match extra sch with
                                | ExtraAllow => dict_get record k
                                | ExtraIgnore => None
                                end)
  /\ (forall sch record k v,
        is_declared sch k = false ->
        validate_fields (fields sch) (dict_set record k v)
        = validate_fields (fields sch) record)
  /\ (forall self records out,
        out ∈ (validate_products self records).2 ->
        exists record,
          record ∈ records
          /\ forall k, is_declared ProductSchema k = false ->
               dict_get out k = dict_get record k)
  /\ (forall self records out k,
        out ∈ (validate_images self records).2 ->
        is_declared ImageSchema k = false -> dict_get out k = None)
  /\ (forall self records out k,
        out ∈ (validate_assets self records).2 ->
        is_declared AssetSchema k = false -> dict_get out k = None)
  /\ (forall self record out k,
        (validate_contacts self record).2 = Some out ->
        is_declared ContactSchema k = false -> dict_get out k = None)
  /\ (forall self record out k,
        (validate_text self record).2 = Some out ->
        is_declared TextSchema k = false -> dict_get out k = None)
  /\ (forall sch type self record k v,
        is_declared sch k = false ->
        is_Some (validate_one sch type self (dict_set record k v)).2
        <-> is_Some (validate_one sch type self record).2).
Proof.
  assert (forall sch type self records out,
            out ∈ (validate_each sch type self records).2 ->
            exists record,
              record ∈ records /\ model_dict sch record = Ok out
              /\ forall k, is_declared sch k = false ->
                   dict_get out k = match extra sch with
                                    | ExtraAllow => dict_get record k
                                    | ExtraIgnore => None
                                    end) as Heach.
  { intros sch type self records out. rewrite validate_each_output.
    intros Hin. apply list_elem_of_omap in Hin as (record & Hrec & Hacc).
    exists record. split; [exact Hrec|].
    unfold accepted in Hacc. destruct (model_dict sch record) as [d|e] eqn:Hm; [|discriminate].
    injection Hacc as ->. split; [reflexivity|].
    intros k Hk. now apply model_dict_extra. }
  assert (forall sch type self record out k,
            (validate_one sch type self record).2 = Some out ->
            is_declared sch k = false ->
            dict_get out k = match extra sch with
                             | ExtraAllow => dict_get record k
                             | ExtraIgnore => None
                             end) as Hone.
  { intros sch type self record out k. unfold validate_one.
    destruct (model_dict sch record) as [d|e] eqn:Hm; [|discriminate].
    intros [= <-] Hk. now apply model_dict_extra. }
  split; [repeat split|]. split; [exact Heach|].
  split; [intros; now apply model_dict_extra_accepted|].
  split.
  { intros self records out Hin.
    destruct (Heach _ _ _ _ _ Hin) as (record & Hrec & _ & Hk). eauto. }
  split.
  { intros self records out k Hin Hk.
    destruct (Heach _ _ _ _ _ Hin) as (record & _ & _ & Hx). exact (Hx k Hk). }
  split.
  { intros self records out k Hin Hk.
    destruct (Heach _ _ _ _ _ Hin) as (record & _ & _ & Hx). exact (Hx k Hk). }
  split; [intros self record out k Ho Hk; exact (Hone _ _ _ _ _ _ Ho Hk)|].
  split; [intros self record out k Ho Hk; exact (Hone _ _ _ _ _ _ Ho Hk)|].
  intros sch type self record k v Hk. unfold validate_one, model_dict.
  rewrite (model_dict_extra_accepted sch record k v Hk).
  destruct (validate_fields (fields sch) record) as [values|e]; cbn [bind];
    [|reflexivity].
  destruct (extra sch); cbn [snd]; split; eauto.
Qed.

(** ** The change detector *)

Lemma get_set_category (dt : pystr) (v : list pydict) (r : scrape_result) :
  dt ∈ [py "products"; py "images"; py "assets"] ->
  get_category (set_category dt v r) dt = Some v.
Proof.
  intros Hdt. unfold get_category, set_category.
  repeat (apply elem_of_cons in Hdt as [->|Hdt]); [| | |inversion Hdt];
    repeat (destruct (decide _) as [Heq|Hne]; try discriminate Heq; try reflexivity;
            try (exfalso; apply Hne; reflexivity)).
Qed.

Lemma get_set_category_other (dt dt' : pystr) (v : list pydict) (r : scrape_result) :
  dt <> dt' -> get_category (set_category dt' v r) dt = get_category r dt.
Proof.
  intros Hne. unfold get_category, set_category.
  repeat (destruct (decide _) as [->|?]; try congruence; try reflexivity).
Qed.

Section ChangeDetectorProperties.
Context `{Hashlib} `{FloatRepr}.

Lemma index_by_id_fold (fields : list pystr) (records : list pydict) :
  forall m : gmap pystr pydict,
    dom (fold_left (fun m r => <[generate_id r fields := r]> m) records m)
      = dom m ∪ list_to_set (ids fields records)
    /\ ((forall i r, m !! i = Some r -> generate_id r fields = i) ->
        forall i r,
          fold_left (fun m r => <[generate_id r fields := r]> m) records m !! i = Some r ->
          generate_id r fields = i).
Proof.
  induction records as [|x records IH]; intros m.
  - cbn. split; [|auto]. apply set_eq. intros i.
    rewrite elem_of_union, elem_of_empty. tauto.
  - cbn [fold_left ids List.map list_to_set].
    destruct (IH (<[generate_id x fields := x]> m)) as [Hdom Hid]. split.
    + rewrite Hdom, dom_insert_L. apply set_eq. intros i.
      rewrite !elem_of_union. tauto.
    + intros Hm. apply Hid. intros i r.
      rewrite lookup_insert. destruct (decide _) as [<-|Hne].
      * now intros [= <-].
      * apply Hm.
Qed.

(** The keys of [current_ids] are the identities of the current records. *)
Lemma index_by_id_dom (fields : list pystr) (records : list pydict) :
  dom (index_by_id fields records) = list_to_set (ids fields records).
Proof.
  unfold index_by_id. rewrite (proj1 (index_by_id_fold fields records ∅)).
  rewrite dom_empty_L. apply set_eq. intros i.
  rewrite elem_of_union, elem_of_empty. tauto.
Qed.

(** A record is filed under its own identity. *)
Lemma index_by_id_lookup (fields : list pystr) (records : list pydict)
    (i : pystr) (r : pydict) :
  index_by_id fields records !! i = Some r -> generate_id r fields = i.
Proof.
  apply (proj2 (index_by_id_fold fields records ∅)).
  intros i' r'. rewrite lookup_empty. discriminate.
Qed.

Lemma updated_of_id (fields : list pystr) (current_ids : gmap pystr pydict)
    (previous_records : list pydict) (record_id : pystr) (e : updated_entry) :
  e ∈ updated_of fields current_ids previous_records record_id -> upd_id e = record_id.
Proof.
  unfold updated_of. intros Hin.
  destruct (current_ids !! record_id); [|inversion Hin].
  destruct (List.find _ previous_records) as [[|kv prev_record]|];
    try (inversion Hin; fail).
  destruct (decide _); [|inversion Hin].
  apply list_elem_of_singleton in Hin as ->. reflexivity.
Qed.

Section OneDataType.
Variables (current previous_data : scrape_result)
          (previous_ids key_fields : list (pystr * list pystr))
          (data_type : pystr) (current_records : list pydict) (fields : list pystr).
Hypothesis Hdt : data_type ∈ [py "products"; py "images"; py "assets"].
Hypothesis Hcur : get_category current data_type = Some current_records.
Hypothesis Hkf : dict_get key_fields data_type = Some fields.

Let cur : gset pystr := list_to_set (ids fields current_records).
Let prv : gset pystr :=
  previous_id_set previous_ids
    (default [] (get_category previous_data data_type)) data_type fields.
Let step := diff_data_type current previous_data previous_ids key_fields.

Lemma diff_data_type_same (ch : changes) : diffed (step ch data_type) data_type fields cur prv.
Proof.
  unfold step, diff_data_type. rewrite Hcur, Hkf. cbv zeta.
  rewrite index_by_id_dom. fold cur. fold prv.
  eexists _, _, _. cbn [new updated removed].
  split; [now apply get_set_category|].
  split; [rewrite dict_get_set; now rewrite decide_True|].
  split; [rewrite dict_get_set; now rewrite decide_True|].
  split; [|split].
  - intros r Hr. apply list_elem_of_omap in Hr as (i & Hi & Hl).
    apply index_by_id_lookup in Hl as ->.
    apply elem_of_elements, elem_of_difference in Hi. exact Hi.
  - intros e He. apply list_elem_of_In, in_flat_map in He as (i & Hi & He).
    apply list_elem_of_In in Hi, He. apply updated_of_id in He as ->.
    apply elem_of_elements, elem_of_intersection in Hi. exact Hi.
  - intros i Hi. apply elem_of_elements, elem_of_difference in Hi. exact Hi.
Qed.

Lemma diff_data_type_other (ch : changes) (other : pystr) :
  data_type <> other ->
  diffed ch data_type fields cur prv ->
  diffed (step ch other) data_type fields cur prv.
Proof.
  intros Hne (news & upds & rems & Hn & Hu & Hr & Hprops).
  unfold step, diff_data_type.
  destruct (get_category current other); [|now exists news, upds, rems].
  destruct (dict_get key_fields other); [|now exists news, upds, rems].
  exists news, upds, rems. cbn [new updated removed].
  rewrite get_set_category_other by exact Hne.
  rewrite !dict_get_set, !decide_False by congruence. auto.
Qed.

Lemma diff_fold_other (names : list pystr) (ch : changes) :
  data_type ∉ names ->
  diffed ch data_type fields cur prv ->
  diffed (fold_left step names ch) data_type fields cur prv.
Proof.
  revert ch. induction names as [|n names IH]; intros ch Hnot Hd; [exact Hd|].
  cbn [fold_left]. apply not_elem_of_cons in Hnot as [Hne Hnot].
  apply IH; [exact Hnot|]. now apply diff_data_type_other.
Qed.

Lemma diff_fold (names : list pystr) (ch : changes) :
  NoDup names -> data_type ∈ names ->
  diffed (fold_left step names ch) data_type fields cur prv.
Proof.
  revert ch. induction names as [|n names IH]; intros ch Hnd Hin; [inversion Hin|].
  cbn [fold_left]. apply NoDup_cons in Hnd as [Hn Hnd].
  destruct (decide (data_type = n)) as [<-|Hne].
  - apply diff_fold_other; [exact Hn|apply diff_data_type_same].
  - apply IH; [exact Hnd|]. apply elem_of_cons in Hin as [?|?]; [contradiction|assumption].
Qed.
End OneDataType.

(** C10: for a data type that is diffed, every record listed as new has an
    identity of the current run that the previous run did not have, every
    identity listed as removed is of the previous run and not of the
    current one, every entry listed as updated has an identity of both;
    so no identity is in two of the three lists. *)
Theorem change_sets_disjoint (current : scrape_result) (prev : snapshot)
    (key_fields : option (list (pystr * list pystr)))
    (data_type : pystr) (current_records : list pydict) (fields : list pystr) :
  snapshot_truthy prev = true ->
  data_type ∈ [py "products"; py "images"; py "assets"] ->
  get_category current data_type = Some current_records ->
  dict_get (key_fields_or_default key_fields) data_type = Some fields ->
  let ch := detect_changes current (Some prev) key_fields in
  let cur : gset pystr := list_to_set (ids fields current_records) in
  let prv : gset pystr :=
    previous_id_set (default [] (snap_record_ids prev))
      (default [] (get_category (default empty_result (snap_data prev)) data_type))
      data_type fields in
  exists news upds rems,
    get_category (new ch) data_type = Some news
    /\ dict_get (updated ch) data_type = Some upds
    /\ dict_get (removed ch) data_type = Some rems
    /\ (forall r, r ∈ news -> generate_id r fields ∈ cur /\ generate_id r fields ∉ prv)
    /\ (forall e, e ∈ upds -> upd_id e ∈ cur /\ upd_id e ∈ prv)
    /\ (forall i, i ∈ rems -> i ∈ prv /\ i ∉ cur)
    /\ (forall r e, r ∈ news -> e ∈ upds -> generate_id r fields <> upd_id e)
    /\ (forall r i, r ∈ news -> i ∈ rems -> generate_id r fields <> i)
    /\ (forall e i, e ∈ upds -> i ∈ rems -> upd_id e <> i).
Proof.
  intros Htruthy Hdt Hcur Hkf ch cur prv.
  assert (diffed ch data_type fields cur prv) as (news & upds & rems & Hn & Hu & Hr & Pn & Pu & Pr).
  { subst ch. unfold detect_changes. rewrite Htruthy.
    apply diff_fold; try assumption.
    apply (bool_decide_unpack _). vm_compute. reflexivity. }
  exists news, upds, rems.
  split; [exact Hn|]. split; [exact Hu|]. split; [exact Hr|].
  split; [exact Pn|]. split; [exact Pu|]. split; [exact Pr|].
  split; [|split].
  - intros r e Hr' He Heq. apply Pn in Hr' as [_ Hr']. apply Pu in He as [_ He]. congruence.
  - intros r i Hr' Hi Heq. apply Pn in Hr' as [_ Hr']. apply Pr in Hi as [Hi _]. congruence.
  - intros e i He Hi Heq. apply Pu in He as [He _]. apply Pr in Hi as [_ Hi]. congruence.
Qed.

(** C6: without a previous snapshot the whole current result is new and
    nothing is updated or removed; a job with no snapshot file loads as
    no snapshot, not as an error; an empty snapshot counts as none. *)
Theorem no_previous_snapshot_all_new :
  (forall current key_fields,
     detect_changes current None key_fields
     = {| new := current; updated := []; removed := [] |})
  /\ (forall dir job_id current key_fields,
        (forall f, f ∈ dir -> glob_matches job_id (file_name f) = false) ->
        load_latest_snapshot dir job_id = None
        /\ detect_changes current (load_latest_snapshot dir job_id) key_fields
           = {| new := current; updated := []; removed := [] |})
  /\ (forall current prev key_fields,
        snapshot_truthy prev = false ->
        detect_changes current (Some prev) key_fields
        = {| new := current; updated := []; removed := [] |}).
Proof.
  split; [reflexivity|].
  split; [|intros current prev key_fields Hf; unfold detect_changes; now rewrite Hf].
  intros dir job_id current key_fields Hno.
  assert (load_latest_snapshot dir job_id = None) as ->; [|split; reflexivity].
  unfold load_latest_snapshot.
  destruct (List.filter _ dir) as [|f rest] eqn:Hf; [reflexivity|].
  assert (In f (List.filter (fun f => glob_matches job_id (file_name f)) dir)) as Hin
    by (rewrite Hf; now left).
  apply filter_In in Hin as [Hin Hm]. apply list_elem_of_In in Hin.
  rewrite (Hno f Hin) in Hm. discriminate.
Qed.
End ChangeDetectorProperties.

Section Runs.
#[local] Existing Instance hashlib_md5.
#[local] Existing Instance no_floats.

(** [lamp], its fields reordered, a price added, another description. *)
Lemma identity_invariant_witness :
  generate_id lamp_reordered [py "title"; py "url"]
    = generate_id lamp [py "title"; py "url"]
  /\ generate_id (dict_set lamp (py "price") (VStr (py "12.00"))) [py "title"; py "url"]
    = generate_id lamp [py "title"; py "url"]
  /\ generate_id lamp_again [py "title"; py "url"]
    = generate_id lamp [py "title"; py "url"].
Proof.
  apply (identity_invariant lamp lamp_reordered lamp_again
           [py "title"; py "url"] (py "price") (VStr (py "12.00"))).
  - apply (bool_decide_unpack _). vm_compute. reflexivity.
  - change lamp_reordered with (reverse lamp). symmetry. apply reverse_Permutation.
  - apply (bool_decide_unpack _). vm_compute. reflexivity.
  - intros k Hk.
    repeat (apply elem_of_cons in Hk as [->|Hk]); [reflexivity|reflexivity|inversion Hk].
Defined.

(** C4, as stated, fails in its last part: [lamp_title] and [lamp] have
    the same value for [title], the one key field present in both, and
    their identities differ, since [url] is a key field that only [lamp]
    has. *)
Lemma identity_differs_on_one_sided_key_field :
  let K := [py "title"; py "url"] in
  is_dict lamp_title /\ is_dict lamp
  /\ (forall k v v',
        k ∈ K -> dict_get lamp_title k = Some v -> dict_get lamp k = Some v' -> v = v')
  /\ generate_id lamp_title K = py "9232dc00bf5f96392478a0e83498fe9a"
  /\ generate_id lamp K = py "3778754ded6684ec21a69782ae9455f0"
  /\ generate_id lamp_title K <> generate_id lamp K.
Proof.
  cbv zeta. split; [apply (bool_decide_unpack _); vm_compute; reflexivity|].
  split; [apply (bool_decide_unpack _); vm_compute; reflexivity|].
  split.
  - intros k v v' Hk.
    apply elem_of_cons in Hk as [->|Hk];
      [|apply list_elem_of_singleton in Hk as ->]; vm_compute; congruence.
  - split; [vm_compute; reflexivity|]. split; [vm_compute; reflexivity|].
    vm_compute. discriminate.
Qed.

(** The identity of [lamp] is the MD5 digest Python computes. *)
Example generate_id_lamp :
  generate_id lamp [py "title"; py "url"] = py "3778754ded6684ec21a69782ae9455f0".
Proof. vm_compute. reflexivity. Qed.

(** The example of the specification for [deduplicate]. *)
Example deduplicate_example :
  deduplicate [lamp; lamp_again; desk; lamp] [py "title"; py "url"] = [lamp; desk].
Proof. vm_compute. reflexivity. Qed.

(** The end-to-end example of the specification. *)
Example detect_changes_example :
  detect_changes shop_current (Some shop_snapshot) None
  = {| new := set_products [chair] empty_result;
       updated := [(py "products",
                    [{| upd_id := generate_id lamp [py "title"; py "url"];
                        upd_previous := lamp; upd_current := lamp_again |}])];
       removed := [(py "products", [generate_id desk [py "title"; py "url"]])] |}.
Proof. vm_compute. reflexivity. Qed.

(** The products of the shop between its two runs. *)
Lemma change_sets_disjoint_witness :
  let ch := detect_changes shop_current (Some shop_snapshot) None in
  let cur : gset pystr :=
    list_to_set (ids [py "title"; py "url"] [lamp_again; chair]) in
  let prv : gset pystr :=
    previous_id_set (default [] (snap_record_ids shop_snapshot))
      (default [] (get_category (default empty_result (snap_data shop_snapshot))
                     (py "products")))
      (py "products") [py "title"; py "url"] in
  exists news upds rems,
    get_category (new ch) (py "products") = Some news
    /\ dict_get (updated ch) (py "products") = Some upds
    /\ dict_get (removed ch) (py "products") = Some rems
    /\ (forall r, r ∈ news -> generate_id r [py "title"; py "url"] ∈ cur
                             /\ generate_id r [py "title"; py "url"] ∉ prv)
    /\ (forall e, e ∈ upds -> upd_id e ∈ cur /\ upd_id e ∈ prv)
    /\ (forall i, i ∈ rems -> i ∈ prv /\ i ∉ cur)
    /\ (forall r e, r ∈ news -> e ∈ upds -> generate_id r [py "title"; py "url"] <> upd_id e)
    /\ (forall r i, r ∈ news -> i ∈ rems -> generate_id r [py "title"; py "url"] <> i)
    /\ (forall e i, e ∈ upds -> i ∈ rems -> upd_id e <> i).
Proof.
  apply (change_sets_disjoint shop_current shop_snapshot None (py "products")
           [lamp_again; chair] [py "title"; py "url"]).
  - vm_compute. reflexivity.
  - apply (bool_decide_unpack _). vm_compute. reflexivity.
  - reflexivity.
  - reflexivity.
Defined.
End Runs.

(** * Further properties *)

(** ** The normalizer: what it returns *)

Lemma lstrip_shorter (c : N) (s : pystr) :
  startswith [c] s = true -> (length (lstrip c s) < length s)%nat.
Proof.
  destruct s as [|x t]; [discriminate|]. cbn [startswith]. rewrite andb_true_r.
  intros Hx. apply N.eqb_eq in Hx. subst x. cbn [lstrip]. rewrite N.eqb_refl.
  clear. cbn [length]. induction t as [|y t IH]; cbn [lstrip length]; [lia|].
  destruct (y =? c); cbn [length]; lia.
Qed.

Lemma lstrip_no_lead (c : N) (s : pystr) : startswith [c] s = false -> lstrip c s = s.
Proof.
  destruct s as [|x t]; [reflexivity|]. cbn [startswith lstrip]. rewrite andb_true_r.
  rewrite (N.eqb_sym c x). now intros ->.
Qed.

(** A number [normalize_phone] returns starts with [+], has at least
    eleven characters, and holds nothing but digits and [+]. *)
Theorem normalize_phone_shape (phone r : pystr) :
  normalize_phone phone = Ok (Some r) ->
  startswith [ch_plus] r = true
  /\ (11 <= length r)%nat
  /\ forallb (fun c => is_digit c || (c =? ch_plus)) r = true.
Proof.
  unfold normalize_phone, re_sub_outside. destruct phone as [|c0 t0]; [discriminate|].
  set (keep := fun c => is_digit c || (c =? ch_plus)).
  set (digits := List.filter keep (c0 :: t0)).
  assert (forallb keep digits = true) as Hall.
  { apply forallb_forall. intros x Hx. now apply filter_In in Hx. }
  destruct (length (lstrip ch_plus digits) <? 10)%nat eqn:Hlen; [discriminate|].
  apply Nat.ltb_ge in Hlen.
  destruct (startswith [ch_plus] digits) eqn:Hplus; cbn [negb andb].
  - rewrite ?andb_false_r. intros [= <-]. split; [exact Hplus|]. split; [|exact Hall].
    pose proof (lstrip_shorter _ _ Hplus). lia.
  - rewrite ?andb_true_r. rewrite (lstrip_no_lead _ _ Hplus) in *.
    destruct (length digits =? 10)%nat; intros [= <-].
    + split; [reflexivity|]. split; [change (11 <= S (S (length digits)))%nat; lia|].
      change (forallb keep (ch_plus :: 49 :: digits) = true).
      cbn [forallb]. now rewrite Hall.
    + split; [reflexivity|]. split; [cbn [length]; lia|].
      change (forallb keep (ch_plus :: digits) = true).
      cbn [forallb]. now rewrite Hall.
Qed.

Lemma normalize_phone_shape_witness :
  startswith [ch_plus] (py "+15551234567") = true
  /\ (11 <= length (py "+15551234567"))%nat
  /\ forallb (fun c => is_digit c || (c =? ch_plus)) (py "+15551234567") = true.
Proof.
  apply (normalize_phone_shape (py "555-123-4567") (py "+15551234567")).
  vm_compute. reflexivity.
Defined.

Lemma normalize_phone_without_stray_plus_witness :
  normalize_phone (py "(555) 123-4567") = Ok (Some (py "+15551234567"))
  /\ normalize_phone (py "+44 20 7946 0958") = Ok (Some (py "+442079460958")).
Proof.
  split.
  - apply (proj1 (normalize_phone_without_stray_plus (py "(555) 123-4567")
                    ltac:(discriminate))). vm_compute. reflexivity.
  - apply (proj2 (normalize_phone_without_stray_plus (py "+44 20 7946 0958")
                    ltac:(discriminate))). vm_compute. reflexivity.
Defined.

Lemma py_float_nonneg (s : pystr) (v : Q) : py_float s = Ok v -> (0 <= v)%Q.
Proof.
  unfold py_float.
  repeat match goal with
         | |- context [match ?x with _ => _ end] => destruct x
         end; try discriminate; intros [= <-];
    rewrite Qred_correct; unfold Qle; cbn; lia.
Qed.

Lemma spec_currency_codes (price_str : pystr) :
  spec_currency price_str ∈ [py "USD"; py "EUR"; py "GBP"; py "JPY"; py "INR"].
Proof.
  unfold spec_currency. destruct (List.find _ _) as [c|]; [|left].
  unfold currency_code.
  repeat (destruct (c =? _); [repeat ((left; fail) || right)|]).
  repeat ((left; fail) || right).
Qed.

(** What [normalize_price] returns, when it returns a price: a value that
    is not negative (a sign in the text is dropped with the other
    characters), one of the five currency codes, and the text it was
    given. *)
Theorem normalize_price_shape (price_str : pystr) (info : price_info) :
  normalize_price price_str = Ok (Some info) ->
  (0 <= value info)%Q
  /\ currency info ∈ [py "USD"; py "EUR"; py "GBP"; py "JPY"; py "INR"]
  /\ original info = price_str.
Proof.
  rewrite normalize_price_spec. unfold spec_normalize_price.
  destruct (py_float _) as [v|e] eqn:Hf; [|discriminate].
  intros [= <-]. cbn [value currency original].
  split; [now apply py_float_nonneg in Hf|]. split; [apply spec_currency_codes|reflexivity].
Qed.

Lemma normalize_price_shape_witness :
  (0 <= decimal 1250 2)%Q
  /\ py "USD" ∈ [py "USD"; py "EUR"; py "GBP"; py "JPY"; py "INR"]
  /\ py "-12.50" = py "-12.50".
Proof.
  apply (normalize_price_shape (py "-12.50")
           {| value := decimal 1250 2; currency := py "USD"; original := py "-12.50" |}).
  vm_compute. reflexivity.
Defined.

(** The value read depends on the digits, dots and commas of the text
    alone: two texts that agree on them give the same value, or both
    none. *)
Theorem normalize_price_value_of_kept (s1 s2 : pystr) :
  List.filter price_keep s1 = List.filter price_keep s2 ->
  exists r1 r2,
    normalize_price s1 = Ok r1 /\ normalize_price s2 = Ok r2
    /\ value <$> r1 = value <$> r2.
Proof.
  intros Hk. rewrite !normalize_price_spec. eexists _, _. split; [reflexivity|].
  split; [reflexivity|]. unfold spec_normalize_price. rewrite Hk.
  destruct (py_float _); reflexivity.
Qed.

Lemma normalize_price_value_of_kept_witness :
  exists r1 r2,
    normalize_price (py "$1,299.00") = Ok r1
    /\ normalize_price (py "from 1,299.00 USD") = Ok r2
    /\ value <$> r1 = value <$> r2.
Proof.
  apply normalize_price_value_of_kept. vm_compute. reflexivity.
Defined.

(** ** Whitespace *)

Lemma drop_while_head (f : N -> bool) (s : pystr) :
  drop_while f s = [] \/ exists c r, drop_while f s = c :: r /\ f c = false.
Proof.
  induction s as [|x t IH]; [now left|]. cbn [drop_while].
  destruct (f x) eqn:E; [exact IH|]. right. eauto.
Qed.

Lemma drop_while_suffix (f : N -> bool) (s : pystr) :
  exists pre, s = pre ++ drop_while f s.
Proof.
  induction s as [|x t [pre IH]]; [now exists []|]. cbn [drop_while].
  destruct (f x); [|now exists []]. exists (x :: pre). cbn. now f_equal.
Qed.

Lemma drop_while_none (f : N -> bool) (c : N) (r : pystr) :
  f c = false -> drop_while f (c :: r) = c :: r.
Proof. intros E. cbn [drop_while]. now rewrite E. Qed.

Lemma strip_trimmed (v : pystr) : trimmed (strip v).
Proof.
  unfold strip, trimmed.
  destruct (drop_while_head is_space (rev (drop_while is_space v))) as [->|(c & r & Hb & Hc)];
    [now left|].
  right. rewrite Hb, rev_involutive. split; [|eauto].
  destruct (drop_while_suffix is_space (rev (drop_while is_space v))) as [pre Hpre].
  rewrite Hb in Hpre.
  assert (drop_while is_space v = rev (c :: r) ++ rev pre) as Ha.
  { rewrite <- (rev_involutive (drop_while is_space v)), Hpre. apply rev_app_distr. }
  destruct (drop_while_head is_space v) as [Hnil|(c' & r' & Ha' & Hc')].
  - rewrite Hnil in Ha. destruct (rev (c :: r)) eqn:E; [|discriminate].
    apply (f_equal (@length N)) in E. rewrite length_rev in E. discriminate.
  - rewrite Ha' in Ha. destruct (rev (c :: r)) as [|x l] eqn:E.
    + apply (f_equal (@length N)) in E. rewrite length_rev in E. discriminate.
    + injection Ha as -> _. eauto.
Qed.

Lemma strip_of_trimmed (t : pystr) : trimmed t -> strip t = t.
Proof.
  intros [->|[(c & r & -> & Hc) (c' & r' & Hr & Hc')]]; [reflexivity|].
  unfold strip. rewrite (drop_while_none _ _ _ Hc), Hr, (drop_while_none _ _ _ Hc').
  now rewrite <- Hr, rev_involutive.
Qed.

(** [strip] is idempotent and never longer than its argument. *)
Lemma strip_strip (v : pystr) : strip (strip v) = strip v.
Proof. apply strip_of_trimmed, strip_trimmed. Qed.

Lemma drop_while_length (f : N -> bool) (s : pystr) :
  (length (drop_while f s) <= length s)%nat.
Proof.
  destruct (drop_while_suffix f s) as [pre Hpre].
  rewrite Hpre at 2. rewrite length_app. lia.
Qed.

Lemma strip_length (v : pystr) : (length (strip v) <= length v)%nat.
Proof.
  unfold strip. rewrite length_rev.
  etransitivity; [apply drop_while_length|]. rewrite length_rev. apply drop_while_length.
Qed.

Lemma split_whitespace_words (s cur : pystr) :
  forallb no_space cur = true -> is_word_list (split_whitespace cur s).
Proof.
  revert cur. induction s as [|c t IH]; intros cur Hcur; cbn [split_whitespace].
  - destruct cur as [|x cur']; [constructor|]. constructor; [|constructor].
    split.
    + intros E. apply (f_equal (@length N)) in E. rewrite length_rev in E. discriminate.
    + apply forallb_forall. intros y Hy. apply in_rev in Hy.
      revert y Hy. now apply forallb_forall.
  - destruct (is_space c) eqn:Hc.
    + destruct cur as [|x cur']; [now apply IH|]. constructor; [|now apply IH].
      split.
      * intros E. apply (f_equal (@length N)) in E. rewrite length_rev in E. discriminate.
      * apply forallb_forall. intros y Hy. apply in_rev in Hy.
        revert y Hy. now apply forallb_forall.
    + apply IH. cbn [forallb]. unfold no_space at 1. now rewrite Hc, Hcur.
Qed.

Lemma join_words_trimmed (words : list pystr) :
  is_word_list words -> trimmed (join (py " ") words).
Proof.
  induction 1 as [|w ws [Hw Hns] Hws IH]; [now left|]. right.
  destruct w as [|c r]; [contradiction|].
  assert (is_space c = false) as Hc.
  { cbn [forallb] in Hns. apply andb_true_iff in Hns as [Hc _].
    now apply negb_true_iff in Hc. }
  split.
  - destruct ws; cbn [join]; eauto.
  - destruct ws as [|w' ws'].
    + cbn [join]. destruct (rev (c :: r)) as [|x l] eqn:E.
      * apply (f_equal (@length N)) in E. rewrite length_rev in E. discriminate.
      * exists x, l. split; [reflexivity|].
        assert (In x (c :: r)) as Hx by (apply in_rev; rewrite E; now left).
        assert (no_space x = true) as Hn
          by exact (proj1 (forallb_forall no_space (c :: r)) Hns x Hx).
        now apply negb_true_iff in Hn.
    + destruct IH as [E|[_ (x & l & Hr & Hx)]].
      * exfalso. inversion_clear Hws as [|? ? [Hw' _] _].
        destruct w' as [|? ?]; [contradiction|]. destruct ws'; discriminate E.
      * change (join (py " ") ((c :: r) :: w' :: ws'))
          with ((c :: r) ++ py " " ++ join (py " ") (w' :: ws')).
        rewrite !rev_app_distr, Hr. cbn [app]. eauto.
Qed.

(** ** clean_text and normalize_product *)

Lemma clean_text_returns `{UnicodeDB} (text : pystr) :
  exists cleaned, clean_text text = Ok cleaned.
Proof. unfold clean_text. destruct text; eexists; reflexivity. Qed.

(** The text [clean_text] returns is its words joined by single spaces:
    no whitespace at either end, none but the space character inside, no
    two spaces in a row. *)
Theorem clean_text_words `{UnicodeDB} (text : pystr) :
  exists words,
    clean_text text = Ok (join (py " ") words) /\ is_word_list words.
Proof.
  unfold clean_text. destruct text as [|c t].
  - exists []. split; [reflexivity|constructor].
  - eexists. split.
    + rewrite strip_of_trimmed; [reflexivity|].
      apply join_words_trimmed, split_whitespace_words. reflexivity.
    + now apply split_whitespace_words.
Qed.

Section NormalizeProductProperties.
Context `{UnicodeDB} `{Builtins}.

Lemma clean_field_spec (key : string) (d : pydict) :
  exists d',
    clean_field key d = Ok d'
    /\ forall k,
         dict_get d' k
         = if decide (py key = k)
           then match dict_get d k with
                | Some v => match clean_text (str_of v) with
                            | Ok c => Some (VStr c)
                            | Raise _ => None
                            end
                | None => None
                end
           else dict_get d k.
Proof.
  unfold clean_field. destruct (dict_get d (py key)) as [v|] eqn:Hv.
  - destruct (clean_text_returns (str_of v)) as (ws & Hc). rewrite Hc. cbn [bind].
    eexists. split; [reflexivity|]. intros k. rewrite dict_get_set.
    destruct (decide (py key = k)) as [<-|]; [now rewrite Hv, Hc|reflexivity].
  - exists d. split; [reflexivity|]. intros k.
    destruct (decide (py key = k)) as [<-|]; [now rewrite Hv|reflexivity].
Qed.

(** [normalize_product] does not raise; it drops no field, and leaves
    every field but [title], [description], [price], [price_value] and
    [price_currency] as it was. *)
Theorem normalize_product_frame (product : pydict) :
  exists normalized,
    normalize_product product = Ok normalized
    /\ (forall k, is_Some (dict_get product k) -> is_Some (dict_get normalized k))
    /\ (forall k,
          k ∉ [py "title"; py "description"; py "price"; py "price_value";
               py "price_currency"] ->
          dict_get normalized k = dict_get product k).
Proof.
  unfold normalize_product.
  destruct (clean_field_spec "title" product) as (d1 & -> & H1). cbn [bind].
  destruct (clean_field_spec "description" d1) as (d2 & -> & H2). cbn [bind].
  assert (forall k, is_Some (dict_get product k) -> is_Some (dict_get d2 k)) as Hkeep.
  { intros k [v Hv]. rewrite H2, H1.
    destruct (decide (py "description" = k)) as [<-|].
    - rewrite decide_False by discriminate. rewrite Hv.
      destruct (clean_text_returns (str_of v)) as (ws & ->). eauto.
    - destruct (decide (py "title" = k)) as [<-|]; [|eauto]. rewrite Hv.
      destruct (clean_text_returns (str_of v)) as (ws & ->). eauto. }
  assert (forall k, k ∉ [py "title"; py "description"; py "price"; py "price_value";
                          py "price_currency"] ->
                    dict_get d2 k = dict_get product k) as Hframe.
  { intros k Hk. rewrite H2, H1.
    rewrite !decide_False; [reflexivity| |]; intros <-; apply Hk;
      repeat ((left; fail) || right). }
  destruct (dict_get d2 (py "price")) as [price|]; [|eauto].
  destruct (truthy_value price); [|eauto].
  rewrite normalize_price_spec. cbn [bind].
  destruct (spec_normalize_price _ _) as [info|]; [|eauto].
  eexists. split; [reflexivity|]. split.
  - intros k Hk. apply Hkeep in Hk. rewrite !dict_get_set.
    repeat (destruct (decide _); [eauto|]). exact Hk.
  - intros k Hk. rewrite !dict_get_set.
    rewrite !decide_False; [now apply Hframe| | |]; intros <-; apply Hk;
      repeat ((left; fail) || right).
Qed.

(** A price that is read: the three price fields after normalization. *)
Theorem normalize_product_price (product normalized : pydict) (price : pystr)
    (info : price_info) :
  dict_get product (py "price") = Some (VStr price) ->
  normalize_price price = Ok (Some info) ->
  normalize_product product = Ok normalized ->
  dict_get normalized (py "price_value") = Some (VFloat (value info))
  /\ dict_get normalized (py "price_currency") = Some (VStr (currency info))
  /\ dict_get normalized (py "price")
     = Some (VStr (currency info ++ format_2f (value info))).
Proof.
  intros Hp Hn. unfold normalize_product.
  destruct (clean_field_spec "title" product) as (d1 & -> & H1). cbn [bind].
  destruct (clean_field_spec "description" d1) as (d2 & -> & H2). cbn [bind].
  assert (dict_get d2 (py "price") = Some (VStr price)) as ->.
  { rewrite H2, H1, !decide_False by discriminate. exact Hp. }
  assert (truthy_value (VStr price) = true) as ->.
  { destruct price; [|reflexivity]. discriminate Hn. }
  rewrite str_of_str, Hn. cbn [bind]. intros [= <-].
  rewrite !dict_get_set.
  repeat split; repeat (destruct (decide _) as [E|E]; try discriminate E; try reflexivity;
                        try (exfalso; apply E; reflexivity)).
Qed.

(** A price that is not read stays as it is. *)
Theorem normalize_product_price_unread (product normalized : pydict) (price : pystr) :
  dict_get product (py "price") = Some (VStr price) ->
  normalize_price price = Ok None ->
  normalize_product product = Ok normalized ->
  dict_get normalized (py "price") = Some (VStr price)
  /\ dict_get normalized (py "price_value") = dict_get product (py "price_value")
  /\ dict_get normalized (py "price_currency") = dict_get product (py "price_currency").
Proof.
  intros Hp Hn. unfold normalize_product.
  destruct (clean_field_spec "title" product) as (d1 & -> & H1). cbn [bind].
  destruct (clean_field_spec "description" d1) as (d2 & -> & H2). cbn [bind].
  assert (forall k, k <> py "title" -> k <> py "description" ->
                    dict_get d2 k = dict_get product k) as Hd.
  { intros k Ht Hdsc. rewrite H2, H1, !decide_False by congruence. reflexivity. }
  rewrite (Hd (py "price")), Hp by discriminate.
  assert (Ok d2 = Ok normalized ->
          dict_get normalized (py "price") = Some (VStr price)
          /\ dict_get normalized (py "price_value") = dict_get product (py "price_value")
          /\ dict_get normalized (py "price_currency")
             = dict_get product (py "price_currency")) as Hgoal.
  { intros [= <-]. rewrite !Hd by discriminate. auto. }
  destruct (truthy_value (VStr price)); [|exact Hgoal].
  rewrite str_of_str, Hn. cbn [bind]. exact Hgoal.
Qed.
End NormalizeProductProperties.

Lemma normalize_product_frame_witness :
  exists normalized,
    @normalize_product ascii_database sample_builtins raw_lamp = Ok normalized
    /\ dict_get normalized (py "link") = Some (VStr (py "http://shop/lamp")).
Proof.
  destruct (@normalize_product_frame ascii_database sample_builtins raw_lamp)
    as (normalized & Hn & _ & Hframe).
  exists normalized. split; [exact Hn|].
  rewrite (Hframe (py "link")); [reflexivity|].
  apply (bool_decide_unpack _). vm_compute. reflexivity.
Defined.

Lemma normalize_product_price_witness :
  exists normalized,
    @normalize_product ascii_database sample_builtins raw_lamp = Ok normalized
    /\ dict_get normalized (py "price") = Some (VStr (py "EUR15.50")).
Proof.
  eexists. split; [vm_compute; reflexivity|].
  refine (proj2 (proj2 (@normalize_product_price ascii_database sample_builtins raw_lamp _
            (ch_euro :: py "15,50")
            {| value := decimal 1550 2; currency := py "EUR";
               original := ch_euro :: py "15,50" |} _ _ _)));
    vm_compute; reflexivity.
Defined.

Lemma normalize_product_price_unread_witness :
  exists normalized,
    @normalize_product ascii_database sample_builtins [(py "price", VStr (py "TBD"))]
      = Ok normalized
    /\ dict_get normalized (py "price") = Some (VStr (py "TBD")).
Proof.
  exists [(py "price", VStr (py "TBD"))]. split; [vm_compute; reflexivity|].
  refine (proj1 (@normalize_product_price_unread ascii_database sample_builtins
            [(py "price", VStr (py "TBD"))] _ (py "TBD") _ _ _)); vm_compute; reflexivity.
Defined.

(** ** E-mail addresses *)

Lemma split_nonempty (c : N) (t : pystr) : split c t <> [].
Proof.
  destruct t as [|x t]; cbn [split]; [discriminate|].
  destruct (x =? c); [discriminate|]. destruct (split c t); discriminate.
Qed.

Lemma split_one (c : N) (t p : pystr) : split c t = [p] -> t = p.
Proof.
  revert p. induction t as [|x t IH]; intros p; cbn [split]; [now intros [= <-]|].
  destruct (x =? c); [intros [= _ E]; now apply split_nonempty in E|].
  destruct (split c t) as [|q qs] eqn:Hs; [now apply split_nonempty in Hs|].
  intros [= <- ->]. f_equal. now apply IH.
Qed.

(** Two parts: the text before the separator and the text after it. *)
Lemma split_two (c : N) (t loc dom : pystr) :
  split c t = [loc; dom] -> t = loc ++ [c] ++ dom.
Proof.
  revert loc. induction t as [|x t IH]; intros loc; cbn [split]; [discriminate|].
  destruct (x =? c) eqn:E.
  - apply N.eqb_eq in E. subst x. intros [= <- Hd]. apply split_one in Hd. now subst.
  - destruct (split c t) as [|p ps] eqn:Hs; [discriminate|].
    intros [= <- ->]. cbn. f_equal. now apply IH.
Qed.

(** What the shape of an address comes to: one [@], no whitespace but a
    final newline, a dot after the [@] with a character on either side. *)
Lemma email_shape_one_at (s : pystr) :
  email_shape s = true ->
  exists loc dom,
    (s = loc ++ [64] ++ dom \/ s = loc ++ [64] ++ dom ++ [10])
    /\ loc <> [] /\ forallb email_char (loc ++ dom) = true
    /\ inner_dot true dom = true.
Proof.
  unfold email_shape.
  remember (match rev s with 10 :: r => rev r | _ => s end) as v eqn:Ev.
  assert (s = v \/ s = v ++ [10]) as Hv.
  { subst v. destruct (rev s) as [|c r] eqn:E; [now left|].
    destruct (N.eq_dec c 10) as [->|Hne].
    - right. rewrite <- (rev_involutive s), E. reflexivity.
    - left. destruct c as [|p]; [reflexivity|].
      repeat (destruct p as [p|p|]; try reflexivity). congruence. }
  clear Ev.
  destruct (split 64 v) as [|loc [|dom [|x l]]] eqn:Hs; try discriminate.
  rewrite !andb_true_iff. intros [[[Hloc Hl] Hd] Hdot].
  exists loc, dom. apply split_two in Hs.
  subst v. split; [destruct Hv as [-> | ->]; [now left|right; now rewrite <- !app_assoc]|].
  split; [now destruct loc|]. split; [|exact Hdot].
  rewrite forallb_app. now rewrite Hl, Hd.
Qed.

(** ** Schemas: what a validated record holds *)

Lemma NoDup_map_inj {A B : Type} (f : A -> B) (l : list A) (x y : A) :
  NoDup (List.map f l) -> x ∈ l -> y ∈ l -> f x = f y -> x = y.
Proof.
  induction l as [|a l IH]; intros Hnd Hx Hy E; [inversion Hx|].
  cbn [List.map] in Hnd. apply NoDup_cons in Hnd as [Ha Hnd].
  apply elem_of_cons in Hx as [->|Hx]; apply elem_of_cons in Hy as [->|Hy].
  - reflexivity.
  - exfalso. apply Ha. rewrite E. apply list_elem_of_In, in_map, list_elem_of_In, Hy.
  - exfalso. apply Ha. rewrite <- E. apply list_elem_of_In, in_map, list_elem_of_In, Hx.
  - now apply IH.
Qed.

Section ValidatedRecords.
Context `{Pydantic}.

Lemma validate_fields_keys (fs : list field) (input values : pydict) :
  validate_fields fs input = Ok values -> values.*1 = List.map fname fs.
Proof.
  revert values. induction fs as [|f fs IH]; intros values; cbn [validate_fields].
  - now intros [= <-].
  - destruct (validate_field f input) as [v|e]; [|discriminate]. cbn [bind].
    destruct (validate_fields fs input) as [vs|e]; [|discriminate]. cbn [bind].
    intros [= <-]. cbn. f_equal. now apply IH.
Qed.

Lemma validate_fields_lookup (fs : list field) (input values : pydict) (f : field) :
  validate_fields fs input = Ok values ->
  NoDup (List.map fname fs) -> f ∈ fs ->
  exists v, validate_field f input = Ok v /\ dict_get values (fname f) = Some v.
Proof.
  revert values. induction fs as [|g fs IH]; intros values Hv Hnd Hin; [inversion Hin|].
  cbn [validate_fields] in Hv.
  destruct (validate_field g input) as [v|e] eqn:Hg; [|discriminate]. cbn [bind] in Hv.
  destruct (validate_fields fs input) as [vs|e] eqn:Hvs; [|discriminate]. cbn [bind] in Hv.
  injection Hv as <-. cbn [List.map] in Hnd. apply NoDup_cons in Hnd as [Hg' Hnd].
  cbn [dict_get]. apply elem_of_cons in Hin as [->|Hin].
  - exists v. split; [exact Hg|]. now rewrite decide_True.
  - destruct (IH vs eq_refl Hnd Hin) as (w & Hw & Hl). exists w. split; [exact Hw|].
    rewrite decide_False; [exact Hl|]. intros E. apply Hg'. rewrite E.
    apply list_elem_of_In, in_map, list_elem_of_In, Hin.
Qed.

(** A declared field of a validated record holds what its validation
    gave. *)
Lemma model_dict_declared (sch : schema) (record out : pydict) (f : field) :
  model_dict sch record = Ok out ->
  NoDup (List.map fname (fields sch)) -> f ∈ fields sch ->
  exists v, validate_field f record = Ok v /\ dict_get out (fname f) = Some v.
Proof.
  unfold model_dict. intros Hm Hnd Hin.
  destruct (validate_fields (fields sch) record) as [values|e] eqn:Hv; [|discriminate].
  cbn [bind] in Hm.
  destruct (validate_fields_lookup _ _ _ f Hv Hnd Hin) as (v & Hf & Hl).
  exists v. split; [exact Hf|].
  destruct (extra sch); injection Hm as <-; [exact Hl|].
  rewrite dict_get_app. now rewrite Hl.
Qed.

Lemma dict_get_present {V} (d : list (pystr * V)) (k : pystr) :
  k ∈ d.*1 -> is_Some (dict_get d k).
Proof.
  induction d as [|[k' v'] d IH]; cbn [fmap list_fmap fst dict_get]; [inversion 1|].
  intros Hk. destruct (decide (k' = k)); [eauto|].
  apply elem_of_cons in Hk as [?|Hk]; [congruence|now apply IH].
Qed.

Lemma lookups_keys (input : pydict) (keys : list pystr) :
  (forall k, k ∈ keys -> k ∈ input.*1) ->
  (omap (fun k => (fun v => (k, v)) <$> dict_get input k) keys).*1 = keys.
Proof.
  induction keys as [|k keys IH]; intros Hall; [reflexivity|].
  change (omap (fun k => (fun v => (k, v)) <$> dict_get input k) (k :: keys))
    with (match (fun v => (k, v)) <$> dict_get input k with
          | Some y => y :: omap (fun k => (fun v => (k, v)) <$> dict_get input k) keys
          | None => omap (fun k => (fun v => (k, v)) <$> dict_get input k) keys
          end).
  destruct (dict_get_present input k) as [v ->]; [apply Hall; left|].
  cbn [fmap option_fmap option_map list_fmap fst]. f_equal.
  apply IH. intros k' Hk'. apply Hall. now right.
Qed.

(** The keys of a validated record: the declared fields, in their order,
    whether the record had them or not; for a schema that allows them,
    then the other keys of the record, in an order that is not that of
    the record but the one a set of them is walked in. *)
Theorem model_dict_keys (sch : schema) (record out : pydict) :
  model_dict sch record = Ok out ->
  exists extras,
    out.*1 = List.map fname (fields sch) ++ extras
    /\ match extra sch with
       | ExtraAllow =>
           extras ≡ₚ List.filter (fun k => negb (is_declared sch k)) (record.*1)
       | ExtraIgnore => extras = []
       end.
Proof.
  unfold model_dict.
  destruct (validate_fields (fields sch) record) as [values|e] eqn:Hv; [|discriminate].
  cbn [bind]. apply validate_fields_keys in Hv.
  destruct (extra sch); intros [= <-].
  - exists []. now rewrite app_nil_r.
  - exists (extra_order (List.filter (fun k => negb (is_declared sch k)) (record.*1))).
    split; [|apply extra_order_perm].
    rewrite fmap_app, Hv. f_equal. unfold extra_items. apply lookups_keys.
    intros k Hk. now apply extra_keys_elem in Hk as [Hk _].
Qed.

Lemma run_validators_one (name : pystr) (f : pyvalue -> outcome pyvalue) (v w : pyvalue) :
  run_validators name [f] v = Ok w -> f v = Ok w.
Proof.
  cbn [run_validators]. destruct (f v) as [v'|[]]; try discriminate. now intros [= <-].
Qed.

(** The field of a required [str] with one validator. *)
Lemma validate_required_str (name : string) (f : pyvalue -> outcome pyvalue)
    (record : pydict) (w : pyvalue) :
  validate_field (required name TStr [f]) record = Ok w ->
  exists s, f (VStr s) = Ok w.
Proof.
  unfold validate_field, required. cbn [fname default_value allow_none ftype validators].
  destruct (dict_get record (py name)) as [v|]; [|discriminate].
  assert (bind (validate_type (py name) TStr v)
            (fun v' => run_validators (py name) [f] v') = Ok w ->
          exists s, f (VStr s) = Ok w) as Hcase.
  { unfold validate_type. destruct (str_validator v) as [s|]; [|discriminate].
    cbn [bind]. intros Hr. exists s. exact (run_validators_one _ _ _ _ Hr). }
  destruct v; try exact Hcase. discriminate.
Qed.

(** A validated product has a title that is not empty, has at most 500
    characters and no whitespace at either end; its price, when a
    non-empty text, holds a digit. *)
Theorem validated_product_title (self : Validator) (products : list pydict)
    (out : pydict) :
  out ∈ (validate_products self products).2 ->
  (exists title,
     dict_get out (py "title") = Some (VStr title)
     /\ title <> [] /\ (length title <= 500)%nat /\ trimmed title)
  /\ (forall price,
        dict_get out (py "price") = Some (VStr price) ->
        price = [] \/ existsb is_digit price = true).
Proof.
  unfold validate_products. rewrite validate_each_output.
  intros Hin. apply list_elem_of_omap in Hin as (record & _ & Hacc).
  unfold accepted in Hacc.
  destruct (model_dict ProductSchema record) as [d|e] eqn:Hm; [|discriminate].
  injection Hacc as ->.
  assert (NoDup (List.map fname (fields ProductSchema))) as Hnd
    by (apply (bool_decide_unpack _); vm_compute; reflexivity).
  split.
  - destruct (model_dict_declared _ _ _ (required "title" TStr [title_must_exist]) Hm Hnd)
      as (w & Hf & Hl); [left|].
    apply validate_required_str in Hf as (s & Hs). unfold title_must_exist in Hs.
    destruct (negb (truthy_str s) || (length (strip s) =? 0)%nat) eqn:E1; [discriminate|].
    destruct (500 <? length s)%nat eqn:E2; [discriminate|].
    injection Hs as <-. exists (strip s). split; [exact Hl|].
    apply orb_false_iff in E1 as [_ E1]. apply Nat.eqb_neq in E1. apply Nat.ltb_ge in E2.
    split; [intros E; rewrite E in E1; now apply E1|].
    split; [pose proof (strip_length s); lia|apply strip_trimmed].
  - intros price Hp.
    destruct (model_dict_declared _ _ _ (optional "price" TStr [validate_price]) Hm Hnd)
      as (w & Hf & Hl); [right; left|].
    cbn [fname optional] in Hl. rewrite Hp in Hl. injection Hl as <-.
    unfold validate_field, optional in Hf.
    cbn [fname default_value allow_none ftype validators] in Hf.
    destruct (dict_get record (py "price")) as [v|]; [|discriminate].
    assert (bind (validate_type (py "price") TStr v)
              (fun v' => run_validators (py "price") [validate_price] v')
            = Ok (VStr price) -> price = [] \/ existsb is_digit price = true) as Hcase.
    { unfold validate_type. destruct (str_validator v) as [s|]; [|discriminate].
      cbn [bind]. intros Hr. apply run_validators_one in Hr. unfold validate_price in Hr.
      destruct (truthy_str s && negb (existsb is_digit s)) eqn:E; [discriminate|].
      injection Hr as <-. destruct s as [|c s]; [now left|]. right.
      cbn [truthy_str andb] in E. now apply negb_false_iff in E. }
    destruct v; try exact (Hcase Hf). discriminate.
Qed.

(** A validated image or asset has a [url] that starts with [http]. *)
Theorem validated_url (self : Validator) (records : list pydict) (out : pydict) :
  out ∈ (validate_images self records).2 \/ out ∈ (validate_assets self records).2 ->
  exists url, dict_get out (py "url") = Some (VStr url) /\ startswith (py "http") url = true.
Proof.
  assert (forall sch type, sch = ImageSchema \/ sch = AssetSchema ->
            out ∈ (validate_each sch type self records).2 ->
            exists url, dict_get out (py "url") = Some (VStr url)
                        /\ startswith (py "http") url = true) as Hboth.
  { intros sch type Hsch. rewrite validate_each_output.
    intros Hin. apply list_elem_of_omap in Hin as (record & _ & Hacc).
    unfold accepted in Hacc.
    destruct (model_dict sch record) as [d|e] eqn:Hm; [|discriminate].
    injection Hacc as ->.
    destruct (model_dict_declared _ _ _ (required "url" TStr [url_must_be_valid]) Hm)
      as (w & Hf & Hl).
    - destruct Hsch as [-> | ->]; apply (bool_decide_unpack _); vm_compute; reflexivity.
    - destruct Hsch as [-> | ->]; [left|right; left].
    - apply validate_required_str in Hf as (s & Hs). unfold url_must_be_valid in Hs.
      destruct (negb (truthy_str s) || negb (startswith (py "http") s)) eqn:E; [discriminate|].
      injection Hs as <-. exists s. split; [exact Hl|].
      apply orb_false_iff in E as [_ E]. now apply negb_false_iff in E. }
  intros [Hin|Hin].
  - apply (Hboth ImageSchema "image"%string); [now left|exact Hin].
  - apply (Hboth AssetSchema "asset"%string); [now right|exact Hin].
Qed.

Lemma str_items_strs (name : pystr) (l l' : list pyvalue) :
  str_items name l = Ok l' ->
  length l' = length l /\ Forall (fun v => exists s, v = VStr s) l'.
Proof.
  revert l'. induction l as [|x l IH]; intros l'; cbn [str_items].
  - intros [= <-]. split; [reflexivity|constructor].
  - destruct (str_validator x) as [s|]; [|discriminate].
    destruct (str_items name l) as [t|e]; [|discriminate]. cbn [bind].
    intros [= <-]. destruct (IH t eq_refl) as [Hl Hf]. split; [cbn; now rewrite Hl|].
    constructor; [eauto|exact Hf].
Qed.

(** The field of a list of [str] with a default and one validator. *)
Lemma validate_defaulted_list (name : string) (f : pyvalue -> outcome pyvalue)
    (record : pydict) (w : pyvalue) :
  validate_field (defaulted name TListStr (VList []) [f]) record = Ok w ->
  w = VList []
  \/ exists l, Forall (fun v => exists s, v = VStr s) l /\ f (VList l) = Ok w.
Proof.
  unfold validate_field, defaulted. cbn [fname default_value allow_none ftype validators].
  destruct (dict_get record (py name)) as [v|]; [|intros [= <-]; now left].
  destruct v; try discriminate. unfold validate_type.
  destruct (str_items (py name) l) as [l'|e] eqn:Hs; [|discriminate]. cbn [bind].
  intros Hr. right. exists l'. split; [now apply str_items_strs in Hs|].
  exact (run_validators_one _ _ _ _ Hr).
Qed.

Lemma str_items_app (name : pystr) (l more strs : list pyvalue) :
  str_items name l = Ok strs ->
  Forall (fun v => is_Some (str_validator v)) more ->
  exists strs', str_items name (l ++ more) = Ok (strs ++ strs').
Proof.
  revert strs. induction l as [|x l IH]; intros strs; cbn [str_items app].
  - intros [= <-] Hmore. induction Hmore as [|y more [s Hs] _ [strs' IHm]].
    + now exists [].
    + cbn [str_items app] in *. rewrite Hs, IHm. cbn [bind]. eauto.
  - destruct (str_validator x) as [s|]; [|discriminate].
    destruct (str_items name l) as [t|e]; [|discriminate]. cbn [bind].
    intros [= <-] Hmore. destruct (IH t eq_refl Hmore) as [strs' ->]. cbn [bind].
    now exists strs'.
Qed.

(** A capped field of a record that holds a list for it. *)
Lemma validate_capped_list (name : string) (record : pydict) (items : list pyvalue) :
  dict_get record (py name) = Some (VList items) ->
  validate_field (defaulted name TListStr (VList []) [limit_items]) record
  = let* strs := str_items (py name) items in Ok (VList (firstn 100 strs)).
Proof.
  intros Hg. unfold validate_field, defaulted.
  cbn [fname default_value allow_none ftype validators]. rewrite Hg. unfold validate_type.
  destruct (str_items (py name) items); reflexivity.
Qed.

(** More items in a capped list do not get a record rejected. *)
Lemma validate_fields_longer_list (fs : list field) (name : string) (record : pydict)
    (items more : list pyvalue) :
  (forall f, f ∈ fs -> fname f = py name ->
             f = defaulted name TListStr (VList []) [limit_items]) ->
  Forall (fun v => is_Some (str_validator v)) more ->
  (exists values, validate_fields fs (dict_set record (py name) (VList items)) = Ok values) ->
  exists values,
    validate_fields fs (dict_set record (py name) (VList (items ++ more))) = Ok values.
Proof.
  intros Hfs Hmore. induction fs as [|f fs IH]; [now exists []|].
  cbn [validate_fields]. intros [values Hv].
  destruct (validate_field f (dict_set record (py name) (VList items))) as [v|e] eqn:Hf;
    [|discriminate].
  cbn [bind] in Hv.
  destruct (validate_fields fs (dict_set record (py name) (VList items))) as [vs|e] eqn:Hr;
    [|discriminate].
  destruct IH as [vs' ->]; [intros g Hg; apply Hfs; now right|eauto|].
  assert (exists v', validate_field f (dict_set record (py name) (VList (items ++ more)))
                     = Ok v') as [v' ->]; [|cbn [bind]; eauto].
  destruct (decide (fname f = py name)) as [Heq|Hne].
  - assert (f = defaulted name TListStr (VList []) [limit_items]) as Hfeq
      by (apply Hfs; [left|exact Heq]).
    clear Heq. rewrite Hfeq in Hf |- *.
    rewrite (validate_capped_list name _ items) in Hf
      by (rewrite dict_get_set; now rewrite decide_True).
    rewrite (validate_capped_list name _ (items ++ more))
      by (rewrite dict_get_set; now rewrite decide_True).
    destruct (str_items (py name) items) as [strs|e] eqn:Hs; [|discriminate].
    destruct (str_items_app _ _ _ _ Hs Hmore) as [strs' ->]. cbn [bind]. eauto.
  - exists v. rewrite <- Hf. unfold validate_field.
    rewrite !dict_get_set, !decide_False by congruence. reflexivity.
Qed.

(** The headings and the paragraphs of a text record are capped, not
    checked for length.  A validated record has at most 100 of each; a
    list the record holds is validated to its first 100 items; and a
    record that validates still does when a list of it has more items,
    however many. *)
Theorem validated_text_capped (self : Validator) (record : pydict) :
  (forall out,
     (validate_text self record).2 = Some out ->
     exists headings paragraphs,
       dict_get out (py "headings") = Some (VList headings)
       /\ dict_get out (py "paragraphs") = Some (VList paragraphs)
       /\ (length headings <= 100)%nat /\ (length paragraphs <= 100)%nat)
  /\ (forall name items out,
        name ∈ ["headings"; "paragraphs"]%string ->
        dict_get record (py name) = Some (VList items) ->
        (validate_text self record).2 = Some out ->
        exists strs,
          str_items (py name) items = Ok strs
          /\ dict_get out (py name) = Some (VList (firstn 100 strs)))
  /\ (forall name items more,
        name ∈ ["headings"; "paragraphs"]%string ->
        Forall (fun v => is_Some (str_validator v)) more ->
        is_Some (validate_text self (dict_set record (py name) (VList items))).2 ->
        is_Some (validate_text self
                   (dict_set record (py name) (VList (items ++ more)))).2).
Proof.
  assert (NoDup (List.map fname (fields TextSchema))) as Hnd
    by (apply (bool_decide_unpack _); vm_compute; reflexivity).
  assert (forall name, name ∈ ["headings"; "paragraphs"]%string ->
            defaulted name TListStr (VList []) [limit_items] ∈ fields TextSchema) as Hdecl.
  { intros name Hn. apply elem_of_cons in Hn as [->|Hn];
      [|apply list_elem_of_singleton in Hn as ->].
    - do 2 right. left.
    - do 3 right. left. }
  split; [|split].
  - intros out. unfold validate_text, validate_one.
    destruct (model_dict TextSchema record) as [d|e] eqn:Hm; [|discriminate].
    intros [= <-].
    assert (forall name,
              defaulted name TListStr (VList []) [limit_items] ∈ fields TextSchema ->
              exists l, dict_get d (py name) = Some (VList l) /\ (length l <= 100)%nat)
      as Hfield.
    { intros name Hin.
      destruct (model_dict_declared _ _ _ _ Hm Hnd Hin) as (w & Hf & Hl).
      apply validate_defaulted_list in Hf as [->|(l & _ & Hlim)].
      - exists []. split; [exact Hl|cbn; lia].
      - injection Hlim as <-. exists (firstn 100 l). split; [exact Hl|].
        rewrite length_firstn. lia. }
    destruct (Hfield "headings"%string) as (hs & Hh & Hhl); [do 2 right; left|].
    destruct (Hfield "paragraphs"%string) as (ps & Hp & Hpl); [do 3 right; left|].
    now exists hs, ps.
  - intros name items out Hn Hg. unfold validate_text, validate_one.
    destruct (model_dict TextSchema record) as [d|e] eqn:Hm; [|discriminate].
    intros [= <-].
    destruct (model_dict_declared _ _ _ _ Hm Hnd (Hdecl name Hn)) as (w & Hf & Hl).
    rewrite (validate_capped_list name record items Hg) in Hf.
    destruct (str_items (py name) items) as [strs|e]; [|discriminate].
    injection Hf as <-. now exists strs.
  - intros name items more Hn Hmore. unfold validate_text, validate_one, model_dict.
    change (extra TextSchema) with ExtraIgnore. cbv iota.
    intros Hok.
    destruct (validate_fields_longer_list (fields TextSchema) name record items more)
      as [values ->].
    + intros f Hf Hname.
      apply (NoDup_map_inj fname (fields TextSchema));
        [exact Hnd|exact Hf|now apply Hdecl|exact Hname].
    + exact Hmore.
    + destruct (validate_fields (fields TextSchema)
                  (dict_set record (py name) (VList items))) as [values|e];
        [eauto|]. cbn in Hok. destruct Hok as [? Hok]. discriminate Hok.
    + cbn. eauto.
Qed.

Lemma each_item_emails (l l' : list pyvalue) :
  each_item_list validate_email l = Ok l' ->
  Forall (fun e => exists s, e = VStr s /\ email_shape s = true) l'.
Proof.
  revert l'. induction l as [|x l IH]; intros l'; cbn [each_item_list].
  - intros [= <-]. constructor.
  - destruct (validate_email x) as [x'|e] eqn:Hx; [|discriminate]. cbn [bind].
    destruct (each_item_list validate_email l) as [t|e]; [|discriminate]. cbn [bind].
    intros [= <-]. constructor; [|now apply IH].
    unfold validate_email in Hx. destruct x; try discriminate.
    destruct (email_shape s) eqn:E; [|discriminate]. injection Hx as <-. eauto.
Qed.

(** Every e-mail address of a validated contact record has one [@] with
    text before it, a dot after it with a character on either side, and
    no whitespace but for a final newline; one address that has not makes
    the whole record invalid. *)
Theorem validated_contact_emails (self : Validator) (record out : pydict) :
  (validate_contacts self record).2 = Some out ->
  exists emails,
    dict_get out (py "emails") = Some (VList emails)
    /\ Forall (fun e =>
                 exists s loc dom,
                   e = VStr s
                   /\ (s = loc ++ [64] ++ dom \/ s = loc ++ [64] ++ dom ++ [10])
                   /\ loc <> [] /\ forallb email_char (loc ++ dom) = true
                   /\ inner_dot true dom = true) emails.
Proof.
  unfold validate_contacts, validate_one.
  destruct (model_dict ContactSchema record) as [d|e] eqn:Hm; [|discriminate].
  intros [= <-].
  assert (NoDup (List.map fname (fields ContactSchema))) as Hnd
    by (apply (bool_decide_unpack _); vm_compute; reflexivity).
  destruct (model_dict_declared _ _ _
              (defaulted "emails" TListStr (VList []) [each_item validate_email])
              Hm Hnd) as (w & Hf & Hl); [left|].
  apply validate_defaulted_list in Hf as [->|(l & _ & He)].
  - exists []. split; [exact Hl|constructor].
  - unfold each_item in He.
    destruct (each_item_list validate_email l) as [l'|e] eqn:Hl'; [|discriminate].
    injection He as <-. exists l'. split; [exact Hl|].
    eapply Forall_impl; [exact (each_item_emails _ _ Hl')|].
    intros e (s & -> & Hs). apply email_shape_one_at in Hs as (loc & dom & Hs).
    now exists s, loc, dom.
Qed.
End ValidatedRecords.

(** ** The validator: accounts and edge cases *)

Section ValidatorAccounts.
Context `{Pydantic}.

Lemma validate_each_log (sch : schema) (type : string) (records : list pydict) :
  forall (n : nat) (self : Validator) (validated : list pydict),
    let st := fold_left
      (fun '(self, validated) '(idx, record) =>
         match model_dict sch record with
         | Ok d => (self, validated ++ [d])
         | Raise e =>
             (errors_append self {| err_type := py type; err_index := Some idx;
                                    err_error := exn_str e; err_data := record |},
              validated)
         end)
      (combine (seq n (length records)) records) (self, validated) in
    exists es,
      errors st.1 = errors self ++ es
      /\ (length st.2 + length es = length validated + length records)%nat
      /\ Forall (fun e =>
                   err_type e = py type
                   /\ accepted sch (err_data e) = None
                   /\ exists idx, err_index e = Some (n + idx)%nat
                                  /\ records !! idx = Some (err_data e)) es.
Proof.
  induction records as [|r rs IH]; intros n self validated.
  - exists []. cbn. rewrite app_nil_r. split; [reflexivity|]. split; [lia|constructor].
  - cbn [length seq combine fold_left].
    destruct (model_dict sch r) as [d|e] eqn:Hm.
    + destruct (IH (S n) self (validated ++ [d])) as (es & He & Hl & Hf).
      exists es. split; [exact He|]. split; [rewrite length_app in Hl; cbn in Hl; lia|].
      eapply Forall_impl; [exact Hf|]. intros e' (Ht & Ha & idx & Hi & Hr).
      split; [exact Ht|]. split; [exact Ha|]. exists (S idx).
      split; [rewrite Hi; f_equal; lia|exact Hr].
    + destruct (IH (S n) (errors_append self
          {| err_type := py type; err_index := Some n;
             err_error := exn_str e; err_data := r |}) validated) as (es & He & Hl & Hf).
      eexists (_ :: es). split; [rewrite He; cbn [errors_append errors];
                                 now rewrite <- app_assoc|].
      split; [cbn [length]; lia|]. constructor.
      * cbn [err_type err_data err_index]. split; [reflexivity|].
        split; [unfold accepted; now rewrite Hm|]. exists 0%nat.
        split; [f_equal; lia|reflexivity].
      * eapply Forall_impl; [exact Hf|]. intros e' (Ht & Ha & idx & Hi & Hr).
        split; [exact Ht|]. split; [exact Ha|]. exists (S idx).
        split; [rewrite Hi; f_equal; lia|exact Hr].
Qed.

(** Every record of a category is either in the validated list or in the
    error log, never both and never neither: the log grows by one entry
    for each record that fails, with that record and its position. *)
Theorem validate_each_accounts (sch : schema) (type : string) (self : Validator)
    (records : list pydict) :
  exists es,
    errors (validate_each sch type self records).1 = errors self ++ es
    /\ (length (validate_each sch type self records).2 + length es
        = length records)%nat
    /\ Forall (fun e =>
                 err_type e = py type
                 /\ accepted sch (err_data e) = None
                 /\ exists idx, err_index e = Some idx
                                /\ records !! idx = Some (err_data e)) es.
Proof. apply (validate_each_log sch type records 0 self []). Qed.

Lemma ratio_of_no_errors (total_records : nat) (threshold : Q) :
  (0 <= threshold)%Q -> ratio_exceeds 0 total_records threshold = false.
Proof.
  intros Hth. unfold ratio_exceeds. apply negb_false_iff, Qle_bool_iff.
  unfold Qle in *. cbn in *. lia.
Qed.

(** A validator whose log is empty, a new one or one whose log was
    cleared, returns the validated result and does not raise, whatever
    the records; its threshold must not be negative. *)
Theorem empty_log_returns (self : Validator) (result : scrape_result) :
  (0 <= error_threshold self)%Q ->
  (errors self = [] ->
   (validate_result self result).2 = Ok (validated_ (validate_categories self result)))
  /\ (validate_result (clear_errors self) result).2
     = Ok (validated_ (validate_categories (clear_errors self) result)).
Proof.
  intros Hth.
  assert (forall v : Validator, (0 <= error_threshold v)%Q -> errors v = [] ->
            (validate_result v result).2 = Ok (validated_ (validate_categories v result)))
    as Hgen.
  { intros v Hv He. unfold validate_result. rewrite He. cbn [length].
    destruct (validate_categories_extends v result) as [-> _].
    rewrite ratio_of_no_errors by exact Hv. now rewrite andb_false_r. }
  split; [now apply Hgen|]. now apply Hgen.
Qed.

(** With nothing to validate there is nothing to exceed: a result whose
    categories are all missing or empty comes back with its [crawl] list
    alone, from any validator, and the log is left alone. *)
Theorem nothing_to_validate (self : Validator) (result : scrape_result) :
  products result ∈ [None; Some []] -> images result ∈ [None; Some []] ->
  assets result ∈ [None; Some []] ->
  contacts result ∈ [None; Some []] -> text result ∈ [None; Some []] ->
  validate_result self result
  = (self, Ok {| products := None; images := None; contacts := None; text := None;
                 assets := None; crawl := crawl result |}).
Proof.
  intros Hp Hi Ha Hc Ht. destruct result as [p i c t a cr]. cbn in *.
  repeat match goal with
         | Hx : _ ∈ [None; Some []] |- _ =>
             apply elem_of_cons in Hx as [->|Hx];
             [|apply list_elem_of_singleton in Hx as ->]
         end; destruct cr; reflexivity.
Qed.

Lemma accepted_not_empty (sch : schema) (record d : pydict) :
  fields sch <> [] -> accepted sch record = Some d -> d <> [].
Proof.
  unfold accepted. destruct (model_dict sch record) as [d'|e] eqn:Hm; [|discriminate].
  intros Hf [= <-] ->. unfold model_dict in Hm.
  destruct (validate_fields (fields sch) record) as [values|e'] eqn:Hv; [|discriminate].
  cbn [bind] in Hm. apply validate_fields_keys in Hv.
  destruct (fields sch); [contradiction|].
  destruct values; [discriminate Hv|]. destruct (extra sch); discriminate Hm.
Qed.

Lemma list_block_validated sch type store field_ st :
  validated_ (list_block (validate_each sch type) store field_ st)
  = match accepted_list sch field_ with
    | Some v => store v (validated_ st)
    | None => validated_ st
    end.
Proof.
  unfold list_block, accepted_list. destruct field_ as [[|r rs]|]; try reflexivity.
  pose proof (validate_each_output sch type (self_ st) (r :: rs)) as Ho.
  destruct (validate_each sch type (self_ st) (r :: rs)) as [self v].
  cbn [snd] in Ho. now subst v.
Qed.

Lemma single_block_validated sch type store field_ st :
  fields sch <> [] ->
  validated_ (single_block (validate_one sch type) store field_ st)
  = match accepted_one sch field_ with
    | Some v => store v (validated_ st)
    | None => validated_ st
    end.
Proof.
  intros Hf. unfold single_block, accepted_one, validate_one.
  destruct field_ as [[|kv r]|]; try reflexivity.
  pose proof (accepted_not_empty sch (kv :: r)) as Hne. unfold accepted in *.
  destruct (model_dict sch (kv :: r)) as [d|e]; [|reflexivity].
  destruct d as [|x d]; [now destruct (Hne [] Hf eq_refl)|reflexivity].
Qed.

(** What a run validates to: for each category with records, the
    validated records of those that pass, in their order, an empty list
    when none passes; no key for a category that is missing or empty, nor
    for a contact or text record that fails; [crawl] as it came. *)
Theorem validated_result_content (self : Validator) (result : scrape_result) :
  validated_ (validate_categories self result)
  = {| products := accepted_list ProductSchema (products result);
       images := accepted_list ImageSchema (images result);
       contacts := accepted_one ContactSchema (contacts result);
       text := accepted_one TextSchema (text result);
       assets := accepted_list AssetSchema (assets result);
       crawl := crawl result |}.
Proof.
  unfold validate_categories, validate_products, validate_images, validate_assets,
    validate_contacts, validate_text.
  set (st0 := {| self_ := self; validated_ := empty_result; total_records_ := 0 |}).
  assert (validated_
            (list_block (validate_each AssetSchema "asset") set_assets (assets result)
               (single_block (validate_one TextSchema "text") set_text (text result)
                  (single_block (validate_one ContactSchema "contact") set_contacts
                     (contacts result)
                     (list_block (validate_each ImageSchema "image") set_images
                        (images result)
                        (list_block (validate_each ProductSchema "product")
                           set_products (products result) st0)))))
          = {| products := accepted_list ProductSchema (products result);
               images := accepted_list ImageSchema (images result);
               contacts := accepted_one ContactSchema (contacts result);
               text := accepted_one TextSchema (text result);
               assets := accepted_list AssetSchema (assets result);
               crawl := None |}) as Hv.
  { rewrite list_block_validated, single_block_validated, single_block_validated,
      list_block_validated, list_block_validated by discriminate.
    cbn [validated_ st0].
    destruct (accepted_list ProductSchema _), (accepted_list ImageSchema _),
      (accepted_one ContactSchema _), (accepted_one TextSchema _),
      (accepted_list AssetSchema _); reflexivity. }
  destruct (crawl result); cbn [validated_]; rewrite Hv; reflexivity.
Qed.

(** The callers' fall-back never runs: the validator they build has an
    empty log, so what they write out is always the validated result. *)
Theorem validate_or_keep_validated (result : scrape_result) :
  validate_or_keep result
  = Ok (validated_ (validate_categories (new_validator default_threshold) result)).
Proof.
  unfold validate_or_keep.
  assert ((validate_result (new_validator default_threshold) result).2
          = Ok (validated_ (validate_categories (new_validator default_threshold) result)))
    as ->; [|reflexivity].
  unfold validate_result. cbn [new_validator errors length].
  destruct (validate_categories_extends (new_validator default_threshold) result)
    as [-> _].
  cbn [new_validator error_threshold]. rewrite ratio_of_no_errors by discriminate.
  now rewrite andb_false_r.
Qed.
End ValidatorAccounts.

(** ** The deduplicator: composition and edge cases *)

Section DeduplicatorMore.
Context `{Hashlib} `{FloatRepr}.

Lemma deduplicate_all_distinct (records : list pydict) (K : list pystr) :
  NoDup (ids K records) -> deduplicate records K = records.
Proof.
  induction records as [|r l IH] using rev_ind; [reflexivity|].
  unfold ids. rewrite map_app. intros Hnd. apply NoDup_app in Hnd as (Hl & Hdis & _).
  rewrite deduplicate_snoc, (IH Hl). rewrite decide_False; [reflexivity|].
  intros Hin. apply (Hdis _ Hin). left.
Qed.

(** [deduplicate] returns its input unchanged exactly when no two
    records share an identity. *)
Theorem deduplicate_distinct (records : list pydict) (K : list pystr) :
  NoDup (ids K records) <-> deduplicate records K = records.
Proof.
  split; [apply deduplicate_all_distinct|].
  intros E. rewrite <- E. apply deduplicate_NoDup.
Qed.

(** Deduplicating twice changes nothing more. *)
Theorem deduplicate_idempotent (records : list pydict) (K : list pystr) :
  deduplicate (deduplicate records K) K = deduplicate records K.
Proof. apply deduplicate_all_distinct, deduplicate_NoDup. Qed.

(** As many records are kept as there are identities. *)
Theorem deduplicate_length (records : list pydict) (K : list pystr) :
  length (deduplicate records K) = size (list_to_set (ids K records) : gset pystr).
Proof.
  induction records as [|r l IH] using rev_ind; [reflexivity|].
  rewrite deduplicate_snoc, length_app, IH. unfold ids. rewrite map_app, list_to_set_app_L.
  cbn [List.map list_to_set]. destruct (decide _) as [Hin|Hin]; cbn [length].
  - rewrite Nat.add_0_r. f_equal. apply set_eq. intros i.
    rewrite !elem_of_union, elem_of_singleton, elem_of_empty, elem_of_list_to_set.
    split; [tauto|]. intros [?|[->|[]]]; assumption.
  - rewrite size_union.
    + rewrite union_empty_r_L, size_singleton. reflexivity.
    + intros i Hi Hi'. rewrite union_empty_r_L in Hi'.
      apply elem_of_singleton in Hi' as ->. apply Hin. now apply elem_of_list_to_set in Hi.
Qed.

Lemma key_data_present (record : pydict) (K : list pystr) :
  key_data record K
  = key_data record (List.filter (fun k => bool_decide (is_Some (dict_get record k))) K).
Proof.
  unfold key_data. generalize (@nil (pystr * pyvalue)).
  induction K as [|k K IH]; intros acc; [reflexivity|].
  cbn [fold_left List.filter].
  destruct (dict_get record k) as [v|] eqn:Hk.
  - rewrite bool_decide_eq_true_2 by eauto. cbn [fold_left]. rewrite Hk. apply IH.
  - rewrite bool_decide_eq_false_2 by (intros [? ?]; discriminate). apply IH.
Qed.

(** Key fields the record does not have count for nothing: the identity
    is that over the key fields it has.  On records that have none of the
    key fields all identities are one. *)
Theorem generate_id_present_fields (record : pydict) (K : list pystr) :
  generate_id record K
  = generate_id record
      (List.filter (fun k => bool_decide (is_Some (dict_get record k))) K)
  /\ ((forall k, k ∈ K -> dict_get record k = None) ->
      generate_id record K = generate_id [] K).
Proof.
  split.
  - unfold generate_id. now rewrite <- key_data_present.
  - intros Hnone. apply generate_id_ext. intros k Hk. now rewrite Hnone.
Qed.

(** The fingerprint is the identity over all the fields of the record. *)
Theorem fingerprint_is_full_identity (record : pydict) :
  is_dict record -> generate_id record (record.*1) = generate_fingerprint record.
Proof.
  intros Hd. unfold generate_id, generate_fingerprint. cbn [json_dumps].
  rewrite (sorted_items_permutation
             (List.map (fun kv => (kv.1, json_dumps kv.2)) record)
             (List.map (fun kv => (kv.1, json_dumps kv.2)) (key_data record (record.*1))));
    [reflexivity| |].
  - unfold is_dict in *.
    replace ((List.map (fun kv => (kv.1, json_dumps kv.2)) record).*1) with (record.*1);
      [exact Hd|].
    clear. induction record as [|[k v] r IH]; [reflexivity|]. cbn. now f_equal.
  - apply Permutation_map, dict_ext_permutation; [exact Hd|apply key_data_is_dict|].
    intros k. rewrite key_data_get.
    destruct (decide (k ∈ record.*1)) as [Hin|Hnin]; [reflexivity|].
    destruct (dict_get record k) as [v|] eqn:Hk; [|reflexivity].
    exfalso. apply Hnin. apply (dict_get_elem record k v Hd) in Hk.
    apply list_elem_of_fmap. now exists (k, v).
Qed.
End DeduplicatorMore.

Section DeduplicatorRuns.
#[local] Existing Instance hashlib_md5.
#[local] Existing Instance no_floats.

Lemma deduplicate_distinct_witness :
  deduplicate [lamp; desk; chair] [py "title"] = [lamp; desk; chair]
  /\ ~ NoDup (ids [py "title"] [lamp; desk; lamp_again]).
Proof.
  split.
  - apply (proj1 (deduplicate_distinct [lamp; desk; chair] [py "title"])).
    apply (bool_decide_unpack _). vm_compute. reflexivity.
  - intros Hnd.
    apply (proj1 (deduplicate_distinct [lamp; desk; lamp_again] [py "title"])) in Hnd.
    vm_compute in Hnd. discriminate Hnd.
Defined.

Lemma generate_id_present_fields_witness :
  generate_id [(py "link", VStr (py "http://shop/a"))] [py "title"; py "url"]
  = generate_id [] [py "title"; py "url"].
Proof.
  apply (proj2 (generate_id_present_fields [(py "link", VStr (py "http://shop/a"))]
                  [py "title"; py "url"])).
  intros k Hk.
  repeat (apply elem_of_cons in Hk as [->|Hk]); [reflexivity|reflexivity|inversion Hk].
Defined.

Lemma fingerprint_is_full_identity_witness :
  generate_id lamp [py "title"; py "url"; py "description"] = generate_fingerprint lamp.
Proof.
  apply (fingerprint_is_full_identity lamp).
  apply (bool_decide_unpack _). vm_compute. reflexivity.
Defined.

Lemma generate_id_key_order_witness :
  generate_id lamp [py "url"; py "title"] = generate_id lamp [py "title"; py "url"].
Proof. apply generate_id_key_order. apply perm_swap. Defined.

Lemma generate_fingerprint_permutation_witness :
  generate_fingerprint lamp_reordered = generate_fingerprint lamp.
Proof.
  apply generate_fingerprint_permutation.
  - apply (bool_decide_unpack _). vm_compute. reflexivity.
  - change lamp_reordered with (reverse lamp). symmetry. apply reverse_Permutation.
Defined.
End DeduplicatorRuns.

(** ** Snapshots on disk *)

Lemma startswith_app (p s : pystr) : startswith p (p ++ s) = true.
Proof.
  induction p as [|c p IH]; [reflexivity|]. cbn [app startswith].
  now rewrite N.eqb_refl, IH.
Qed.

Lemma startswith_refl (p : pystr) : startswith p p = true.
Proof. rewrite <- (app_nil_r p) at 2. apply startswith_app. Qed.

Lemma endswith_app (p s : pystr) : endswith p (s ++ p) = true.
Proof.
  unfold endswith. rewrite length_app.
  replace (length s + length p - length p)%nat with (length s) by lia.
  replace (length p <=? length s + length p)%nat with true
    by (symmetry; apply Nat.leb_le; lia).
  cbn [andb]. induction s as [|c s IH]; [|exact IH].
  destruct p as [|c p]; [reflexivity|].
  change (startswith (c :: p) (c :: p) && (length (c :: p) =? length (c :: p))%nat = true).
  now rewrite startswith_refl, Nat.eqb_refl.
Qed.

(** The name [save_snapshot] gives a file is one [load_latest_snapshot]
    looks for. *)
Lemma snapshot_name_matches (job_id : pystr) (timestamp : Z) :
  glob_matches job_id (snapshot_name job_id timestamp) = true.
Proof.
  unfold glob_matches, snapshot_name.
  rewrite (app_assoc job_id (py "_")), startswith_app. cbn [andb].
  replace (length job_id + 1)%nat with (length (job_id ++ py "_"))
    by (rewrite length_app; reflexivity).
  rewrite skipn_app, skipn_all, Nat.sub_diag. cbn [skipn app]. apply endswith_app.
Qed.

Lemma write_file_elem (dir : list snapshot_file) (f g : snapshot_file) :
  g ∈ write_file dir f -> g = f \/ g ∈ dir.
Proof.
  induction dir as [|h dir IH]; cbn [write_file].
  - intros Hin. apply list_elem_of_singleton in Hin. now left.
  - destruct (decide (file_name h = file_name f)) as [E|E]; intros Hin;
      apply elem_of_cons in Hin as [->|Hin].
    + now left.
    + right. now right.
    + right. left.
    + destruct (IH Hin) as [->|Hg]; [now left|]. right. now right.
Qed.

Lemma write_file_written (dir : list snapshot_file) (f : snapshot_file) :
  f ∈ write_file dir f.
Proof.
  induction dir as [|h dir IH]; cbn [write_file]; [left|].
  destruct (decide _); [left|now right].
Qed.

Lemma latest_elem (best : snapshot_file) (files : list snapshot_file) :
  latest best files ∈ best :: files.
Proof.
  revert best. induction files as [|f files IH]; intros best; cbn [latest]; [left|].
  specialize (IH (if (st_mtime best <? st_mtime f)%Z then f else best)).
  apply elem_of_cons in IH as [->|IH]; [|now do 2 right].
  destruct (_ <? _)%Z; [right; left|left].
Qed.

Lemma latest_ge_best (best : snapshot_file) (files : list snapshot_file) :
  (st_mtime best <= st_mtime (latest best files))%Z.
Proof.
  revert best. induction files as [|f files IH]; intros best; cbn [latest]; [lia|].
  destruct (st_mtime best <? st_mtime f)%Z eqn:E; [|apply IH].
  apply Z.ltb_lt in E. specialize (IH f). lia.
Qed.

Lemma latest_max (best : snapshot_file) (files : list snapshot_file) (g : snapshot_file) :
  g ∈ best :: files -> (st_mtime g <= st_mtime (latest best files))%Z.
Proof.
  revert best. induction files as [|f files IH]; intros best Hg; cbn [latest].
  - apply list_elem_of_singleton in Hg as ->. lia.
  - apply elem_of_cons in Hg as [->|Hg].
    + pose proof (latest_ge_best (if (st_mtime best <? st_mtime f)%Z then f else best)
                    files) as Hb.
      destruct (st_mtime best <? st_mtime f)%Z eqn:E; [apply Z.ltb_lt in E; lia|exact Hb].
    + apply elem_of_cons in Hg as [->|Hg]; [|apply IH; now right].
      pose proof (latest_ge_best (if (st_mtime best <? st_mtime f)%Z then f else best)
                    files) as Hb.
      destruct (st_mtime best <? st_mtime f)%Z eqn:E; [exact Hb|apply Z.ltb_ge in E; lia].
Qed.

Lemma load_latest_newest (dir : list snapshot_file) (job_id : pystr)
    (snap : snapshot) :
  load_latest_snapshot dir job_id = Some snap ->
  exists f,
    f ∈ dir /\ glob_matches job_id (file_name f) = true /\ file_content f = snap
    /\ forall g, g ∈ dir -> glob_matches job_id (file_name g) = true ->
                 (st_mtime g <= st_mtime f)%Z.
Proof.
  unfold load_latest_snapshot.
  destruct (List.filter _ dir) as [|b rest] eqn:Hf; [discriminate|].
  intros [= <-]. exists (latest b rest).
  assert (forall g, g ∈ b :: rest <-> g ∈ dir /\ glob_matches job_id (file_name g) = true)
    as Hmem.
  { intros g. rewrite <- Hf, !list_elem_of_In. apply filter_In. }
  pose proof (latest_elem b rest) as Hin. apply Hmem in Hin as [Hd Hm].
  split; [exact Hd|]. split; [exact Hm|]. split; [reflexivity|].
  intros g Hg Hgm. apply latest_max. apply Hmem. auto.
Qed.

(** The snapshot loaded is that of a file whose name matches the job and
    which no matching file is newer than; none is loaded only when no file
    name matches. *)
Theorem load_latest_snapshot_newest (dir : list snapshot_file) (job_id : pystr) :
  match load_latest_snapshot dir job_id with
  | Some snap =>
      exists f,
        f ∈ dir /\ glob_matches job_id (file_name f) = true /\ file_content f = snap
        /\ forall g, g ∈ dir -> glob_matches job_id (file_name g) = true ->
                     (st_mtime g <= st_mtime f)%Z
  | None => forall g, g ∈ dir -> glob_matches job_id (file_name g) = false
  end.
Proof.
  destruct (load_latest_snapshot dir job_id) as [snap|] eqn:Hl;
    [now apply load_latest_newest|].
  unfold load_latest_snapshot in Hl.
  destruct (List.filter _ dir) as [|b rest] eqn:Hf; [|discriminate].
  intros g Hg. destruct (glob_matches job_id (file_name g)) eqn:Hm; [|reflexivity].
  assert (In g (List.filter (fun f => glob_matches job_id (file_name f)) dir)) as Hin
    by (apply filter_In; split; [now apply list_elem_of_In|exact Hm]).
  rewrite Hf in Hin. inversion Hin.
Qed.

Section SnapshotRoundTrip.
Context `{Hashlib} `{FloatRepr}.

(** A snapshot that is saved is the one loaded next, for a job identifier
    of letters, digits, [-], [.] and [_], which the pattern of
    [load_latest_snapshot] takes literally, and provided the file system
    stamps the file later than the files of the job (and of the jobs
    whose names the pattern also matches) that are there. *)
Theorem save_then_load (dir dir' : list snapshot_file) (timestamp mtime : Z)
    (job_id path : pystr) (data : scrape_result)
    (key_fields : option (list (pystr * list pystr))) :
  plain_id job_id = true ->
  save_snapshot dir timestamp mtime job_id data key_fields = Ok (dir', path) ->
  (forall g, g ∈ dir -> glob_matches job_id (file_name g) = true ->
             (st_mtime g < mtime)%Z) ->
  path = snapshot_name job_id timestamp
  /\ exists snap,
       load_latest_snapshot dir' job_id = Some snap
       /\ snap_data snap = Some data
       /\ snap_job_id snap = Some job_id
       /\ snap_timestamp snap = Some timestamp.
Proof.
  intros _. unfold save_snapshot. cbv zeta.
  match goal with
  | |- context [bind ?m _] => destruct m as [record_ids|e]
  end; cbn [bind]; [|discriminate].
  intros [= <- <-] Hold. split; [reflexivity|].
  set (f := {| file_name := snapshot_name job_id timestamp; st_mtime := mtime;
               file_content := _ |}).
  destruct (load_latest_snapshot (write_file dir f) job_id) as [snap|] eqn:Hl.
  - apply load_latest_newest in Hl as (g & Hg & Hgm & <- & Hmax).
    exists (file_content g). split; [reflexivity|].
    assert (g = f) as ->; [|now cbn].
    apply write_file_elem in Hg as [->|Hg]; [reflexivity|].
    specialize (Hold g Hg Hgm).
    specialize (Hmax f (write_file_written dir f) (snapshot_name_matches _ _)).
    cbn [st_mtime f] in Hmax. lia.
  - exfalso. unfold load_latest_snapshot in Hl.
    destruct (List.filter _ (write_file dir f)) as [|b rest] eqn:Hf; [|discriminate].
    assert (In f (List.filter (fun f0 => glob_matches job_id (file_name f0))
                    (write_file dir f))) as Hin.
    { apply filter_In. split; [apply list_elem_of_In, write_file_written|].
      apply snapshot_name_matches. }
    rewrite Hf in Hin. inversion Hin.
Qed.

(** A job whose name continues another's with an underscore is matched
    by the other's pattern: its snapshots are candidates when the other
    job loads its latest. *)
Theorem snapshot_name_matches_prefix_job (job_id more : pystr) (timestamp : Z) :
  glob_matches job_id (snapshot_name (job_id ++ py "_" ++ more) timestamp) = true.
Proof.
  unfold glob_matches, snapshot_name.
  rewrite <- !app_assoc, (app_assoc job_id (py "_")), startswith_app. cbn [andb].
  replace (length job_id + 1)%nat with (length (job_id ++ py "_"))
    by (rewrite length_app; reflexivity).
  rewrite skipn_app, skipn_all, Nat.sub_diag. cbn [skipn app].
  rewrite !app_assoc. apply endswith_app.
Qed.

Lemma snapshot_record_ids_other (data : scrape_result)
    (key_fields : list (pystr * list pystr)) (data_type : pystr) :
  data_type ∉ key_fields.*1 ->
  forall acc record_ids,
    snapshot_record_ids data key_fields acc = Ok record_ids ->
    dict_get record_ids data_type = dict_get acc data_type.
Proof.
  induction key_fields as [|[dt fields] kf IH]; intros Hnot acc record_ids;
    cbn [snapshot_record_ids].
  - now intros [= <-].
  - cbn [fmap list_fmap fst] in Hnot. apply not_elem_of_cons in Hnot as [Hne Hnot].
    destruct (record_ids_of data dt fields) as [found|e]; [|discriminate]. cbn [bind].
    intros Hr. rewrite (IH Hnot _ _ Hr).
    destruct found; [|reflexivity]. rewrite dict_get_set. now rewrite decide_False.
Qed.

(** The identities a snapshot stores for a category are those of its
    records under the key fields given for it. *)
Lemma snapshot_record_ids_stored (data : scrape_result)
    (key_fields : list (pystr * list pystr)) (data_type : pystr)
    (fields : list pystr) (records : list pydict) :
  is_dict key_fields ->
  dict_get key_fields data_type = Some fields ->
  get_category data data_type = Some records ->
  forall acc record_ids,
    snapshot_record_ids data key_fields acc = Ok record_ids ->
    dict_get record_ids data_type = Some (ids fields records).
Proof.
  unfold is_dict. induction key_fields as [|[dt fs] kf IH]; intros Hd Hkf Hcat acc rids;
    [discriminate|].
  cbn [fmap list_fmap fst] in Hd. apply NoDup_cons in Hd as [Hdt Hd].
  cbn [dict_get] in Hkf. cbn [snapshot_record_ids].
  destruct (decide (dt = data_type)) as [->|Hne].
  - injection Hkf as ->. unfold record_ids_of. rewrite Hcat. cbn [bind].
    intros Hr. rewrite (snapshot_record_ids_other _ _ _ Hdt _ _ Hr).
    rewrite dict_get_set. now rewrite decide_True.
  - destruct (record_ids_of data dt fs) as [found|e]; [|discriminate]. cbn [bind].
    now apply IH.
Qed.
End SnapshotRoundTrip.

(** ** The change detector: the three lists *)

Section ChangeLists.
Context `{Hashlib} `{FloatRepr}.

Section OneStep.
Variables (current previous_data : scrape_result)
          (previous_ids key_fields : list (pystr * list pystr)).

Let step := diff_data_type current previous_data previous_ids key_fields.

Lemma change_entries_other (ch : changes) (data_type other : pystr) :
  data_type <> other ->
  change_entries (step ch other) data_type = change_entries ch data_type.
Proof.
  intros Hne. unfold step, diff_data_type, change_entries.
  destruct (get_category current other); [|reflexivity].
  destruct (dict_get key_fields other); [|reflexivity].
  cbn [new updated removed].
  rewrite get_set_category_other by exact Hne.
  rewrite !dict_get_set, !decide_False by congruence. reflexivity.
Qed.

Lemma change_entries_skipped (ch : changes) (data_type : pystr) (names : list pystr) :
  get_category current data_type = None \/ dict_get key_fields data_type = None ->
  change_entries (fold_left step names ch) data_type = change_entries ch data_type.
Proof.
  intros Hskip. revert ch. induction names as [|n names IH]; intros ch; [reflexivity|].
  cbn [fold_left]. rewrite IH. destruct (decide (data_type = n)) as [<-|Hne].
  - unfold step, diff_data_type.
    destruct Hskip as [-> | Hk]; [reflexivity|].
    destruct (get_category current data_type); [|reflexivity]. now rewrite Hk.
  - now apply change_entries_other.
Qed.

Lemma change_entries_fold_other (ch : changes) (data_type : pystr) (names : list pystr) :
  data_type ∉ names ->
  change_entries (fold_left step names ch) data_type = change_entries ch data_type.
Proof.
  revert ch. induction names as [|n names IH]; intros ch Hnot; [reflexivity|].
  apply not_elem_of_cons in Hnot as [Hne Hnot].
  cbn [fold_left]. rewrite IH by exact Hnot. now apply change_entries_other.
Qed.

(** The lists of a data type that is diffed, without the loop. *)
Lemma change_entries_diffed (ch : changes) (data_type : pystr) (names : list pystr)
    (current_records : list pydict) (fields : list pystr) :
  data_type ∈ [py "products"; py "images"; py "assets"] ->
  get_category current data_type = Some current_records ->
  dict_get key_fields data_type = Some fields ->
  NoDup names -> data_type ∈ names ->
  let current_ids := index_by_id fields current_records in
  let previous_records := default [] (get_category previous_data data_type) in
  let cur : gset pystr := list_to_set (ids fields current_records) in
  let prv := previous_id_set previous_ids previous_records data_type fields in
  change_entries (fold_left step names ch) data_type
  = (Some (omap (fun i => current_ids !! i) (elements (cur ∖ prv))),
     Some (List.flat_map (updated_of fields current_ids previous_records)
             (elements (cur ∩ prv))),
     Some (elements (prv ∖ cur))).
Proof.
  intros Hdt Hcur Hkf Hnd Hin. cbv zeta.
  revert ch. induction names as [|n names IH]; intros ch; [inversion Hin|].
  apply NoDup_cons in Hnd as [Hn Hnd]. cbn [fold_left].
  destruct (decide (data_type = n)) as [<-|Hne].
  - rewrite change_entries_fold_other by exact Hn.
    unfold step, diff_data_type, change_entries. rewrite Hcur, Hkf. cbv zeta.
    cbn [new updated removed]. rewrite index_by_id_dom.
    rewrite get_set_category by exact Hdt.
    rewrite !dict_get_set, !decide_True by reflexivity. reflexivity.
  - apply IH; [exact Hnd|].
    apply elem_of_cons in Hin as [?|?]; [contradiction|assumption].
Qed.
End OneStep.

Lemma index_by_id_in (fields : list pystr) (records : list pydict)
    (i : pystr) (r : pydict) :
  index_by_id fields records !! i = Some r -> r ∈ records.
Proof.
  unfold index_by_id.
  assert (forall m : gmap pystr pydict,
            fold_left (fun m r => <[generate_id r fields := r]> m) records m !! i = Some r ->
            r ∈ records \/ m !! i = Some r) as Hgen.
  { induction records as [|x records IH]; intros m; cbn [fold_left]; [now right|].
    intros Hl. apply IH in Hl as [Hl|Hl]; [left; now right|].
    rewrite lookup_insert in Hl. destruct (decide _); [|now right].
    injection Hl as <-. left. left. }
  intros Hl. apply Hgen in Hl as [Hl|Hl]; [exact Hl|]. rewrite lookup_empty in Hl.
  discriminate.
Qed.

Lemma ids_of_lookups (fields : list pystr) (m : gmap pystr pydict) (l : list pystr) :
  (forall i r, m !! i = Some r -> generate_id r fields = i) ->
  (forall i, i ∈ l -> is_Some (m !! i)) ->
  ids fields (omap (fun i => m !! i) l) = l.
Proof.
  intros Hid. induction l as [|i l IH]; intros Hall; [reflexivity|].
  destruct (Hall i) as [r Hr]; [left|].
  change (omap (fun i => m !! i) (i :: l))
    with (match m !! i with
          | Some y => y :: omap (fun i => m !! i) l
          | None => omap (fun i => m !! i) l
          end).
  rewrite Hr. cbn [ids List.map]. rewrite (Hid i r Hr). f_equal.
  apply IH. intros j Hj. apply Hall. now right.
Qed.

Section Diffed.
Variables (current : scrape_result) (prev : snapshot)
          (key_fields : option (list (pystr * list pystr)))
          (data_type : pystr) (current_records : list pydict) (fields : list pystr).
Hypothesis Htruthy : snapshot_truthy prev = true.
Hypothesis Hdt : data_type ∈ [py "products"; py "images"; py "assets"].
Hypothesis Hcur : get_category current data_type = Some current_records.
Hypothesis Hkf : dict_get (key_fields_or_default key_fields) data_type = Some fields.

Let ch := detect_changes current (Some prev) key_fields.
Let cur : gset pystr := list_to_set (ids fields current_records).
Let prv : gset pystr :=
  previous_id_set (default [] (snap_record_ids prev)) (snapshot_records prev data_type)
    data_type fields.

Lemma detect_changes_entries :
  change_entries ch data_type
  = (Some (omap (fun i => index_by_id fields current_records !! i)
             (elements (cur ∖ prv))),
     Some (List.flat_map
             (updated_of fields (index_by_id fields current_records)
                (snapshot_records prev data_type))
             (elements (cur ∩ prv))),
     Some (elements (prv ∖ cur))).
Proof.
  unfold ch, detect_changes. rewrite Htruthy.
  apply change_entries_diffed; try assumption.
  apply (bool_decide_unpack _). vm_compute. reflexivity.
Qed.

(** The new records are one for each identity the current run has and
    the previous run had not; the removed identities are those the
    previous run had and the current run has not, each once. *)
Theorem new_and_removed_exact :
  exists news rems,
    get_category (new ch) data_type = Some news
    /\ dict_get (removed ch) data_type = Some rems
    /\ NoDup (ids fields news) /\ list_to_set (ids fields news) = cur ∖ prv
    /\ NoDup rems /\ list_to_set rems = prv ∖ cur.
Proof.
  pose proof detect_changes_entries as He. unfold change_entries in He.
  injection He as Hn _ Hr. eexists _, _. split; [exact Hn|]. split; [exact Hr|].
  rewrite ids_of_lookups.
  - split; [apply NoDup_elements|]. split; [apply list_to_set_elements_L|].
    split; [apply NoDup_elements|apply list_to_set_elements_L].
  - intros i r. apply index_by_id_lookup.
  - intros i Hi. apply elem_of_elements, elem_of_difference in Hi as [Hi _].
    apply elem_of_dom. now rewrite index_by_id_dom.
Qed.

(** An entry is listed as updated only for a record of the current run
    and a record of the previous run that have the same identity and
    different fingerprints; no identity is listed twice. *)
Theorem updated_entries_differ :
  exists upds,
    dict_get (updated ch) data_type = Some upds
    /\ NoDup (List.map upd_id upds)
    /\ forall e, e ∈ upds ->
         upd_current e ∈ current_records
         /\ upd_previous e ∈ snapshot_records prev data_type
         /\ generate_id (upd_current e) fields = upd_id e
         /\ generate_id (upd_previous e) fields = upd_id e
         /\ generate_fingerprint (upd_current e)
            <> generate_fingerprint (upd_previous e).
Proof.
  pose proof detect_changes_entries as He. unfold change_entries in He.
  injection He as _ Hu _. eexists. split; [exact Hu|]. split.
  - generalize (NoDup_elements (cur ∩ prv)). generalize (elements (cur ∩ prv)).
    intros l Hnd. induction Hnd as [|i l Hi Hnd IH]; [constructor|].
    cbn [List.flat_map]. rewrite map_app. apply NoDup_app. split; [|split; [|exact IH]].
    + unfold updated_of. destruct (_ !! i); [|constructor].
      destruct (List.find _ _) as [[|? ?]|]; try constructor.
      destruct (decide _); [apply NoDup_singleton|constructor].
    + intros x Hx Hx'.
      apply list_elem_of_In, in_map_iff in Hx as (e & Hex & He).
      apply list_elem_of_In, updated_of_id in He.
      apply list_elem_of_In, in_map_iff in Hx' as (e' & He'x & He').
      apply in_flat_map in He' as (j & Hj & He').
      apply list_elem_of_In, updated_of_id in He'. apply list_elem_of_In in Hj.
      apply Hi. congruence.
  - intros e He. apply list_elem_of_In, in_flat_map in He as (i & _ & He).
    apply list_elem_of_In in He. unfold updated_of in He.
    destruct (index_by_id fields current_records !! i) as [c|] eqn:Hc; [|inversion He].
    destruct (List.find _ _) as [[|kv p]|] eqn:Hf; try (inversion He; fail).
    destruct (decide _) as [Hfp|]; [|inversion He].
    apply list_elem_of_singleton in He as ->. cbn [upd_current upd_previous upd_id].
    apply find_some in Hf as [Hp Hpid]. apply bool_decide_eq_true in Hpid.
    split; [now apply index_by_id_in in Hc|]. split; [now apply list_elem_of_In|].
    split; [now apply index_by_id_lookup in Hc|]. split; [exact Hpid|exact Hfp].
Qed.
End Diffed.

(** A data type the current result has not, or that the key fields do not
    cover, is skipped: nothing is listed for it.  With a previous
    snapshot, contacts, text and crawl links are never in the change
    set. *)
Theorem skipped_data_types (current : scrape_result) (prev : snapshot)
    (key_fields : option (list (pystr * list pystr))) :
  snapshot_truthy prev = true ->
  let ch := detect_changes current (Some prev) key_fields in
  (forall data_type,
     get_category current data_type = None
     \/ dict_get (key_fields_or_default key_fields) data_type = None ->
     change_entries ch data_type = (None, None, None))
  /\ contacts (new ch) = None /\ text (new ch) = None /\ crawl (new ch) = None.
Proof.
  intros Htruthy ch. subst ch. unfold detect_changes. rewrite Htruthy. split.
  - intros data_type Hskip. rewrite change_entries_skipped by exact Hskip.
    unfold change_entries, get_category. cbn [new updated removed dict_get].
    repeat (destruct (decide _); [reflexivity|]). reflexivity.
  - set (step := diff_data_type _ _ _ _).
    assert (forall c n, contacts (new (step c n)) = contacts (new c)
                        /\ text (new (step c n)) = text (new c)
                        /\ crawl (new (step c n)) = crawl (new c)) as Hstep.
    { intros c n. unfold step, diff_data_type.
      destruct (get_category current n); [|auto].
      destruct (dict_get _ n); [|auto]. cbn [new]. unfold set_category.
      repeat (destruct (decide _); [auto|]). auto. }
    cbn [fold_left].
    destruct (Hstep (step (step {| new := empty_result; updated := []; removed := [] |}
                             (py "products")) (py "images")) (py "assets"))
      as (-> & -> & ->).
    destruct (Hstep (step {| new := empty_result; updated := []; removed := [] |}
                       (py "products")) (py "images")) as (-> & -> & ->).
    destruct (Hstep {| new := empty_result; updated := []; removed := [] |}
                (py "products")) as (-> & -> & ->).
    auto.
Qed.

(** Diffing a run against its own snapshot, taken with the same key
    fields, lists nothing, as long as no two records of the category
    share an identity. *)
Theorem self_diff_empty (data : scrape_result) (prev : snapshot)
    (key_fields : list (pystr * list pystr)) (record_ids : list (pystr * list pystr))
    (data_type : pystr) (records : list pydict) (fields : list pystr) :
  is_dict key_fields ->
  snapshot_record_ids data key_fields [] = Ok record_ids ->
  snap_data prev = Some data -> snap_record_ids prev = Some record_ids ->
  data_type ∈ [py "products"; py "images"; py "assets"] ->
  get_category data data_type = Some records ->
  dict_get key_fields data_type = Some fields ->
  NoDup (ids fields records) ->
  change_entries (detect_changes data (Some prev) (Some key_fields)) data_type
  = (Some [], Some [], Some []).
Proof.
  intros Hd Hsaved Hdata Hids Hdt Hcat Hkf Hnd.
  assert (key_fields_or_default (Some key_fields) = key_fields) as Hkfd
    by (destruct key_fields; [discriminate|reflexivity]).
  assert (snapshot_truthy prev = true) as Htruthy.
  { unfold snapshot_truthy. rewrite Hdata. cbn.
    now rewrite !orb_true_r. }
  rewrite (detect_changes_entries data prev (Some key_fields) data_type records fields
             Htruthy Hdt Hcat); [|now rewrite Hkfd].
  assert (snapshot_records prev data_type = records) as Hrec.
  { unfold snapshot_records. rewrite Hdata.
    change (default empty_result (Some data)) with data. now rewrite Hcat. }
  rewrite Hrec.
  assert (previous_id_set (default [] (snap_record_ids prev)) records data_type fields
          = list_to_set (ids fields records)) as Hprv.
  { unfold previous_id_set. rewrite Hids.
    change (default [] (Some record_ids)) with record_ids.
    rewrite (snapshot_record_ids_stored data key_fields data_type fields records
               Hd Hkf Hcat [] record_ids Hsaved).
    change (default [] (Some (ids fields records))) with (ids fields records).
    destruct (decide _); reflexivity. }
  rewrite Hprv. rewrite difference_diag_L, elements_empty. f_equal. f_equal.
  generalize (elements (list_to_set (ids fields records) ∩ list_to_set (ids fields records)
                        : gset pystr)).
  intros l. induction l as [|i l IH]; [reflexivity|].
  cbn [List.flat_map]. injection IH as ->. rewrite app_nil_r.
  unfold updated_of.
  destruct (index_by_id fields records !! i) as [c|] eqn:Hc; [|reflexivity].
  destruct (List.find _ records) as [[|kv p]|] eqn:Hf; try reflexivity.
  apply find_some in Hf as [Hp Hpid]. apply bool_decide_eq_true in Hpid.
  assert (c = kv :: p) as ->; [|now rewrite decide_False by (intros E; now apply E)].
  pose proof (index_by_id_in _ _ _ _ Hc) as Hcin. apply index_by_id_lookup in Hc.
  apply list_elem_of_In in Hp.
  exact (NoDup_map_inj (fun r => generate_id r fields) records c (kv :: p)
           Hnd Hcin Hp (eq_trans Hc (eq_sym Hpid))).
Qed.
End ChangeLists.

(** * The further properties at sample data *)

Section ValidatorRuns.
#[local] Existing Instance exact_types.

(** A product with two fields the schema does not name: they come after
    the declared fields, here in the reverse of their order in the
    record. *)
Lemma model_dict_keys_witness :
  exists out extras,
    model_dict ProductSchema tagged_chair = Ok out
    /\ out.*1 = List.map fname (fields ProductSchema) ++ extras
    /\ extras = [py "sku"; py "url"]
    /\ extras ≡ₚ List.filter (fun k => negb (is_declared ProductSchema k))
                   (tagged_chair.*1).
Proof.
  destruct (model_dict_keys ProductSchema tagged_chair
              (default [] (accepted ProductSchema tagged_chair)))
    as (extras & Hkeys & Hperm); [vm_compute; reflexivity|].
  exists (default [] (accepted ProductSchema tagged_chair)), extras.
  split; [vm_compute; reflexivity|]. split; [exact Hkeys|]. split; [|exact Hperm].
  apply (app_inv_head (List.map fname (fields ProductSchema))).
  rewrite <- Hkeys. vm_compute. reflexivity.
Defined.

Lemma validated_product_title_witness :
  exists out,
    out ∈ (validate_products (new_validator default_threshold) [lamp; untitled]).2
    /\ (exists title,
          dict_get out (py "title") = Some (VStr title)
          /\ title <> [] /\ (length title <= 500)%nat /\ trimmed title)
    /\ (forall price,
          dict_get out (py "price") = Some (VStr price) ->
          price = [] \/ existsb is_digit price = true).
Proof.
  eexists. split; [vm_compute; left|].
  apply (validated_product_title (new_validator default_threshold) [lamp; untitled]).
  vm_compute. left.
Defined.

Lemma validated_url_witness :
  exists out,
    out ∈ (validate_images (new_validator default_threshold) [captioned_image]).2
    /\ exists url,
         dict_get out (py "url") = Some (VStr url) /\ startswith (py "http") url = true.
Proof.
  eexists. split; [vm_compute; left|].
  apply (validated_url (new_validator default_threshold) [captioned_image]).
  left. vm_compute. left.
Defined.

(** A text record with 150 headings validates, to the first 100 of
    them. *)
Lemma validated_text_capped_witness :
  exists out,
    (validate_text (new_validator default_threshold) long_text).2 = Some out
    /\ dict_get out (py "headings") = Some (VList (firstn 100 many_headings))
    /\ is_Some (validate_text (new_validator default_threshold)
                  (dict_set page_text (py "headings") (VList many_headings))).2.
Proof.
  pose proof (validated_text_capped (new_validator default_threshold) long_text)
    as (_ & Hcut & _).
  pose proof (validated_text_capped (new_validator default_threshold) page_text)
    as (_ & _ & Hmore).
  exists (default [] (validate_text (new_validator default_threshold) long_text).2).
  split; [vm_compute; reflexivity|]. split.
  - destruct (Hcut "headings"%string many_headings
                (default [] (validate_text (new_validator default_threshold)
                               long_text).2))
      as (strs & Hs & Hout); [left|vm_compute; reflexivity|vm_compute; reflexivity|].
    rewrite Hout. f_equal. f_equal. f_equal.
    assert (str_items (py "headings") many_headings = Ok many_headings) as Hs'
      by (vm_compute; reflexivity).
    congruence.
  - apply (Hmore "headings"%string [] many_headings); [left| |].
    + apply Forall_forall. intros v Hv. apply list_elem_of_In, in_map_iff in Hv
        as (n & <- & _). cbn. eauto.
    + vm_compute. eauto.
Defined.

Lemma validated_contact_emails_witness :
  exists out,
    (validate_contacts (new_validator default_threshold) page_contacts).2 = Some out
    /\ exists emails,
         dict_get out (py "emails") = Some (VList emails)
         /\ Forall (fun e =>
                      exists s loc dom,
                        e = VStr s
                        /\ (s = loc ++ [64] ++ dom \/ s = loc ++ [64] ++ dom ++ [10])
                        /\ loc <> [] /\ forallb email_char (loc ++ dom) = true
                        /\ inner_dot true dom = true) emails.
Proof.
  eexists. split; [vm_compute; reflexivity|].
  apply (validated_contact_emails (new_validator default_threshold) page_contacts).
  vm_compute. reflexivity.
Defined.

(** A validator with one error in its log, run again after [clear_errors]. *)
Lemma empty_log_returns_witness :
  (errors used_validator = [] ->
   (validate_result used_validator (set_products [lamp; untitled] empty_result)).2
   = Ok (validated_ (validate_categories used_validator
                       (set_products [lamp; untitled] empty_result))))
  /\ (validate_result (clear_errors used_validator)
        (set_products [lamp; untitled] empty_result)).2
     = Ok (validated_ (validate_categories (clear_errors used_validator)
                         (set_products [lamp; untitled] empty_result))).
Proof.
  apply (empty_log_returns used_validator (set_products [lamp; untitled] empty_result)).
  vm_compute. discriminate.
Defined.

Lemma nothing_to_validate_witness :
  validate_result used_validator
    (set_crawl [py "http://shop/"] (set_products [] empty_result))
  = (used_validator,
     Ok {| products := None; images := None; contacts := None; text := None;
           assets := None; crawl := Some [py "http://shop/"] |}).
Proof.
  apply (nothing_to_validate used_validator
           (set_crawl [py "http://shop/"] (set_products [] empty_result)));
    vm_compute; first [left | right; left].
Defined.
End ValidatorRuns.

Section SnapshotRuns.
#[local] Existing Instance hashlib_md5.
#[local] Existing Instance no_floats.

Lemma load_latest_snapshot_newest_witness :
  exists f,
    f ∈ snapshot_dir /\ glob_matches (py "shop") (file_name f) = true
    /\ file_content f = shop_snapshot
    /\ forall g, g ∈ snapshot_dir -> glob_matches (py "shop") (file_name g) = true ->
                 (st_mtime g <= st_mtime f)%Z.
Proof.
  exact (load_latest_snapshot_newest snapshot_dir (py "shop")).
Defined.

(** The second run of the [shop] job, an hour after the first. *)
Lemma save_then_load_witness :
  exists dir' path,
    save_snapshot snapshot_dir 1700003600 1700003600 (py "shop") shop_current None
    = Ok (dir', path)
    /\ path = snapshot_name (py "shop") 1700003600
    /\ exists snap,
         load_latest_snapshot dir' (py "shop") = Some snap
         /\ snap_data snap = Some shop_current
         /\ snap_job_id snap = Some (py "shop")
         /\ snap_timestamp snap = Some 1700003600%Z.
Proof.
  eexists _, _. split; [vm_compute; reflexivity|].
  apply (save_then_load snapshot_dir _ 1700003600 1700003600 (py "shop") _ shop_current
           None).
  - reflexivity.
  - vm_compute. reflexivity.
  - intros g Hg Hm.
    apply elem_of_cons in Hg as [->|Hg]; [reflexivity|].
    apply list_elem_of_singleton in Hg as ->. discriminate Hm.
Defined.

Lemma new_and_removed_exact_witness :
  let ch := detect_changes shop_current (Some shop_snapshot) None in
  let fields := [py "title"; py "url"] in
  let cur : gset pystr := list_to_set (ids fields [lamp_again; chair]) in
  let prv : gset pystr :=
    previous_id_set (default [] (snap_record_ids shop_snapshot))
      (snapshot_records shop_snapshot (py "products")) (py "products") fields in
  exists news rems,
    get_category (new ch) (py "products") = Some news
    /\ dict_get (removed ch) (py "products") = Some rems
    /\ NoDup (ids fields news) /\ list_to_set (ids fields news) = cur ∖ prv
    /\ NoDup rems /\ list_to_set rems = prv ∖ cur.
Proof.
  apply (new_and_removed_exact shop_current shop_snapshot None (py "products")
           [lamp_again; chair] [py "title"; py "url"]).
  - vm_compute. reflexivity.
  - apply (bool_decide_unpack _). vm_compute. reflexivity.
  - vm_compute. reflexivity.
  - vm_compute. reflexivity.
Defined.

Lemma updated_entries_differ_witness :
  let ch := detect_changes shop_current (Some shop_snapshot) None in
  let fields := [py "title"; py "url"] in
  exists upds,
    dict_get (updated ch) (py "products") = Some upds
    /\ NoDup (List.map upd_id upds)
    /\ forall e, e ∈ upds ->
         upd_current e ∈ [lamp_again; chair]
         /\ upd_previous e ∈ snapshot_records shop_snapshot (py "products")
         /\ generate_id (upd_current e) fields = upd_id e
         /\ generate_id (upd_previous e) fields = upd_id e
         /\ generate_fingerprint (upd_current e)
            <> generate_fingerprint (upd_previous e).
Proof.
  apply (updated_entries_differ shop_current shop_snapshot None (py "products")
           [lamp_again; chair] [py "title"; py "url"]).
  - vm_compute. reflexivity.
  - apply (bool_decide_unpack _). vm_compute. reflexivity.
  - vm_compute. reflexivity.
  - vm_compute. reflexivity.
Defined.

Lemma skipped_data_types_witness :
  let ch := detect_changes shop_current (Some shop_snapshot) None in
  (forall data_type,
     get_category shop_current data_type = None
     \/ dict_get (key_fields_or_default None) data_type = None ->
     change_entries ch data_type = (None, None, None))
  /\ contacts (new ch) = None /\ text (new ch) = None /\ crawl (new ch) = None.
Proof.
  apply (skipped_data_types shop_current shop_snapshot None). vm_compute. reflexivity.
Defined.

Lemma self_diff_empty_witness :
  change_entries (detect_changes shop_current (Some shop_saved) (Some default_key_fields))
    (py "products")
  = (Some [], Some [], Some []).
Proof.
  apply (self_diff_empty shop_current shop_saved default_key_fields
           [(py "products", ids [py "title"; py "url"] [lamp_again; chair])]
           (py "products") [lamp_again; chair] [py "title"; py "url"]).
  - apply (bool_decide_unpack _). vm_compute. reflexivity.
  - vm_compute. reflexivity.
  - reflexivity.
  - reflexivity.
  - apply (bool_decide_unpack _). vm_compute. reflexivity.
  - vm_compute. reflexivity.
  - vm_compute. reflexivity.
  - apply (bool_decide_unpack _). vm_compute. reflexivity.
Defined.
End SnapshotRuns.
